(** * Hachoir metadata engine (Sick-Beard, lib/hachoir_metadata and
      lib/hachoir_core/field/vector.py): a shallow embedding and its
      verified properties.

    The Python sources are embedded function by function.  Mutable objects
    are threaded explicitly: a method that mutates [self] is a function from
    the old object to the new object together with its outcome, and the
    object survives an exception raised half-way, as it does in Python. *)

From Stdlib Require Import ZArith String Ascii List Bool Lia.
From Stdlib Require Import Floats.SpecFloat Sorting.Sorted.
From stdpp Require Import base option list strings pretty gmap.

Set Default Proof Using "Type".
Local Open Scope Z_scope.

(* ===================================================================== *)
(** * Python runtime: exceptions, outcomes, mutable state                *)
(* ===================================================================== *)

Module Py.

(** Exception classes that the embedded code raises or catches. *)
Inductive exn_class :=
  | KeyError | IndexError | ValueError | TypeError | ZeroDivisionError
  | OverflowError | AssertionError | ParserError | UniqKeyError
  | MissingField.

Record exn := mk_exn { exn_cls : exn_class; exn_msg : string }.

(** [except LookupError]: KeyError and IndexError are its subclasses. *)
Definition is_LookupError (c : exn_class) : bool :=
  match c with KeyError | IndexError => true | _ => false end.

Definition is_ValueError (c : exn_class) : bool :=
  match c with ValueError => true | _ => false end.

(** Outcome of a call: a returned value or a raised exception. *)
Inductive result (A : Type) :=
  | Return (a : A)
  | Raise (e : exn).
Arguments Return {A} a.
Arguments Raise {A} e.

Definition rbind {A B} (r : result A) (k : A -> result B) : result B :=
  match r with Return a => k a | Raise e => Raise e end.

(** A method on a mutable object of type [S]: the object after the call
    (also after a raise) and the outcome. *)
Definition M (S A : Type) : Type := S -> S * result A.

Definition ret {S A} (a : A) : M S A := fun s => (s, Return a).
Definition raise {S A} (e : exn) : M S A := fun s => (s, Raise e).
Definition bind {S A B} (m : M S A) (k : A -> M S B) : M S B :=
  fun s => match m s with
           | (s', Return a) => k a s'
           | (s', Raise e) => (s', Raise e)
           end.
Definition get_self {S} : M S S := fun s => (s, Return s).
Definition modify {S} (f : S -> S) : M S unit := fun s => (f s, Return tt).
Definition lift {S A} (r : result A) : M S A := fun s => (s, r).

(** [try: body except <classes>: handler] *)
Definition try_except {S A} (body : M S A) (catches : exn_class -> bool)
    (handler : exn -> M S A) : M S A :=
  fun s => match body s with
           | (s', Raise e) =>
               if catches (exn_cls e) then handler e s' else (s', Raise e)
           | r => r
           end.

(** [for x in xs: body x] *)
Fixpoint for_each {S A} (xs : list A) (body : A -> M S unit) : M S unit :=
  match xs with
  | [] => ret tt
  | x :: rest => bind (body x) (fun _ => for_each rest body)
  end.

End Py.
Import Py.

Declare Scope py_scope.
Delimit Scope py_scope with py.
Notation "'let?' x ':=' r 'in' k" := (rbind r (fun x => k))
  (at level 10, x name, r at level 100, k at level 200) : py_scope.
Notation "'let!' x ':=' m 'in' k" := (bind m (fun x => k))
  (at level 10, x name, m at level 100, k at level 200) : py_scope.
Notation "m '>>>' k" := (bind m (fun _ => k))
  (at level 100, k at level 200, right associativity) : py_scope.
Local Open Scope py_scope.

(* ===================================================================== *)
(** * Python floats: IEEE 754 binary64                                   *)
(* ===================================================================== *)

Module PyFloat.

Definition float := spec_float.
Definition prec : Z := 53.
Definition emax : Z := 1024.

Definition fmul : float -> float -> float := SFmul prec emax.
Definition fdiv : float -> float -> float := SFdiv prec emax.
Definition fle : float -> float -> bool := SFleb.
Definition flt : float -> float -> bool := SFltb.

(** [float(z)] for a Python int: round to nearest even; an int beyond the
    range of doubles raises OverflowError. *)
Definition float_of_int (z : Z) : result float :=
  match binary_normalize prec emax z 0 false with
  | S754_infinity _ =>
      Raise (mk_exn OverflowError "long int too large to convert to float")
  | f => Return f
  end.

(** [int(x)] for a float: truncation towards zero. *)
Definition int_of_float (x : float) : result Z :=
  match x with
  | S754_zero _ => Return 0
  | S754_finite s m e =>
      let mag := Z.shiftl (Zpos m) e in
      Return (if s then - mag else mag)
  | S754_infinity _ =>
      Raise (mk_exn OverflowError "cannot convert float infinity to integer")
  | S754_nan =>
      Raise (mk_exn ValueError "cannot convert float NaN to integer")
  end.

(** Mathematical floor of a finite float. *)
Definition floor (x : float) : option Z :=
  match x with
  | S754_zero _ => Some 0
  | S754_finite s m e => Some (Z.shiftl (if s then Zneg m else Zpos m) e)
  | _ => None
  end.

Definition is_zero (x : float) : bool :=
  match x with S754_zero _ => true | _ => false end.

(** Python's [max(a, b)] and [min(a, b)] on floats: the first argument is
    kept unless the second compares strictly greater (smaller). *)
Definition py_max (a b : float) : float := if flt a b then b else a.
Definition py_min (a b : float) : float := if flt b a then b else a.

Definition f0 : float := S754_zero false.
Definition f1 : float := Eval vm_compute in binary_normalize prec emax 1 0 false.
Definition f10 : float := Eval vm_compute in binary_normalize prec emax 10 0 false.
Definition f3 : float := Eval vm_compute in binary_normalize prec emax 3 0 false.
(** 0.25 = 1 * 2^-2 *)
Definition f0_25 : float := Eval vm_compute in binary_normalize prec emax 1 (-2) false.

End PyFloat.
Import PyFloat.

(* ===================================================================== *)
(** * Python values stored in metadata fields                            *)
(* ===================================================================== *)

Module PyObj.

(** The raw values the extractors write: [None], ints (sizes), floats
    (rates) and strings (names, display texts, dates). *)
Inductive pyobj :=
  | VNone
  | VInt (z : Z)
  | VFloat (f : float)
  | VStr (s : string).

#[global] Instance spec_float_eq_dec : EqDecision spec_float.
Proof. solve_decision. Defined.
#[global] Instance pyobj_eq_dec : EqDecision pyobj.
Proof. solve_decision. Defined.

(** Truth value of an object, as [if x:] and [not x] test it. *)
Definition truthy (v : pyobj) : bool :=
  match v with
  | VNone => false
  | VInt z => negb (z =? 0)
  | VFloat f => negb (is_zero f)
  | VStr s => negb (String.eqb s "")
  end.

Definition is_None (v : pyobj) : bool :=
  match v with VNone => true | _ => false end.

Definition dquote : string := String "034"%char EmptyString.

Section Builtins.
(** Two builtins are left to the interpreter: the text of a float
    ([str(f)]) and the parser of [float(s)] on strings. *)
Variable float_repr : float -> string.
Variable float_of_str : string -> option float.

(** ["%s" % v] *)
Definition py_str (v : pyobj) : string :=
  match v with
  | VNone => "None"
  | VInt z => pretty z
  | VFloat f => float_repr f
  | VStr s => s
  end.

(** [float(v)] *)
Definition py_float (v : pyobj) : result float :=
  match v with
  | VNone => Raise (mk_exn TypeError "float() argument must be a string or a number")
  | VInt z => float_of_int z
  | VFloat f => Return f
  | VStr s =>
      match float_of_str s with
      | Some f => Return f
      | None => Raise (mk_exn ValueError "could not convert string to float")
      end
  end.
End Builtins.

(** [x / v] for a float [x]: the divisor is coerced to a float; a zero
    divisor raises ZeroDivisionError. *)
Definition float_div (x : float) (v : pyobj) : result float :=
  match v with
  | VInt z =>
      let? y := float_of_int z in
      if is_zero y then Raise (mk_exn ZeroDivisionError "float division by zero")
      else Return (fdiv x y)
  | VFloat y =>
      if is_zero y then Raise (mk_exn ZeroDivisionError "float division by zero")
      else Return (fdiv x y)
  | _ => Raise (mk_exn TypeError "unsupported operand type(s) for /")
  end.

(** [l[index]] on a Python list: negative indexes count from the end, an
    index out of range raises IndexError. *)
Definition list_getitem {A} (l : list A) (index : Z) : result A :=
  let n := Z.of_nat (length l) in
  let i := if index <? 0 then index + n else index in
  if (0 <=? i) && (i <? n) then
    match l !! Z.to_nat i with
    | Some a => Return a
    | None => Raise (mk_exn IndexError "list index out of range")
    end
  else Raise (mk_exn IndexError "list index out of range").

(** [s.endswith(suffix)] and [s[:-2]] *)
Definition endswith (s suffix : string) : bool :=
  let ls := String.length s in
  let lx := String.length suffix in
  (lx <=? ls)%nat && String.eqb (substring (ls - lx) lx s) suffix.

Definition drop_last2 (s : string) : string :=
  substring 0 (String.length s - 2) s.

End PyObj.
Import PyObj.

(* ===================================================================== *)
(** * lib/hachoir_metadata/metadata_item.py (not part of the sources)    *)
(* ===================================================================== *)

Module MetadataItem.

(** A value item: [item.value] and [item.text]. *)
Record DataValue := mk_item { value : pyobj; text : string }.

(** A field descriptor: [data.key], [data.priority], [data.description],
    [data.values], and the handler computing the display text. *)
Record Data := mk_data {
  key : string;
  priority : Z;
  description : string;
  text_handler : pyobj -> string;
  values : list DataValue
}.

Definition set_values (d : Data) (vs : list DataValue) : Data :=
  mk_data (key d) (priority d) (description d) (text_handler d) vs.

(** Modelled from the spec: [Data.__contains__] of metadata_item.py, which
    is missing from the sources.  An equal raw value already exists under
    the key (set-like semantics keyed by value equality). *)
Definition Data_contains (d : Data) (v : pyobj) : bool :=
  existsb (fun item => bool_decide (v = value item)) (values d).

(** Modelled from the spec: [Data.add] of metadata_item.py, which is
    missing from the sources.  It converts the value into a value item (raw
    value and computed display text) and inserts it, skipping the insertion
    if an equal raw value already exists under that key; a duplicate is no
    error. *)
Definition Data_add (d : Data) (v : pyobj) : Data :=
  if Data_contains d v then d
  else set_values d (values d ++ [mk_item v (text_handler d v)]).

(** Modelled from the spec: [Data.__len__], missing from the sources.  A
    field is non-empty iff it has at least one value item. *)
Definition Data_len (d : Data) : nat := length (values d).

Definition Data_nonzero (d : Data) : bool := negb (Data_len d =? 0)%nat.

(** Modelled from the spec: [Data.__getitem__], missing from the sources.
    The value item at [index], by Python list indexing on [values]. *)
Definition Data_getitem (d : Data) (index : Z) : result DataValue :=
  list_getitem (values d) index.

(** Modelled from the spec: the order of [sorted(self)], given by
    [Data.__cmp__] (missing from the sources): priority, then declaration
    order.  A stable insertion sort on the priority. *)
Fixpoint insert_by_priority (d : Data) (l : list Data) : list Data :=
  match l with
  | [] => [d]
  | x :: rest =>
      if priority d <=? priority x then d :: l
      else x :: insert_by_priority d rest
  end.

Definition sorted (l : list Data) : list Data :=
  foldr insert_by_priority [] l.

End MetadataItem.
Import MetadataItem.

(* ===================================================================== *)
(** * lib/hachoir_metadata/metadata.py                                   *)
(* ===================================================================== *)

(** The log that [Logger.warning] and [error] append to. *)
Inductive log_level := LogWarning | LogError.
Definition Log : Type := list (log_level * string).

Module Metadata.

(** The state of a [Metadata] object: its class name, its header, its
    quality and [__data], the declared fields in registration order. *)
Record t := mk {
  class_name : string;
  header : string;
  quality : float;
  data : list Data
}.

Definition set_data (self : t) (d : list Data) : t :=
  mk (class_name self) (header self) (quality self) d.

(** [self.__data[key]] as a lookup; [None] when the key is not declared. *)
Definition data_lookup (self : t) (k : string) : option Data :=
  List.find (fun d => String.eqb (key d) k) (data self).

(** [self.__data[key] = d] for a key that is declared: in place. *)
Definition data_update (self : t) (k : string) (d : Data) : t :=
  set_data self
    (map (fun x => if String.eqb (key x) k then d else x) (data self)).

(** [__setattr__]: add a new value to data with name [key]; skip
    duplicates. *)
Definition __setattr__ (k : string) (v : pyobj) : M t unit :=
  fun self =>
    match data_lookup self k with
    | None =>
        (self, Raise (mk_exn KeyError
           (class_name self +:+ " has no metadata '" +:+ k +:+ "'")))
    | Some d => (data_update self k (Data_add d v), Return tt)
    end.

Definition setHeader (text : string) (self : t) : t :=
  mk (class_name self) text (quality self) (data self).

Definition getItems (self : t) (k : string) : result Data :=
  match data_lookup self k with
  | Some d => Return d
  | None => Raise (mk_exn ValueError ("Metadata has no value '" +:+ k +:+ "'"))
  end.

(** [getItem]: Python's [None] is [None] here.  The handler catches
    [(LookupError, ValueError)]; any other class would propagate. *)
Definition getItem (self : t) (k : string) (index : Z)
    : result (option DataValue) :=
  match (let? items := getItems self k in Data_getitem items index) with
  | Return item => Return (Some item)
  | Raise e =>
      if is_LookupError (exn_cls e) || is_ValueError (exn_cls e)
      then Return None else Raise e
  end.

Definition has (self : t) (k : string) : result bool :=
  let? items := getItems self k in
  Return (1 <=? Data_len items)%nat.

Definition get (self : t) (k : string) (default : pyobj) (index : Z)
    : result pyobj :=
  let? item := getItem self k index in
  match item with
  | None =>
      if is_None default then
        Raise (mk_exn ValueError
          ("Metadata has no value '" +:+ k +:+ "' (index " +:+ pretty index +:+ ")"))
      else Return default
  | Some item => Return (value item)
  end.

Definition getValues (self : t) (k : string) : result (list pyobj) :=
  match data_lookup self k with
  | Some d => Return (map value (values d))
  | None => Raise (mk_exn ValueError ("Metadata has no value '" +:+ k +:+ "'"))
  end.

Definition getText (self : t) (k : string) (default : pyobj) (index : Z)
    : result pyobj :=
  let? item := getItem self k index in
  match item with
  | Some item => Return (VStr (text item))
  | None => Return default
  end.

Definition register (d : Data) : M t unit :=
  fun self =>
    match data_lookup self (key d) with
    | Some _ => (self, Raise (mk_exn AssertionError ""))
    | None => (set_data self (data self ++ [d]), Return tt)
    end.

(** [__nonzero__]: any field with at least one value. *)
Definition __nonzero__ (self : t) : bool :=
  existsb Data_nonzero (data self).

Section PlainText.
(** Constants of metadata_item.py and the text coercion of
    hachoir_core.tools, all outside the sources. *)
Variables MIN_PRIORITY MAX_PRIORITY : Z.
Variable makeUnicode : pyobj -> string.

(** The loop of [exportPlaintext] over the sorted fields: [break] at the
    first field above the cut-off, [continue] on a field without values. *)
Fixpoint export_fields (prio : Z) (human : bool) (line_prefix : string)
    (fields : list Data) : list string :=
  match fields with
  | [] => []
  | d :: rest =>
      if prio <? priority d then []
      else
        match values d with
        | [] => export_fields prio human line_prefix rest
        | items =>
            let title := if human then description d else key d in
            map (fun item =>
                   let v := if human then text item else makeUnicode (value item) in
                   line_prefix +:+ title +:+ ": " +:+ v) items
            ++ export_fields prio human line_prefix rest
        end
  end.

Definition exportPlaintext (self : t) (prio : option Z) (human : bool)
    (line_prefix : string) (title : option string) : option (list string) :=
  let prio :=
    match prio with
    | Some p => Z.min (Z.max p MIN_PRIORITY) MAX_PRIORITY
    | None => MAX_PRIORITY
    end in
  let title :=
    match title with
    | Some s => if String.eqb s "" then header self else s
    | None => header self
    end in
  let text :=
    (title +:+ ":") :: export_fields prio human line_prefix (sorted (data self)) in
  if (1 <? length text)%nat then Some text else None.

End PlainText.

End Metadata.

(** A metadata object as the code handles it: a plain [Metadata] (or
    [RootMetadata]), or a [MultipleMetadata] with its groups (the ordered
    [Dict] of child objects) and its per-key occurrence counters. *)
#[warnings="-register-all"]
Inductive document :=
  | Plain (m : Metadata.t)
  | Multiple (m : Metadata.t) (groups : list (string * document))
             (key_counter : gmap string Z).

Definition base (d : document) : Metadata.t :=
  match d with Plain m => m | Multiple m _ _ => m end.

Definition with_base (f : Metadata.t -> Metadata.t) (d : document) : document :=
  match d with
  | Plain m => Plain (f m)
  | Multiple m gs kc => Multiple (f m) gs kc
  end.

(** [bool(metadata)]: [Metadata.__nonzero__] on a plain object;
    [MultipleMetadata.__nonzero__] first asks [RootMetadata.__nonzero__] and
    then any group (iterating a [Dict] yields its values). *)
Fixpoint __nonzero__ (d : document) : bool :=
  match d with
  | Plain m => Metadata.__nonzero__ m
  | Multiple m groups _ =>
      if Metadata.__nonzero__ m then true
      else existsb (fun kg => __nonzero__ (snd kg)) groups
  end.

(** A method of the base class called on any metadata object. *)
Definition on_base {A} (m : M Metadata.t A) : M document A :=
  fun d => match m (base d) with
           | (b, r) => (with_base (fun _ => b) d, r)
           end.

Section DocumentText.
Variables MIN_PRIORITY MAX_PRIORITY : Z.
Variable makeUnicode : pyobj -> string.

(** The loop [for key, metadata in self.__groups.iteritems()] of
    [MultipleMetadata.exportPlaintext]: [export metadata title] is the call
    [metadata.exportPlaintext(priority, human, line_prefix, title=title)],
    and [text] is extended with every true value. *)
Definition extend_with_groups
    (export : document -> option string -> result (option (list string)))
    (human : bool)
    : list (string * document) -> list string -> result (list string) :=
  fix iteritems gs text :=
    match gs with
    | [] => Return text
    | (k, metadata) :: rest =>
        let title := if negb human then Some k else None in
        let? value := export metadata title in
        match value with
        | Some ((_ :: _) as lines) => iteritems rest (text ++ lines)
        | _ => iteritems rest text
        end
    end.

(** [metadata.exportPlaintext(priority, human, line_prefix[, title=...])]
    with dynamic dispatch.  [title] is [None] when the caller passes no
    [title] keyword and [Some t] when it passes [title=t].
    [MultipleMetadata.exportPlaintext] declares no [title] parameter, so a
    call with the keyword raises TypeError. *)
Fixpoint exportPlaintext (d : document) (prio : option Z) (human : bool)
    (line_prefix : string) (title : option (option string)) {struct d}
    : result (option (list string)) :=
  match d with
  | Plain m =>
      let title := match title with Some t => t | None => None end in
      Return (Metadata.exportPlaintext MIN_PRIORITY MAX_PRIORITY makeUnicode
                m prio human line_prefix title)
  | Multiple m groups _ =>
      match title with
      | Some _ =>
          Raise (mk_exn TypeError
            "exportPlaintext() got an unexpected keyword argument 'title'")
      | None =>
          let common :=
            Metadata.exportPlaintext MIN_PRIORITY MAX_PRIORITY makeUnicode
              m prio human line_prefix None in
          let text :=
            match common with
            | Some ((_ :: _) as c) => c
            | _ => []
            end in
          let? text :=
            extend_with_groups
              (fun metadata title =>
                 exportPlaintext metadata prio human line_prefix (Some title))
              human groups text in
          Return (match text with [] => None | _ => Some text end)
      end
  end.

End DocumentText.

Section Construct.
(** [registerAllItems] (register.py, outside the sources) declares a fixed
    table of fields; [QUALITY_NORMAL] is the default quality. *)
Variable registerAllItems : list Data.
Variable QUALITY_NORMAL : float.

(** [Metadata.__init__(self, parent, quality)].  The quality is the
    parent's when [parent] is true, and the argument limited to 0.0 .. 1.0
    otherwise. *)
Definition Metadata__init__ (cls hdr : string) (parent : option document)
    (quality : float) : result Metadata.t :=
  let quality :=
    match parent with
    | Some p =>
        if __nonzero__ p then Metadata.quality (base p)
        else py_min (py_max f0 quality) f1
    | None => py_min (py_max f0 quality) f1
    end in
  match for_each registerAllItems Metadata.register
          (Metadata.mk cls hdr quality []) with
  | (self, Return _) => Return self
  | (_, Raise e) => Raise e
  end.

(** [Metadata(parent)], the call of the extractors for a per-file group. *)
Definition Metadata_new (parent : document) : result Metadata.t :=
  Metadata__init__ "Metadata" "Metadata" (Some parent) QUALITY_NORMAL.

Definition RootMetadata__init__ (cls hdr : string) (quality : float)
    : result Metadata.t :=
  Metadata__init__ cls hdr None quality.

End Construct.

Module MultipleMetadata.

(** The state of a [MultipleMetadata] object. *)
Record t := mk {
  root : Metadata.t;
  groups : list (string * document);
  key_counter : gmap string Z
}.

Definition to_document (self : t) : document :=
  Multiple (root self) (groups self) (key_counter self).

(** [key in self.__groups] *)
Definition __contains__ (self : t) (k : string) : bool :=
  existsb (fun kg => String.eqb (fst kg) k) (groups self).

(** Modelled from the spec: [Dict.append] of hachoir_core.dict, which is
    missing from the sources.  Groups are stored in insertion order and
    group keys are unique: a key already present is refused. *)
Definition Dict_append (d : list (string * document)) (k : string)
    (v : document) : result (list (string * document)) :=
  if existsb (fun kg => String.eqb (fst kg) k) d
  then Raise (mk_exn UniqKeyError ("Key '" +:+ k +:+ "' already exists"))
  else Return (d ++ [(k, v)]).

(** The objects a call [self.addGroup(key, metadata, header)] can touch:
    the receiver, the argument [metadata] (through [setHeader]) and the
    log. *)
Record frame := Frame {
  self : t;
  metadata : document;
  log : Log
}.

(** [header] is [None] (the default) or a string; [if header:] is false
    for both [None] and the empty string. *)
Definition addGroup (k : string) (header : option string) : M frame bool :=
  fun st =>
    let me := self st in
    if negb (__nonzero__ (metadata st)) then
      (Frame me (metadata st)
             (log st ++ [(LogWarning, "Skip empty group " +:+ k)]),
       Return false)
    else
      let '(k, counter) :=
        if endswith k "[]" then
          let k := drop_last2 k in
          let n :=
            match key_counter me !! k with
            | Some c => c + 1
            | None => 1
            end in
          (k +:+ "[" +:+ pretty n +:+ "]", <[k := n]> (key_counter me))
        else (k, key_counter me) in
      let child :=
        match header with
        | Some h =>
            if String.eqb h "" then metadata st
            else with_base (Metadata.setHeader h) (metadata st)
        | None => metadata st
        end in
      match Dict_append (groups me) k child with
      | Return gs =>
          (Frame (mk (root me) gs counter) child (log st), Return true)
      | Raise e =>
          (Frame (mk (root me) (groups me) counter) child (log st), Raise e)
      end.

(** The same call seen from a caller that keeps only the receiver and the
    log. *)
Definition call_addGroup (k : string) (child : document)
    (header : option string) : M (t * Log) bool :=
  fun '(me, lg) =>
    match addGroup k header (Frame me child lg) with
    | (st, r) => ((self st, log st), r)
    end.

End MultipleMetadata.

(** [MultipleMetadata.__init__(self, quality)] in a subclass named [cls]:
    the header of the class is "Common"; no group, no counter. *)
Definition MultipleMetadata__init__ (registerAllItems : list Data)
    (cls : string) (quality : float) : result MultipleMetadata.t :=
  let? root := RootMetadata__init__ registerAllItems cls "Common" quality in
  Return (MultipleMetadata.mk root [] ∅).

(** What [extractMetadata] reads from a parser: its class, its MIME type
    and its byte order; [T] is the parsed field tree. *)
Record Parser (T : Type) := mk_parser {
  parser_class : string;
  mime_type : pyobj;
  endian : string;
  tree : T
}.
Arguments parser_class {T}.
Arguments mime_type {T}.
Arguments endian {T}.
Arguments tree {T}.

(** An extractor class: its constructor [extractor(quality)] and its
    population routine [metadata.extract(parser)], which mutates the new
    object and may log. *)
Record Extractor (T : Type) := mk_extractor {
  construct : float -> result document;
  extract : Parser T -> M (document * Log) unit
}.
Arguments construct {T}.
Arguments extract {T}.

(** The second argument of [registerExtractor] as its assertion sees it:
    a class derived from [RootMetadata], with what [extractMetadata] uses
    of it, another class, or an object that is no class. *)
Inductive ExtractorArg (T : Type) :=
  | SubclassOfRootMetadata (e : Extractor T)
  | OtherClass
  | NotAClass.
Arguments SubclassOfRootMetadata {T} e.
Arguments OtherClass {T}.
Arguments NotAClass {T}.

Section Registry.
(** [HACHOIR_ERRORS] (hachoir_core.error) and [endian_name]
    (hachoir_core.endian) are constants outside the sources. *)
Variable HACHOIR_ERRORS : exn_class -> bool.
Variable endian_name : gmap string string.

Context {T : Type}.

(** [registerExtractor]: the key is the parser class.  The first
    assertion refuses a registered parser, the second an extractor that
    is not derived from [RootMetadata]; [issubclass] itself refuses an
    object that is no class. *)
Definition registerExtractor (parser : string) (extractor : ExtractorArg T)
    : M (gmap string (Extractor T)) unit :=
  fun extractors =>
    match extractors !! parser with
    | Some _ => (extractors, Raise (mk_exn AssertionError ""))
    | None =>
        match extractor with
        | NotAClass =>
            (extractors,
             Raise (mk_exn TypeError "issubclass() arg 1 must be a class"))
        | OtherClass => (extractors, Raise (mk_exn AssertionError ""))
        | SubclassOfRootMetadata e =>
            (<[parser := e]> extractors, Return tt)
        end
    end.

(** [error(message)] of hachoir_core.error: an entry in the log. *)
Definition error {S} (message : string) : M (S * Log) unit :=
  fun '(s, lg) => ((s, lg ++ [(LogError, message)]), Return tt).

(** [self.warning(message)] of the Logger base class. *)
Definition warning {S} (message : string) : M (S * Log) unit :=
  fun '(s, lg) => ((s, lg ++ [(LogWarning, message)]), Return tt).

(** The two assignments of [extractMetadata] on a non-empty document. *)
Definition attach (parser : Parser T) : M document unit :=
  on_base (Metadata.__setattr__ "mime_type" (mime_type parser)) >>>
  match endian_name !! endian parser with
  | None => raise (mk_exn KeyError (endian parser))
  | Some name => on_base (Metadata.__setattr__ "endian" (VStr name))
  end.

(** [extractMetadata(parser, quality)]; the state is the log. *)
Definition extractMetadata (extractors : gmap string (Extractor T))
    (parser : Parser T) (quality : float) : M Log (option document) :=
  fun lg =>
    match extractors !! parser_class parser with
    | None => (lg, Return None)
    | Some extractor =>
        match construct extractor quality with
        | Raise e => (lg, Raise e)
        | Return metadata =>
            match try_except (extract extractor parser) HACHOIR_ERRORS
                    (fun err =>
                       error ("Error during metadata extraction: " +:+ exn_msg err))
                    (metadata, lg) with
            | ((_, lg'), Raise e) => (lg', Raise e)
            | ((metadata, lg'), Return _) =>
                if __nonzero__ metadata then
                  match attach parser metadata with
                  | (_, Raise e) => (lg', Raise e)
                  | (metadata, Return _) => (lg', Return (Some metadata))
                  end
                else (lg', Return (Some metadata))
            end
        end
    end.

End Registry.

(* ===================================================================== *)
(** * lib/hachoir_metadata/archive.py                                    *)
(* ===================================================================== *)

Module Archive.

(** Modelled from the spec: [QUALITY_FASTEST] and [QUALITY_BEST] of
    metadata_item.py, missing from the sources.  Quality ranges over
    [0, 1]; the fastest quality is its minimum and the best its maximum. *)
Definition QUALITY_FASTEST : float := f0.
Definition QUALITY_BEST : float := f1.

(** [maxNbFile(meta)]: [None] is no bound.  [10 * meta.quality] multiplies
    the float 10.0 by the quality; [int] truncates. *)
Definition maxNbFile (meta : Metadata.t) : result (option Z) :=
  if fle (Metadata.quality meta) QUALITY_FASTEST then Return (Some 0)
  else if fle QUALITY_BEST (Metadata.quality meta) then Return None
  else
    let? n := int_of_float (fmul f10 (Metadata.quality meta)) in
    Return (Some (1 + n)).

Section Extractors.
Variable HACHOIR_ERRORS : exn_class -> bool.
Variable float_repr : float -> string.
Variable float_of_str : string -> option float.
Variable registerAllItems : list Data.
Variable QUALITY_NORMAL : float.

(** [computeCompressionRate(meta)]: sizes have to be in byte. *)
Definition computeCompressionRate : M Metadata.t unit :=
  let! meta := get_self in
  let! has_size := lift (Metadata.has meta "file_size") in
  if negb has_size then ret tt
  else
    let! compr := lift (Metadata.get meta "compr_size" (VInt 0) 0) in
    if negb (truthy compr) then ret tt
    else
      let! file_size := lift (Metadata.get meta "file_size" VNone 0) in
      if truthy file_size then
        let! num := lift (py_float float_of_str file_size) in
        let! den := lift (Metadata.get meta "compr_size" VNone 0) in
        let! rate := lift (float_div num den) in
        Metadata.__setattr__ "compr_rate" (VFloat rate)
      else ret tt.

(** Modelled from the spec: the [fault_tolerant] decorator of safe.py,
    missing from the sources.  A failure of the wrapped step is contained
    at the step boundary and logged; what was set before stays. *)
Definition fault_tolerant {S} (name : string) (func : M (S * Log) unit)
    : M (S * Log) unit :=
  try_except func HACHOIR_ERRORS
    (fun err =>
       warning ("Error when calling function " +:+ name +:+ "(): "
                +:+ exn_msg err)).

(** One entry of [zip.array(file)], as [processFile] reads it: each field
    access either yields its value or raises. *)
Record ZipFileField := mk_zip_field {
  name : string;
  filename : result pyobj;
  last_mod : result pyobj;
  compression : result pyobj;
  data_desc : option (result pyobj * result pyobj);
  uncompressed_size : result pyobj;
  compressed_size : result pyobj
}.

(** Statements of a routine that work on a local object [l]. *)
Definition on_local {S L A} (m : M L A) (l : L) : M S (L * A) :=
  fun s => match m l with
           | (l', Return a) => (s, Return (l', a))
           | (_, Raise e) => (s, Raise e)
           end.

Definition set_from (k : string) (v : result pyobj) : M Metadata.t unit :=
  let! x := lift v in Metadata.__setattr__ k x.

Definition set_if_true (k : string) (v : result pyobj) : M Metadata.t unit :=
  let! x := lift v in
  if truthy x then set_from k v else ret tt.

(** The body of [ZipMetadata.processFile] on the new [meta]. *)
Definition processFile_fields (field : ZipFileField) : M Metadata.t string :=
  set_from "filename" (filename field) >>>
  set_from "creation_date" (last_mod field) >>>
  set_from "compression" (compression field) >>>
  match data_desc field with
  | Some (file_uncompressed_size, file_compressed_size) =>
      set_from "file_size" file_uncompressed_size >>>
      set_if_true "compr_size" file_compressed_size
  | None =>
      set_from "file_size" (uncompressed_size field) >>>
      set_if_true "compr_size" (compressed_size field)
  end >>>
  computeCompressionRate >>>
  let! meta := get_self in
  let! fname := lift (Metadata.get meta "filename" VNone 0) in
  ret ("File " +:+ dquote +:+ py_str float_repr fname +:+ dquote).

Definition processFile (field : ZipFileField)
    : M (MultipleMetadata.t * Log) unit :=
  fault_tolerant "processFile"
    (let! st := get_self in
     let! meta := lift (Metadata_new registerAllItems QUALITY_NORMAL
                        (MultipleMetadata.to_document (fst st))) in
     let! r := on_local (processFile_fields field) meta in
     let! added := MultipleMetadata.call_addGroup (name field) (Plain (fst r))
                   (Some (snd r)) in
     ret tt).

(** The loop shared by the container extractors:
    [for index, field in enumerate(files)] with the quality bound. *)
Fixpoint enumerate_files {F} (format : string) (max_nb : option Z)
    (process : F -> M (MultipleMetadata.t * Log) unit)
    (index : Z) (files : list F) : M (MultipleMetadata.t * Log) unit :=
  match files with
  | [] => ret tt
  | field :: rest =>
      match max_nb with
      | Some bound =>
          if bound <=? index then
            warning (format +:+ " archive contains many files, but only first "
                     +:+ pretty bound +:+ " files are processed")
          else
            process field >>>
            enumerate_files format max_nb process (index + 1) rest
      | None =>
          process field >>>
          enumerate_files format max_nb process (index + 1) rest
      end
  end.

(** [ZipMetadata.extract(self, zip)] on the entries [zip.array(file)]. *)
Definition ZipMetadata_extract (files : list ZipFileField)
    : M (MultipleMetadata.t * Log) unit :=
  let! st := get_self in
  let! max_nb := lift (maxNbFile (MultipleMetadata.root (fst st))) in
  enumerate_files "ZIP" max_nb processFile 0 files.

End Extractors.

End Archive.

(* ===================================================================== *)
(** * lib/hachoir_core/field/vector.py                                   *)
(* ===================================================================== *)

Module Vector.

(** An item class as [GenericVector] inspects it: whether it is a
    subclass of [Field], and its [static_size], which is [Some] number of
    bits when it is an integer and [None] when it is not (a size computed
    per instance). *)
Record ItemClass := mk_class {
  cls_name : string;
  is_field : bool;
  static_size : option Z
}.

(** The attributes set by [GenericVector.__init__]; [size] is handed to
    [FieldSet.__init__]. *)
Record GenericVector := mk_vector {
  parent_path : string;
  name : string;
  nb_items : Z;
  item_class : ItemClass;
  item_name : string;
  description : option string;
  size : Z
}.

Definition __init__ (parent_path name : string) (nb_items : Z)
    (item_class : ItemClass) (item_name : string)
    (description : option string) : result GenericVector :=
  if negb (is_field item_class) then Raise (mk_exn AssertionError "")
  else
    match static_size item_class with
    | None => Raise (mk_exn AssertionError "")
    | Some static =>
        if nb_items <=? 0 then
          Raise (mk_exn ParserError
            ("Unable to create empty vector " +:+ dquote +:+ name +:+ dquote
             +:+ " in " +:+ parent_path))
        else
          Return (mk_vector parent_path name nb_items item_class item_name
                            description (nb_items * static))
    end.

Definition __len__ (self : GenericVector) : Z := nb_items self.

(** Modelled from the spec: the naming of generated fields by [FieldSet]
    (hachoir_core.field, missing from the sources).  A field whose name
    ends with the array marker gets its position among the fields of that
    name: the first is [name[0]], as the docstring of [UserVector] says. *)
Fixpoint label_fields (counts : gmap string Z)
    (fields : list (ItemClass * string)) : list (ItemClass * string) :=
  match fields with
  | [] => []
  | (cls, name) :: rest =>
      if endswith name "[]" then
        let k := drop_last2 name in
        let n := default 0 (counts !! k) in
        (cls, k +:+ "[" +:+ pretty n +:+ "]")
          :: label_fields (<[k := n + 1]> counts) rest
      else (cls, name) :: label_fields counts rest
  end.

Section Length.
(** [sys.maxsize], the largest index of the interpreter (2^63 - 1 on a
    64-bit build), is a constant of the platform. *)
Variable maxsize : Z.

(** The builtin [len(self)]: it calls [__len__] and refuses a negative
    result and one that does not fit an index. *)
Definition len (self : GenericVector) : result Z :=
  let n := __len__ self in
  if n <? 0 then Raise (mk_exn ValueError "__len__() should return >= 0")
  else if maxsize <? n then
    Raise (mk_exn OverflowError "cannot fit 'int' into an index-sized integer")
  else Return n.

(** [createFields]: one [parser(self, name)] per index of
    [xrange(len(self))]; a created field is its class and its name.  The
    outcome is that of running the generator to its end. *)
Definition createFields (self : GenericVector)
    : result (list (ItemClass * string)) :=
  let name := item_name self +:+ "[]" in
  let parser := item_class self in
  let? n := len self in
  Return (map (fun _ => (parser, name)) (seqZ 0 n)).

(** The sub-fields of the vector as a reader of the field set sees them. *)
Definition fields (self : GenericVector)
    : result (list (ItemClass * string)) :=
  let? created := createFields self in
  Return (label_fields ∅ created).

End Length.

End Vector.

(* ===================================================================== *)
(** * metadata.py and archive.py: printing, registration, MAR archives   *)
(* ===================================================================== *)

Definition newline : string := String "010"%char EmptyString.

Section Printing.
Variables MIN_PRIORITY MAX_PRIORITY : Z.
Variable makeUnicode : pyobj -> string.
(** [makePrintable(line, "ASCII")] of hachoir_core.tools, outside the
    sources. *)
Variable makePrintable : string -> string.

(** [__unicode__]: the lines of [self.exportPlaintext()] joined by a
    newline.  [join] refuses [None]. *)
Definition __unicode__ (d : document) : result string :=
  let? text := exportPlaintext MIN_PRIORITY MAX_PRIORITY makeUnicode d
                 None true "- " None in
  match text with
  | Some lines => Return (String.concat newline lines)
  | None => Raise (mk_exn TypeError "can only join an iterable")
  end.

(** [__str__]: the same with every line made printable; the generator
    cannot iterate over [None]. *)
Definition __str__ (d : document) : result string :=
  let? text := exportPlaintext MIN_PRIORITY MAX_PRIORITY makeUnicode d
                 None true "- " None in
  match text with
  | Some lines => Return (String.concat newline (map makePrintable lines))
  | None => Raise (mk_exn TypeError "'NoneType' object is not iterable")
  end.

End Printing.

(** [iterGroups]: the child objects in insertion order. *)
Definition iterGroups (self : MultipleMetadata.t) : list document :=
  map snd (MultipleMetadata.groups self).

(** The calls [registerExtractor(parser, extractor)] at the end of a
    module, in order. *)
Definition register_all {T} (entries : list (string * ExtractorArg T))
    : M (gmap string (Extractor T)) unit :=
  for_each entries (fun pe => registerExtractor (fst pe) (snd pe)).

(** The registration of a class derived from [RootMetadata]. *)
Definition registration {T} (pe : string * Extractor T)
    : string * ExtractorArg T :=
  (fst pe, SubclassOfRootMetadata (snd pe)).

(** The six registrations of archive.py on the registry [extractors = {}],
    for the extractor classes [cab], [gzip], [bzip2], [tar], [zip], [mar]
    of that module, which all derive from [RootMetadata], directly or
    through [MultipleMetadata]. *)
Definition archive_registrations {T}
    (cab gzip bzip2 tar zip mar : Extractor T)
    : gmap string (Extractor T) * result unit :=
  register_all
    [("CabFile", SubclassOfRootMetadata cab);
     ("GzipParser", SubclassOfRootMetadata gzip);
     ("Bzip2Parser", SubclassOfRootMetadata bzip2);
     ("TarFile", SubclassOfRootMetadata tar);
     ("ZipFile", SubclassOfRootMetadata zip);
     ("MarFile", SubclassOfRootMetadata mar)] ∅.

Module Mar.

(** One entry of [mar.array(file)] and the archive, as
    [MarMetadata.extract] reads them. *)
Record MarFileField := mk_field {
  name : string;
  filename : result pyobj;
  filesize : result pyobj
}.

Record MarFile := mk_mar {
  nb_file : result pyobj;
  version : result pyobj;
  files : list MarFileField
}.

Section Extract.
Variable float_repr : float -> string.
Variable registerAllItems : list Data.
Variable QUALITY_NORMAL : float.

(** An assignment [self.key = value] on the receiver of an extractor. *)
Definition set_self (k : string) (v : pyobj) : M (MultipleMetadata.t * Log) unit :=
  fun '(me, lg) =>
    match Metadata.__setattr__ k v (MultipleMetadata.root me) with
    | (root', r) =>
        ((MultipleMetadata.mk root' (MultipleMetadata.groups me)
            (MultipleMetadata.key_counter me), lg), r)
    end.

(** The statements of the loop body on the new [meta], up to the title of
    the group. *)
Definition file_fields (field : MarFileField) : M Metadata.t string :=
  Archive.set_from "filename" (filename field) >>>
  Metadata.__setattr__ "compression" (VStr "None") >>>
  Archive.set_from "file_size" (filesize field) >>>
  let! meta := get_self in
  let! fname := lift (Metadata.getText meta "filename" VNone 0) in
  ret ("File " +:+ dquote +:+ py_str float_repr fname +:+ dquote).

(** The loop body of [MarMetadata.extract]; it is not fault tolerant. *)
Definition process (field : MarFileField) : M (MultipleMetadata.t * Log) unit :=
  let! st := get_self in
  let! meta := lift (Metadata_new registerAllItems QUALITY_NORMAL
                       (MultipleMetadata.to_document (fst st))) in
  let! r := Archive.on_local (file_fields field) meta in
  let! added := MultipleMetadata.call_addGroup (name field) (Plain (fst r))
                  (Some (snd r)) in
  ret tt.

(** [MarMetadata.extract(self, mar)] *)
Definition extract (mar : MarFile) : M (MultipleMetadata.t * Log) unit :=
  (let! n := lift (nb_file mar) in
   set_self "comment" (VStr ("Contains " +:+ py_str float_repr n +:+ " files"))) >>>
  (let! v := lift (version mar) in
   set_self "format_version"
     (VStr ("Microsoft Archive version " +:+ py_str float_repr v))) >>>
  let! st := get_self in
  let! max_nb := lift (Archive.maxNbFile (MultipleMetadata.root (fst st))) in
  Archive.enumerate_files "MAR" max_nb process 0 (files mar).

End Extract.

End Mar.

(** [UserVector.__init__]: the class attributes [item_class] ([None]
    unless a subclass sets it) and [item_name] are handed to
    [GenericVector.__init__], whose [issubclass] refuses an argument that
    is not a class. *)
Definition UserVector__init__ (item_class : option Vector.ItemClass)
    (item_name : string) (parent_path name : string) (nb_items : Z)
    (description : option string) : result Vector.GenericVector :=
  match item_class with
  | None => Raise (mk_exn TypeError "issubclass() arg 1 must be a class")
  | Some cls =>
      Vector.__init__ parent_path name nb_items cls item_name description
  end.

(* ===================================================================== *)
(** * lib/hachoir_metadata/timezone.py                                   *)
(* ===================================================================== *)

Module Timezone.

(** [timedelta(minutes=m)]: a duration, kept as its number of minutes.
    The constructor refuses a duration of more than 999999999 days in
    magnitude. *)
Definition timedelta_minutes (m : Z) : result Z :=
  let days := m / 1440 in
  if (-999999999 <=? days) && (days <=? 999999999) then Return m
  else Raise (mk_exn OverflowError
         ("days=" +:+ pretty days +:+ "; must have magnitude <= 999999999")).

(** ["%+03u" % n] on an int: the sign always, then the digits padded with
    zeros to a width of three characters with the sign. *)
Definition format_plus03 (n : Z) : string :=
  let sign := if n <? 0 then "-" else "+" in
  let digits := pretty (Z.abs n) in
  if (String.length digits <? 2)%nat then sign +:+ "0" +:+ digits
  else sign +:+ digits.

(** A [TimezoneUTC] object (the shared [UTC] is one) or a [Timezone]
    object with its [_offset] (in minutes) and its [_name]. *)
Inductive tzinfo :=
  | TimezoneUTC
  | Timezone (_offset : Z) (_name : string).

(** [TimezoneUTC.ZERO = timedelta(0)] *)
Definition ZERO : Z := 0.

Definition UTC : tzinfo := TimezoneUTC.

(** [Timezone.__init__(self, offset)] *)
Definition Timezone__init__ (offset : Z) : result tzinfo :=
  let? delta := timedelta_minutes (offset * 60) in
  Return (Timezone delta (format_plus03 offset +:+ "00")).

Definition utcoffset (self : tzinfo) : Z :=
  match self with
  | TimezoneUTC => ZERO
  | Timezone offset _ => offset
  end.

Definition tzname (self : tzinfo) : string :=
  match self with
  | TimezoneUTC => "UTC"
  | Timezone _ name => name
  end.

(** [dst] is inherited from [TimezoneUTC] by [Timezone]. *)
Definition dst (self : tzinfo) : Z := ZERO.

(** [createTimezone(offset)]: [UTC] for a zero offset. *)
Definition createTimezone (offset : Z) : result tzinfo :=
  if offset =? 0 then Return UTC else Timezone__init__ offset.

End Timezone.

(* ===================================================================== *)
(** * Notions of the specification                                       *)
(* ===================================================================== *)

(** The element of a sequence that an index designates: a non-negative
    index counts from the front, a negative one from the back. *)
Definition item_at {A} (l : list A) (index : Z) : option A :=
  if 0 <=? index then l !! Z.to_nat index
  else if 0 <=? Z.of_nat (length l) + index
       then l !! Z.to_nat (Z.of_nat (length l) + index)
       else None.

(** The value item stored under a key at an index, if any. *)
Definition stored_item (self : Metadata.t) (k : string) (index : Z)
    : option DataValue :=
  match Metadata.data_lookup self k with
  | Some d => item_at (values d) index
  | None => None
  end.

(** Every declared field has zero values. *)
Definition fields_empty (self : Metadata.t) : Prop :=
  Forall (fun d => values d = []) (Metadata.data self).

(** An empty document: no populated field and, for a multiple document,
    every child group empty as well. *)
#[warnings="-register-all"]
Inductive empty : document -> Prop :=
  | empty_Plain m :
      fields_empty m -> empty (Plain m)
  | empty_Multiple m groups counter :
      fields_empty m ->
      Forall (fun kg => empty (snd kg)) groups ->
      empty (Multiple m groups counter).

(** The child after the [if header: metadata.setHeader(header)] of
    [addGroup]. *)
Definition with_header (header : option string) (doc : document) : document :=
  match header with
  | Some h =>
      if String.eqb h "" then doc else with_base (Metadata.setHeader h) doc
  | None => doc
  end.

(** Three successive calls [self.addGroup(key, d, h)]; the outcome is the
    three returned booleans. *)
Definition addGroup3 (k : string) (d1 d2 d3 : document)
    (h1 h2 h3 : option string) : M (MultipleMetadata.t * Log) (bool * bool * bool) :=
  let! r1 := MultipleMetadata.call_addGroup k d1 h1 in
  let! r2 := MultipleMetadata.call_addGroup k d2 h2 in
  let! r3 := MultipleMetadata.call_addGroup k d3 h3 in
  ret (r1, r2, r3).

(** A quality: a double in the range 0.0 .. 1.0, as the constructors
    leave it. *)
Definition is_quality (q : float) : Prop :=
  valid_binary prec emax q = true /\ fle f0 q = true /\ fle q f1 = true.

(** The first value stored under a key: the size is known. *)
Definition known (self : Metadata.t) (k : string) : option pyobj :=
  value <$> stored_item self k 0.

(** The raw values of a key after a write of [v]. *)
Definition add_value (vs : list pyobj) (v : pyobj) : list pyobj :=
  if decide (v ∈ vs) then vs else vs ++ [v].

(** The warning of a truncated enumeration. *)
Definition truncation_warning (format : string) (bound : Z) : string :=
  format +:+ " archive contains many files, but only first "
  +:+ pretty bound +:+ " files are processed".

(** An enumeration bounded by [bound]: the first [bound] files are
    processed in order, then the truncation is logged if files remain. *)
Definition bounded_run {F} (format : string) (bound : Z)
    (process : F -> M (MultipleMetadata.t * Log) unit) (files : list F)
    : M (MultipleMetadata.t * Log) unit :=
  for_each (take (Z.to_nat bound) files) process >>>
  if bound <? Z.of_nat (length files)
  then warning (truncation_warning format bound)
  else ret tt.

(** No declared field of the document, nor of its groups, has a priority
    above [max_priority]. *)
Definition priorities_bounded (max_priority : Z) (doc : document) : Prop :=
  let bounded (m : Metadata.t) :=
    Forall (fun d => priority d <= max_priority) (Metadata.data m) in
  bounded (base doc)
  /\ match doc with
     | Plain _ => True
     | Multiple _ groups _ => Forall (fun kg => bounded (base (snd kg))) groups
     end.

(** A line of the export: a header [title:] or a field line
    [prefix label: text]. *)
Definition is_header (line : string) : Prop :=
  exists title, line = title +:+ ":".
Definition is_field_line (line_prefix line : string) : Prop :=
  exists label txt, line = line_prefix +:+ label +:+ ": " +:+ txt.

(** A document whose groups, if any, are all plain documents. *)
Definition flat (doc : document) : Prop :=
  match doc with
  | Plain _ => True
  | Multiple _ groups _ =>
      Forall (fun kg => exists m, snd kg = Plain m) groups
  end.

(** Successive calls [self.addGroup(key, d)] for the documents of a
    list, as the loops of the extractors make them. *)
Definition addGroups (k : string) (docs : list document)
    : M (MultipleMetadata.t * Log) unit :=
  for_each docs (fun d => MultipleMetadata.call_addGroup k d None >>> ret tt).

(** The key that the array marker yields for the occurrence [i] of the
    base key [b]. *)
Definition indexed_key (b : string) (i : Z) : string :=
  b +:+ "[" +:+ pretty i +:+ "]".

(** A step of an extractor that does nothing to its receiver but add at
    most [n] groups, all non-empty, after the ones it holds, and append
    to the log. *)
Definition grows_by (n : nat) (st st' : MultipleMetadata.t * Log) : Prop :=
  MultipleMetadata.root (fst st') = MultipleMetadata.root (fst st)
  /\ (exists added,
        MultipleMetadata.groups (fst st')
        = MultipleMetadata.groups (fst st) ++ added
        /\ (length added <= n)%nat
        /\ Forall (fun kg => __nonzero__ (snd kg) = true) added)
  /\ snd st `prefix_of` snd st'.

(** The number of entries that an enumeration starting at [index] may
    process among [n] entries under the bound [max_nb]. *)
Definition max_added (max_nb : option Z) (index : Z) (n : nat) : nat :=
  match max_nb with
  | Some bound => Nat.min n (Z.to_nat (bound - index))
  | None => n
  end.

(** The fields of [self'] are those of [self] except for the values
    under the keys [ks]. *)
Definition edits (ks : list string) (self self' : Metadata.t) : Prop :=
  Metadata.quality self' = Metadata.quality self
  /\ map key (Metadata.data self') = map key (Metadata.data self)
  /\ (forall k, k ∉ ks ->
        Metadata.data_lookup self' k = Metadata.data_lookup self k).

(** The lines that a group contributes to the export of its container:
    its own export, titled with its key when the export is not for
    humans, and nothing when that export is [None]. *)
Definition group_export (MIN_PRIORITY MAX_PRIORITY : Z)
    (makeUnicode : pyobj -> string) (prio : option Z) (human : bool)
    (line_prefix : string) (kg : string * document) : list string :=
  default []
    (Metadata.exportPlaintext MIN_PRIORITY MAX_PRIORITY makeUnicode
       (base (snd kg)) prio human line_prefix
       (if human then None else Some (fst kg))).

(** The cut-off that [exportPlaintext] derives from its [priority]
    argument. *)
Definition cutoff (MIN_PRIORITY MAX_PRIORITY : Z) (prio : option Z) : Z :=
  match prio with
  | Some p => Z.min (Z.max p MIN_PRIORITY) MAX_PRIORITY
  | None => MAX_PRIORITY
  end.

(** The number of value items of the fields whose priority does not
    exceed [c]. *)
Definition items_within (c : Z) (fields : list Data) : nat :=
  sum_list (map (fun d => if priority d <=? c then length (values d) else 0%nat)
                fields).

(* ===================================================================== *)
(** * A concrete schema and a concrete archive                           *)
(* ===================================================================== *)

Module Example.

(** The classes of HACHOIR_ERRORS: every class of the model except
    AssertionError. *)
Definition hachoir_errors (c : exn_class) : bool :=
  match c with
  | AssertionError => false
  | _ => true
  end.

Definition float_repr (f : float) : string := "<float>".
Definition float_of_str (s : string) : option float := None.

Definition MIN_PRIORITY : Z := 100.
Definition MAX_PRIORITY : Z := 999.
Definition QUALITY_NORMAL : float :=
  Eval vm_compute in binary_normalize prec emax 1 (-1) false.

Definition field (k : string) (p : Z) (label : string) : Data :=
  mk_data k p label (py_str float_repr) [].

Definition schema : list Data :=
  [ field "filename" 102 "File name";
    field "creation_date" 110 "Creation date";
    field "compression" 120 "Compression";
    field "file_size" 121 "File size";
    field "compr_size" 122 "Compressed size";
    field "compr_rate" 123 "Compression rate";
    field "mime_type" 900 "MIME type";
    field "endian" 901 "Endianness" ].

Definition endian_name : gmap string string :=
  {[ "ABCD" := "Big endian"; "DCBA" := "Little endian" ]}.

(** A new, empty document of the schema. *)
Definition fresh (cls hdr : string) (q : float) : Metadata.t :=
  Metadata.mk cls hdr q schema.

(** A new document after [meta.filename = name]. *)
Definition named (name : string) : Metadata.t :=
  fst (Metadata.__setattr__ "filename" (VStr name)
         (fresh "Metadata" "Metadata" QUALITY_NORMAL)).

(** A document after [meta.file_size = size; meta.compr_size = compr]. *)
Definition sized (size compr : Z) : Metadata.t :=
  fst ((Metadata.__setattr__ "file_size" (VInt size) >>>
        Metadata.__setattr__ "compr_size" (VInt compr))
         (fresh "Metadata" "Metadata" QUALITY_NORMAL)).

(** A new ZipMetadata of quality [q]. *)
Definition zip (q : float) : MultipleMetadata.t :=
  MultipleMetadata.mk (fresh "ZipMetadata" "Common" q) [] ∅.

(** The [i]-th entry of an archive: 300 bytes compressed to 100. *)
Definition entry (i : Z) : Archive.ZipFileField :=
  Archive.mk_zip_field
    ("file[" +:+ pretty i +:+ "]")
    (Return (VStr ("doc" +:+ pretty i +:+ ".txt")))
    (Return (VStr "2010-01-01 12:00:00"))
    (Return (VStr "deflate"))
    None
    (Return (VInt 300))
    (Return (VInt 100)).

Definition entries (n : Z) : list Archive.ZipFileField :=
  map entry (seqZ 0 n).

Definition processFile :=
  Archive.processFile hachoir_errors float_repr float_of_str schema
    QUALITY_NORMAL.

Definition ZipMetadata_extract :=
  Archive.ZipMetadata_extract hachoir_errors float_repr float_of_str schema
    QUALITY_NORMAL.

(** A multiple document holding a non-empty multiple document as a
    group. *)
Definition nested : document :=
  Multiple (fresh "MultipleMetadata" "Common" QUALITY_NORMAL)
    [("stream", Multiple (named "inner.bin") [] ∅)] ∅.

(** A parser of a registered class and its extractor, whose population
    routine sets the file name and then fails on a missing field. *)
Definition gzip_parser : Parser unit :=
  mk_parser unit "GzipParser" (VStr "application/x-gzip") "DCBA" tt.

Definition gzip_extractor : Extractor unit :=
  mk_extractor unit
    (fun q => Return (Plain (fresh "GzipMetadata" "Metadata" q)))
    (fun _ '(doc, lg) =>
       match on_base (Metadata.__setattr__ "filename" (VStr "a.txt")) doc with
       | (doc', _) => ((doc', lg), Raise (mk_exn MissingField "no field os"))
       end).

Definition extractors : gmap string (Extractor unit) :=
  {[ "GzipParser" := gzip_extractor ]}.

Definition byte : Vector.ItemClass := Vector.mk_class "UInt8" true (Some 8).

(** [sys.maxsize] of a 64-bit build. *)
Definition maxsize : Z := 2 ^ 63 - 1.

Definition f300 : float := Eval vm_compute in binary_normalize prec emax 300 0 false.
Definition f100 : float := Eval vm_compute in binary_normalize prec emax 100 0 false.

End Example.

(* ===================================================================== *)
(** * Properties of the value store                                      *)
(* ===================================================================== *)

Section StoreFacts.
Implicit Types (self : Metadata.t) (d : Data) (k : string) (v : pyobj).

Lemma data_lookup_key self k d :
  Metadata.data_lookup self k = Some d -> key d = k.
Proof.
  unfold Metadata.data_lookup. intros H.
  apply find_some in H as [_ H]. by apply String.eqb_eq.
Qed.

Lemma data_lookup_None self k :
  Metadata.data_lookup self k = None <-> k ∉ map key (Metadata.data self).
Proof.
  unfold Metadata.data_lookup. induction (Metadata.data self) as [|x l IH]; simpl.
  - split; [intros _; apply not_elem_of_nil | done].
  - destruct (String.eqb (key x) k) eqn:E.
    + apply String.eqb_eq in E. split; [done|]. intros []. subst. left.
    + apply String.eqb_neq in E. rewrite IH, not_elem_of_cons.
      split; [by intros ?; split | by intros [_ ?]].
Qed.

Lemma data_lookup_update self k d d' :
  Metadata.data_lookup self k = Some d -> key d' = k ->
  Metadata.data_lookup (Metadata.data_update self k d') k = Some d'.
Proof.
  unfold Metadata.data_lookup, Metadata.data_update. simpl.
  intros H Hk. induction (Metadata.data self) as [|x l IH]; simpl in *; [done|].
  destruct (String.eqb (key x) k) eqn:E; simpl.
  - by rewrite Hk, String.eqb_refl.
  - rewrite E. auto.
Qed.

Lemma data_update_twice self k d' :
  key d' = k ->
  Metadata.data_update (Metadata.data_update self k d') k d'
  = Metadata.data_update self k d'.
Proof.
  intros Hk. unfold Metadata.data_update, Metadata.set_data. simpl. f_equal.
  rewrite map_map. apply map_ext. intros x.
  destruct (String.eqb (key x) k) eqn:E; [|by rewrite E].
  by rewrite Hk, String.eqb_refl.
Qed.

Lemma key_Data_add d v : key (Data_add d v) = key d.
Proof. unfold Data_add. by destruct (Data_contains d v). Qed.

Lemma Data_contains_spec d v :
  Data_contains d v = true <-> v ∈ map value (values d).
Proof.
  unfold Data_contains. rewrite existsb_exists, list_elem_of_In, in_map_iff.
  split.
  - intros (item & Hin & Heq). apply bool_decide_eq_true in Heq. eauto.
  - intros (item & Heq & Hin). exists item. split; [done|].
    by apply bool_decide_eq_true.
Qed.

Lemma values_Data_add d v :
  map value (values (Data_add d v))
  = if decide (v ∈ map value (values d)) then map value (values d)
    else map value (values d) ++ [v].
Proof.
  unfold Data_add. destruct (Data_contains d v) eqn:E.
  - apply Data_contains_spec in E. by rewrite decide_True.
  - rewrite decide_False.
    + simpl. by rewrite map_app.
    + intros H. apply Data_contains_spec in H. congruence.
Qed.

Lemma Data_add_twice d v : Data_add (Data_add d v) v = Data_add d v.
Proof.
  unfold Data_add at 1.
  assert (Data_contains (Data_add d v) v = true) as ->; [|done].
  apply Data_contains_spec. rewrite values_Data_add.
  case_decide; [done|]. apply elem_of_app. right. left.
Qed.

Lemma filter_eq_absent (l : list pyobj) v :
  v ∉ l -> filter (fun x => x = v) l = [].
Proof.
  induction l as [|x l IH]; [done|].
  intros [Hx Hl]%not_elem_of_cons.
  rewrite filter_cons_False by (intros ->; done). auto.
Qed.

Lemma with_base_id (doc : document) : with_base (fun _ => base doc) doc = doc.
Proof. by destruct doc. Qed.

Lemma getValues_lookup self k vs :
  Metadata.getValues self k = Return vs <->
  exists d, Metadata.data_lookup self k = Some d /\ vs = map value (values d).
Proof.
  unfold Metadata.getValues. destruct (Metadata.data_lookup self k).
  - split; [intros [= <-]; eauto | intros (? & [= <-] & ->); done].
  - split; [done | intros (? & ? & _); done].
Qed.

End StoreFacts.

(** C4.  A write under a key that the document does not declare raises
    KeyError, whatever the value, naming the class and the key, and leaves
    the document (plain or multiple) as it was. *)
Theorem setattr_undeclared_key_raises (doc : document) (k : string) (v : pyobj) :
  k ∉ map key (Metadata.data (base doc)) ->
  on_base (Metadata.__setattr__ k v) doc
  = (doc, Raise (mk_exn KeyError
       (Metadata.class_name (base doc) +:+ " has no metadata '" +:+ k +:+ "'"))).
Proof.
  intros H%data_lookup_None.
  unfold on_base, Metadata.__setattr__. rewrite H.
  by rewrite with_base_id.
Qed.

(** C5.  Writing the same raw value twice under a declared key: neither
    write raises, the second write changes nothing, and the key gains at
    most one item for the value: its raw values are the old ones, followed
    by the value unless it was already there.  From a key without values
    the result is exactly one item; when the raw values were distinct the
    value occurs exactly once. *)
Theorem setattr_twice_one_item (self : Metadata.t) (k : string) (v : pyobj)
    (vs : list pyobj) :
  Metadata.getValues self k = Return vs ->
  exists self1,
    Metadata.__setattr__ k v self = (self1, Return tt)
    /\ Metadata.__setattr__ k v self1 = (self1, Return tt)
    /\ Metadata.getValues self1 k
       = Return (if decide (v ∈ vs) then vs else vs ++ [v])
    /\ (vs = [] -> Metadata.getValues self1 k = Return [v])
    /\ (NoDup vs ->
        exists vs1, Metadata.getValues self1 k = Return vs1
                    /\ length (filter (fun x => x = v) vs1) = 1%nat).
Proof.
  intros (d & Hd & ->)%getValues_lookup.
  pose proof (data_lookup_key _ _ _ Hd) as Hk.
  assert (key (Data_add d v) = k) as Hk' by (by rewrite key_Data_add).
  pose proof (data_lookup_update _ _ _ _ Hd Hk') as Hl.
  assert (Metadata.getValues (Metadata.data_update self k (Data_add d v)) k
          = Return (if decide (v ∈ map value (values d))
                    then map value (values d) else map value (values d) ++ [v]))
    as Hvals.
  { unfold Metadata.getValues. rewrite Hl. by rewrite values_Data_add. }
  exists (Metadata.data_update self k (Data_add d v)).
  split; [|split; [|split; [|split]]].
  - unfold Metadata.__setattr__. by rewrite Hd.
  - unfold Metadata.__setattr__. rewrite Hl, Data_add_twice.
    by rewrite data_update_twice.
  - done.
  - intros Hnil. rewrite Hvals, Hnil. rewrite decide_False; [done|].
    apply not_elem_of_nil.
  - intros Hnd. eexists. split; [exact Hvals|].
    case_decide as Hin.
    + clear Hvals Hl. induction (map value (values d)) as [|x l IH]; [by inversion Hin|].
      apply NoDup_cons in Hnd as [Hx Hnd]. rewrite filter_cons.
      destruct (decide (x = v)) as [->|Hne].
      * simpl. by rewrite filter_eq_absent.
      * apply elem_of_cons in Hin as [->|Hin]; [done|]. auto.
    + rewrite filter_app, length_app. simpl.
      rewrite filter_cons, decide_True by done. simpl.
      by rewrite filter_eq_absent.
Qed.

(* ===================================================================== *)
(** * Reading the store                                                  *)
(* ===================================================================== *)

Lemma list_getitem_item_at {A} (l : list A) (index : Z) :
  list_getitem l index
  = match item_at l index with
    | Some a => Return a
    | None => Raise (mk_exn IndexError "list index out of range")
    end.
Proof.
  unfold list_getitem, item_at.
  destruct (Z.ltb_spec index 0) as [Hneg|Hpos].
  - rewrite (proj2 (Z.leb_gt 0 index)) by lia.
    rewrite (Z.add_comm index).
    destruct (Z.leb_spec 0 (Z.of_nat (length l) + index)) as [H0|H0]; simpl.
    + rewrite (proj2 (Z.ltb_lt _ _)) by lia. done.
    + done.
  - rewrite (proj2 (Z.leb_le 0 index)) by lia. simpl.
    destruct (Z.ltb_spec index (Z.of_nat (length l))) as [Hlt|Hge].
    + by destruct (l !! _).
    + rewrite (proj2 (lookup_ge_None l (Z.to_nat index))); [done | lia].
Qed.

Lemma getItem_stored_item (self : Metadata.t) (k : string) (index : Z) :
  Metadata.getItem self k index = Return (stored_item self k index).
Proof.
  unfold Metadata.getItem, Metadata.getItems, stored_item.
  destruct (Metadata.data_lookup self k) as [d|]; simpl; [|done].
  unfold Data_getitem. rewrite list_getitem_item_at.
  by destruct (item_at (values d) index).
Qed.

(** C10.  Reads never raise on account of the key or the index:
    [getText] returns the display text of the stored item when there is
    one and the default otherwise, and [get] with a default other than
    [None] returns the raw value or the default.  In particular, for a key
    that the document does not declare both return the default: the
    unknown-key error of [getItems] is swallowed by [getItem]. *)
Theorem getText_get_never_raise (self : Metadata.t) (k : string)
    (default : pyobj) (index : Z) :
  Metadata.getText self k default index
  = Return (match stored_item self k index with
            | Some item => VStr (text item)
            | None => default
            end)
  /\ (default <> VNone ->
      Metadata.get self k default index
      = Return (match stored_item self k index with
                | Some item => value item
                | None => default
                end))
  /\ (k ∉ map key (Metadata.data self) ->
      (exists e, Metadata.getItems self k = Raise e)
      /\ Metadata.getText self k default index = Return default
      /\ (default <> VNone -> Metadata.get self k default index = Return default)).
Proof.
  assert (default <> VNone -> is_None default = false) as Hdef
    by (by destruct default).
  unfold Metadata.getText, Metadata.get. rewrite getItem_stored_item. simpl.
  split; [by destruct (stored_item self k index)|].
  split.
  - intros H. destruct (stored_item self k index); [done|]. by rewrite Hdef.
  - intros Hk%data_lookup_None. unfold stored_item, Metadata.getItems.
    rewrite Hk. split; [eauto|]. split; [done|].
    intros H. by rewrite Hdef.
Qed.

(* ===================================================================== *)
(** * Emptiness                                                          *)
(* ===================================================================== *)

Lemma document_nested_ind (P : document -> Prop) :
  (forall m, P (Plain m)) ->
  (forall m groups counter,
     Forall (fun kg => P (snd kg)) groups -> P (Multiple m groups counter)) ->
  forall doc, P doc.
Proof.
  intros HP HM. fix IH 1. intros [m|m groups counter]; [apply HP|].
  apply HM. induction groups as [|[k g] groups IHg]; constructor.
  - apply IH.
  - apply IHg.
Qed.

Lemma Metadata_nonzero_false (self : Metadata.t) :
  Metadata.__nonzero__ self = false <-> fields_empty self.
Proof.
  unfold Metadata.__nonzero__, fields_empty.
  induction (Metadata.data self) as [|d l IH]; simpl.
  - split; [constructor | done].
  - rewrite orb_false_iff, IH, Forall_cons.
    unfold Data_nonzero, Data_len.
    destruct (values d); simpl.
    + split; [by intros [_ ?] | by intros [_ ?]].
    + split; [by intros [? _] | by intros [? _]].
Qed.

(** The truth value computed by [__nonzero__] is the emptiness of the
    specification. *)
Lemma nonzero_false_iff_empty (doc : document) :
  __nonzero__ doc = false <-> empty doc.
Proof.
  induction doc as [m|m groups counter IH] using document_nested_ind; simpl.
  - rewrite Metadata_nonzero_false. split; [by constructor | by inversion 1].
  - destruct (Metadata.__nonzero__ m) eqn:Hm.
    + split; [done|]. inversion 1 as [|? ? ? Hf _]; subst.
      apply Metadata_nonzero_false in Hf. congruence.
    + apply Metadata_nonzero_false in Hm.
      assert (existsb (fun kg => __nonzero__ (snd kg)) groups = false
              <-> Forall (fun kg => empty (snd kg)) groups) as ->.
      { induction IH as [|kg l Hkg _ IHl]; simpl.
        - split; [constructor | done].
        - rewrite orb_false_iff, Hkg, IHl, Forall_cons. done. }
      split; [by constructor | by inversion 1].
Qed.

(** C6.  [addGroup] with an empty child returns [False] and leaves the
    receiver (its groups, its counters, its own fields) and the child
    (header included) as they were; only the warning is logged. *)
Theorem addGroup_empty_rejected (st : MultipleMetadata.frame) (k : string)
    (header : option string) :
  empty (MultipleMetadata.metadata st) ->
  MultipleMetadata.addGroup k header st
  = (MultipleMetadata.Frame (MultipleMetadata.self st)
       (MultipleMetadata.metadata st)
       (MultipleMetadata.log st ++ [(LogWarning, "Skip empty group " +:+ k)]),
     Return false).
Proof.
  intros H%nonzero_false_iff_empty.
  unfold MultipleMetadata.addGroup. by rewrite H.
Qed.

(* ===================================================================== *)
(** * Groups and the array marker                                        *)
(* ===================================================================== *)

Section StringFacts.
Implicit Types (s t : string).

Lemma app_String a s t : String a s +:+ t = String a (s +:+ t).
Proof. reflexivity. Qed.

Lemma length_app_string s t :
  String.length (s +:+ t) = (String.length s + String.length t)%nat.
Proof. induction s as [|a s IH]; [done|]. rewrite app_String. simpl. by rewrite IH. Qed.

Lemma substring_skip s t n :
  substring (String.length s) n (s +:+ t) = substring 0 n t.
Proof. induction s as [|a s IH]; [done|]. by rewrite app_String. Qed.

Lemma substring_keep s t : substring 0 (String.length s) (s +:+ t) = s.
Proof.
  induction s as [|a s IH]; [by destruct t|].
  rewrite app_String. simpl. by rewrite IH.
Qed.

Lemma endswith_marker s : endswith (s +:+ "[]") "[]" = true.
Proof.
  unfold endswith. rewrite length_app_string. simpl String.length.
  rewrite Nat.add_sub, substring_skip.
  apply andb_true_iff. split; [apply Nat.leb_le; lia | done].
Qed.

Lemma drop_last2_marker s : drop_last2 (s +:+ "[]") = s.
Proof.
  unfold drop_last2. rewrite length_app_string. simpl String.length.
  by rewrite Nat.add_sub, substring_keep.
Qed.

End StringFacts.

(** One successful [addGroup] under a key with the array marker: [n] is
    the new count of the base key and [sfx] its rendering in brackets. *)
Lemma call_addGroup_marker (me : MultipleMetadata.t) (lg : Log) (b : string)
    (child : document) (header : option string) (n : Z) (sfx : string) :
  __nonzero__ child = true ->
  n = match MultipleMetadata.key_counter me !! b with
      | Some c => c + 1
      | None => 1
      end ->
  sfx = "[" +:+ pretty n +:+ "]" ->
  MultipleMetadata.__contains__ me (b +:+ sfx) = false ->
  MultipleMetadata.call_addGroup (b +:+ "[]") child header (me, lg)
  = ((MultipleMetadata.mk (MultipleMetadata.root me)
        (MultipleMetadata.groups me ++ [(b +:+ sfx, with_header header child)])
        (<[b := n]> (MultipleMetadata.key_counter me)), lg),
     Return true).
Proof.
  intros Hnz -> -> Hfresh.
  unfold MultipleMetadata.call_addGroup, MultipleMetadata.addGroup. simpl.
  rewrite Hnz, endswith_marker, drop_last2_marker. simpl.
  unfold MultipleMetadata.Dict_append.
  unfold MultipleMetadata.__contains__ in Hfresh.
  by rewrite Hfresh.
Qed.

Lemma contains_snoc root' groups counter k k' doc :
  MultipleMetadata.__contains__
    (MultipleMetadata.mk root' (groups ++ [(k', doc)]) counter) k
  = MultipleMetadata.__contains__ (MultipleMetadata.mk root' groups counter) k
    || String.eqb k' k.
Proof.
  unfold MultipleMetadata.__contains__. simpl.
  rewrite existsb_app. simpl. by rewrite orb_false_r.
Qed.

Lemma contains_mk (me : MultipleMetadata.t) root' counter k :
  MultipleMetadata.__contains__
    (MultipleMetadata.mk root' (MultipleMetadata.groups me) counter) k
  = MultipleMetadata.__contains__ me k.
Proof. done. Qed.

(** C7 (as amended).  Three calls of [addGroup] with the same key ending
    in the array marker and three non-empty documents, on a receiver that
    has not used the base key yet and holds none of the three indexed
    keys: every call returns [True], the three documents (with their new
    headers) are appended in call order under the base key followed by
    the indexes 1, 2 and 3, the three keys are distinct, and the counter
    of the base key is 3. *)
Theorem addGroup_three_indexed (me : MultipleMetadata.t) (lg : Log)
    (b : string) (d1 d2 d3 : document) (h1 h2 h3 : option string) :
  __nonzero__ d1 = true -> __nonzero__ d2 = true -> __nonzero__ d3 = true ->
  MultipleMetadata.key_counter me !! b = None ->
  MultipleMetadata.__contains__ me (b +:+ "[1]") = false ->
  MultipleMetadata.__contains__ me (b +:+ "[2]") = false ->
  MultipleMetadata.__contains__ me (b +:+ "[3]") = false ->
  addGroup3 (b +:+ "[]") d1 d2 d3 h1 h2 h3 (me, lg)
  = ((MultipleMetadata.mk (MultipleMetadata.root me)
        (MultipleMetadata.groups me
           ++ [(b +:+ "[1]", with_header h1 d1);
               (b +:+ "[2]", with_header h2 d2);
               (b +:+ "[3]", with_header h3 d3)])
        (<[b := 3]> (MultipleMetadata.key_counter me)), lg),
     Return (true, true, true))
  /\ b +:+ "[1]" <> b +:+ "[2]"
  /\ b +:+ "[1]" <> b +:+ "[3]"
  /\ b +:+ "[2]" <> b +:+ "[3]".
Proof.
  intros Hd1 Hd2 Hd3 Hc H1 H2 H3.
  assert (b +:+ "[1]" <> b +:+ "[2]") as N12 by (by intros ?%(inj _)).
  assert (b +:+ "[1]" <> b +:+ "[3]") as N13 by (by intros ?%(inj _)).
  assert (b +:+ "[2]" <> b +:+ "[3]") as N23 by (by intros ?%(inj _)).
  split; [|done].
  set (me1 := MultipleMetadata.mk (MultipleMetadata.root me)
                (MultipleMetadata.groups me ++ [(b +:+ "[1]", with_header h1 d1)])
                (<[b := 1]> (MultipleMetadata.key_counter me))).
  set (me2 := MultipleMetadata.mk (MultipleMetadata.root me)
                (MultipleMetadata.groups me1 ++ [(b +:+ "[2]", with_header h2 d2)])
                (<[b := 2]> (MultipleMetadata.key_counter me1))).
  assert (MultipleMetadata.call_addGroup (b +:+ "[]") d1 h1 (me, lg)
          = ((me1, lg), Return true)) as E1.
  { apply (call_addGroup_marker me lg b d1 h1 1 "[1]"); try done.
    by rewrite Hc. }
  assert (MultipleMetadata.call_addGroup (b +:+ "[]") d2 h2 (me1, lg)
          = ((me2, lg), Return true)) as E2.
  { apply (call_addGroup_marker me1 lg b d2 h2 2 "[2]"); try done.
    - subst me1. simpl. by rewrite lookup_insert_eq.
    - subst me1. rewrite contains_snoc, contains_mk, H2.
      by apply String.eqb_neq. }
  unfold addGroup3, bind. rewrite E1, E2.
  rewrite (call_addGroup_marker me2 lg b d3 h3 3 "[3]"); try done.
  - unfold ret. subst me2 me1. simpl.
    by rewrite !insert_insert_eq, <- !app_assoc.
  - subst me2. simpl. by rewrite lookup_insert_eq.
  - subst me2 me1. simpl MultipleMetadata.groups.
    rewrite !contains_snoc, contains_mk, H3. simpl.
    apply orb_false_iff. split; by apply String.eqb_neq.
Qed.

(* ===================================================================== *)
(** * The vector of items                                                *)
(* ===================================================================== *)

Lemma map_const_replicate {A B} (x : B) (l : list A) :
  map (fun _ => x) l = replicate (length l) x.
Proof. induction l as [|a l IH]; simpl; [done | by rewrite IH]. Qed.

(** Labelling [n] fields of one array name numbers them consecutively,
    starting at the count reached so far. *)
Lemma label_fields_replicate (cls : Vector.ItemClass) (nm : string) (n : nat) :
  forall (counts : gmap string Z),
    Vector.label_fields counts (replicate n (cls, nm +:+ "[]"))
    = map (fun i => (cls, nm +:+ "[" +:+ pretty i +:+ "]"))
          (seqZ (default 0 (counts !! nm)) (Z.of_nat n)).
Proof.
  induction n as [|n IH]; intros counts; [done|].
  rewrite seqZ_cons by lia. simpl.
  rewrite endswith_marker, drop_last2_marker. f_equal.
  rewrite IH, lookup_insert_eq. simpl.
  do 2 f_equal; lia.
Qed.

(** C9 (as amended).  For an item class with a fixed size, the
    constructor of the vector raises ParserError exactly when the item
    count is not positive, with a message naming the vector and the path
    of its parent.  For a positive count it builds the vector, whose
    [__len__] is the count; when the count fits an index of the
    interpreter, [len] reports it and [createFields] yields that many
    fields of the item class, which the field set labels with the
    positions 0, 1, ...; for a larger count [len], and with it
    [createFields], raises OverflowError. *)
Theorem GenericVector_init_spec (maxsize : Z) (parent_path name : string)
    (nb_items : Z) (item_class : Vector.ItemClass) (item_name : string)
    (description : option string) (static : Z) :
  Vector.is_field item_class = true ->
  Vector.static_size item_class = Some static ->
  let made := Vector.__init__ parent_path name nb_items item_class item_name
                description in
  (nb_items <= 0 ->
     made = Raise (mk_exn ParserError
              ("Unable to create empty vector " +:+ dquote +:+ name +:+ dquote
               +:+ " in " +:+ parent_path)))
  /\ (0 < nb_items ->
       exists v, made = Return v
         /\ Vector.__len__ v = nb_items
         /\ (nb_items <= maxsize ->
              Vector.len maxsize v = Return nb_items
              /\ exists created,
                   Vector.createFields maxsize v = Return created
                   /\ Z.of_nat (length created) = nb_items
                   /\ Forall (fun f => f = (item_class, item_name +:+ "[]"))
                             created
                   /\ Vector.fields maxsize v
                      = Return (map (fun i => (item_class,
                                               item_name +:+ "[" +:+ pretty i
                                               +:+ "]"))
                                    (seqZ 0 nb_items)))
         /\ (maxsize < nb_items ->
              exists e, exn_cls e = OverflowError
                /\ Vector.len maxsize v = Raise e
                /\ Vector.createFields maxsize v = Raise e
                /\ Vector.fields maxsize v = Raise e))
  /\ ((exists msg, made = Raise (mk_exn ParserError msg)) <-> nb_items <= 0).
Proof.
  intros Hf Hs made. subst made. unfold Vector.__init__. rewrite Hf, Hs. simpl.
  destruct (Z.leb_spec nb_items 0) as [Hle|Hgt].
  - split; [done|]. split; [lia|]. split; [done | eauto].
  - split; [lia|]. split.
    + intros _. eexists. split; [done|]. split; [done|].
      unfold Vector.fields, Vector.createFields, Vector.len, Vector.__len__.
      simpl. rewrite (proj2 (Z.ltb_ge nb_items 0)) by lia.
      split.
      * intros Hfit. rewrite (proj2 (Z.ltb_ge maxsize nb_items)) by lia.
        split; [done|]. simpl. eexists. split; [done|].
        rewrite map_const_replicate, length_seqZ, length_replicate.
        split; [lia|]. split.
        -- apply Forall_forall. by intros f ->%elem_of_replicate_inv.
        -- rewrite label_fields_replicate, lookup_empty. simpl.
           by rewrite Z2Nat.id by lia.
      * intros Hbig. rewrite (proj2 (Z.ltb_lt maxsize nb_items)) by lia.
        simpl. eexists. split; [|done]. done.
    + split; [by intros [msg ?] | lia].
Qed.

(* ===================================================================== *)
(** * Doubles: rounding keeps signs and bounds exponents                 *)
(* ===================================================================== *)

Lemma digits2_size p : digits2_pos p = Pos.size p.
Proof. induction p; simpl; congruence. Qed.

Lemma Zdigits2_bounds p : 2 ^ (Zpos (digits2_pos p) - 1) <= Zpos p < 2 ^ Zpos (digits2_pos p).
Proof.
  rewrite digits2_size. split.
  - pose proof (Pos.size_le p) as H.
    assert (Z.pos (2 ^ Pos.size p) <= Z.pos p~0) as H' by exact H.
    rewrite Pos2Z.inj_pow in H'.
    replace (Z.pos (Pos.size p)) with (Z.succ (Z.pos (Pos.size p) - 1)) in H' by lia.
    rewrite Z.pow_succ_r in H' by lia. lia.
  - pose proof (Pos.size_gt p) as H.
    assert (Z.pos p < Z.pos (2 ^ Pos.size p)) as H' by exact H.
    by rewrite Pos2Z.inj_pow in H'.
Qed.

Lemma shr_1_m r : 0 <= shr_m r -> shr_m (shr_1 r) = shr_m r / 2.
Proof.
  destruct r as [m rb sb]. simpl. intros Hm.
  destruct m as [|p|p]; [done| |lia].
  destruct p; simpl.
  - apply Z.div_unique with 1; lia.
  - apply Z.div_unique with 0; lia.
  - done.
Qed.

Lemma iter_pos_shr_m p : forall r, 0 <= shr_m r ->
  shr_m (SpecFloat.iter_pos shr_1 p r) = shr_m r / 2 ^ Zpos p.
Proof.
  induction p as [p IH|p IH|]; intros r Hr; cbn [SpecFloat.iter_pos].
  - assert (0 <= shr_m (shr_1 r)) as H1 by (rewrite shr_1_m by done; apply Z.div_pos; lia).
    assert (0 <= shr_m (SpecFloat.iter_pos shr_1 p (shr_1 r))) as H2
      by (rewrite IH by done; apply Z.div_pos; lia).
    rewrite IH, IH, shr_1_m by done.
    rewrite !Z.div_div by lia. f_equal.
    replace (Z.pos p~1) with (1 + Z.pos p + Z.pos p) by lia.
    rewrite !Z.pow_add_r by lia. lia.
  - assert (0 <= shr_m (SpecFloat.iter_pos shr_1 p r)) as H2
      by (rewrite IH by done; apply Z.div_pos; lia).
    rewrite IH, IH by done.
    rewrite !Z.div_div by lia. f_equal.
    replace (Z.pos p~0) with (Z.pos p + Z.pos p) by lia.
    rewrite !Z.pow_add_r by lia. lia.
  - rewrite shr_1_m by done. done.
Qed.


Lemma shr_record_of_loc_m m l : shr_m (shr_record_of_loc m l) = m.
Proof. by destruct l as [|[]]. Qed.

(** One normalisation step: the mantissa does not grow and stays
    non-negative, the exponent does not shrink and is bounded; with an
    exponent in range a positive mantissa stays positive. *)
Lemma shr_fexp_bounds m e l r e' :
  0 < m ->
  shr_fexp 53 1024 m e l = (r, e') ->
  0 <= shr_m r <= m
  /\ e <= e' <= Z.max e (Z.max (Zdigits2 m + e - 53) (-1074))
  /\ (-1074 <= e -> 0 < shr_m r).
Proof.
  intros Hm. unfold shr_fexp, shr, fexp, emin.
  destruct m as [|p|p]; try lia. cbn [Zdigits2].
  pose proof (Zdigits2_bounds p) as [Hlo Hhi].
  set (d := Z.pos (digits2_pos p)) in *.
  destruct (Z.max (d + e - 53) (3 - 1024 - 53) - e) as [|n|n] eqn:En.
  - intros [= <- <-]. rewrite shr_record_of_loc_m. lia.
  - intros [= <- <-].
    rewrite iter_pos_shr_m by (rewrite shr_record_of_loc_m; lia).
    rewrite shr_record_of_loc_m.
    assert (0 < 2 ^ Z.pos n) by (apply Z.pow_pos_nonneg; lia).
    split; [|split; [lia|]].
    + split; [apply Z.div_pos; lia|].
      apply Z.div_le_upper_bound; [done | nia].
    + intros He. apply Z.div_str_pos. split; [done|].
      etrans; [|exact Hlo]. apply Z.pow_le_mono_r; lia.
  - intros [= <- <-]. rewrite shr_record_of_loc_m. lia.
Qed.

Lemma round_nearest_even_bounds m l :
  m <= round_nearest_even m l <= m + 1.
Proof. destruct l as [|[]]; simpl; try lia. destruct (Z.even m); lia. Qed.

Lemma Zdigits2_le m k : 0 < m -> 0 <= k -> m < 2 ^ k -> Zdigits2 m <= k.
Proof.
  intros Hm Hk Hlt. destruct m as [|p|p]; try lia. cbn [Zdigits2].
  pose proof (Zdigits2_bounds p) as [Hlo _].
  destruct (Z.le_gt_cases (Z.pos (digits2_pos p)) k) as [|Hgt]; [done|].
  assert (2 ^ k <= 2 ^ (Z.pos (digits2_pos p) - 1)) by (apply Z.pow_le_mono_r; lia).
  lia.
Qed.

(** Rounding a positive mantissa below [2^k]: the result has the sign it
    was given and is a zero, a finite number whose exponent is bounded, or
    an infinity when that bound exceeds the largest exponent; it is never
    a NaN, and it is not a zero when the exponent is in range. *)
Lemma binary_round_aux_cases s m e l k :
  0 < m -> 0 <= k -> m + 1 < 2 ^ k ->
  let b1 := Z.max e (Z.max (k + e - 53) (-1074)) in
  let b2 := Z.max b1 (Z.max (k + b1 - 53) (-1074)) in
  (binary_round_aux 53 1024 s m e l = S754_zero s /\ e < -1074)
  \/ (exists m' e', binary_round_aux 53 1024 s m e l = S754_finite s m' e'
                    /\ e <= e' <= b2)
  \/ (binary_round_aux 53 1024 s m e l = S754_infinity s /\ 971 < b2).
Proof.
  intros Hm Hk Hlt b1 b2. unfold binary_round_aux.
  destruct (shr_fexp 53 1024 m e l) as [r1 e1] eqn:E1.
  apply shr_fexp_bounds in E1 as (Hr1 & He1 & Hp1); [|done].
  pose proof (round_nearest_even_bounds (shr_m r1) (loc_of_shr_record r1)) as Hrn.
  pose proof (Zdigits2_le m k Hm Hk ltac:(lia)) as Hd.
  set (m1 := round_nearest_even _ _) in *.
  destruct (Z.eq_dec m1 0) as [H0|H0].
  - (* the mantissa vanished: only below the smallest exponent *)
    left. rewrite H0. unfold shr_fexp, shr, fexp, emin. cbn [Zdigits2].
    assert (e < -1074) by lia.
    destruct (Z.max (0 + e1 - 53) (3 - 1024 - 53) - e1) as [|n|n]; simpl.
    + done.
    + by rewrite iter_pos_shr_m.
    + done.
  - destruct (shr_fexp 53 1024 m1 e1 loc_Exact) as [r2 e2] eqn:E2.
    apply shr_fexp_bounds in E2 as (Hr2 & He2 & Hp2); [|lia].
    pose proof (Zdigits2_le m1 k ltac:(lia) Hk ltac:(lia)) as Hd1.
    destruct (shr_m r2) as [|p|p] eqn:Ep; try lia.
    + left. split; [done|]. lia.
    + right. destruct (e2 <=? 1024 - 53) eqn:El.
      * left. eexists _, _. split; [done|]. lia.
      * right. split; [done|]. apply Z.leb_gt in El. lia.
Qed.

(** A non-zero int converts to a non-zero double. *)
Lemma float_of_int_nonzero (z : Z) (y : float) :
  z <> 0 -> float_of_int z = Return y -> is_zero y = false.
Proof.
  intros Hz. unfold float_of_int, binary_normalize.
  assert (forall s m, exists mz ez,
            binary_round prec emax s m 0
            = binary_round_aux 53 1024 s (Z.pos mz) ez loc_Exact
            /\ -1074 <= ez) as Hround.
  { intros s m. unfold binary_round, shl_align, fexp, emin, prec, emax.
    destruct (Z.max _ _ - 0) eqn:E; eexists _, _; (split; [done|lia]). }
  assert (forall s m e,
            match binary_round prec emax s m 0 with
            | S754_infinity _ => Raise e
            | f => Return f
            end = Return y -> is_zero y = false) as Hcase.
  { intros s m e. destruct (Hround s m) as (mz & ez & -> & Hez).
    pose proof (Zdigits2_bounds mz) as [_ Hhi].
    destruct (binary_round_aux_cases s (Z.pos mz) ez loc_Exact
                (Z.pos (digits2_pos mz) + 1)) as [[_ ?]|[(m' & e' & -> & _)|[-> _]]];
      [lia | lia | | lia | by intros [= <-] | done].
    rewrite Z.pow_add_r, Z.pow_1_r by lia. lia. }
  destruct z as [|m|m]; [done|apply Hcase..].
Qed.

(** The product of 10.0 and a double strictly between 0 and 1 is a
    non-negative finite double, so that [int] of it is its floor. *)
Lemma quality_product (q : float) :
  is_quality q -> fle q f0 = false -> fle f1 q = false ->
  exists n, floor (fmul f10 q) = Some n
            /\ int_of_float (fmul f10 q) = Return n
            /\ 0 <= n.
Proof.
  intros (Hvalid & H0 & H1) Hpos Hlt.
  destruct q as [s|s| |s m e]; try done.
  { by destruct s. }
  destruct s; [done|].
  assert (e <= -52) as He.
  { unfold fle, SFleb, SFcompare, f1 in Hlt.
    destruct (Z.compare_spec (-52) e); [lia|done|lia]. }
  assert (Z.pos m < 2 ^ 53) as Hm.
  { unfold valid_binary, bounded, canonical_mantissa, fexp, emin, prec, emax in Hvalid.
    apply andb_true_iff in Hvalid as [Hc _]. apply Z.eqb_eq in Hc.
    pose proof (Zdigits2_bounds m) as [_ Hhi].
    eapply Z.lt_le_trans; [exact Hhi|]. apply Z.pow_le_mono_r; lia. }
  assert (Z.pos (5629499534213120 * m) + 1 < 2 ^ 107) as Hk.
  { rewrite Pos2Z.inj_mul.
    assert (Z.pos 5629499534213120 * Z.pos m < 2 ^ 53 * 2 ^ 53) by nia.
    change (2 ^ 107) with (2 ^ 53 * 2 ^ 53 * 2). lia. }
  unfold fmul, SFmul, f10, prec, emax. cbn [xorb].
  destruct (binary_round_aux_cases false
              (Z.pos (5629499534213120 * m)) (-49 + e) loc_Exact 107
              ltac:(lia) ltac:(lia) Hk)
    as [[-> _]|[(m' & e' & -> & He')|[_ Hb]]].
  - exists 0. by simpl.
  - exists (Z.shiftl (Z.pos m') e'). simpl. split; [done|]. split; [done|].
    by apply Z.shiftl_nonneg.
  - lia.
Qed.


(* ===================================================================== *)
(** * The compression rate                                               *)
(* ===================================================================== *)

Lemma get_known (meta : Metadata.t) (k : string) (default : pyobj) :
  Metadata.get meta k default 0
  = match known meta k with
    | Some v => Return v
    | None =>
        if is_None default then
          Raise (mk_exn ValueError
            ("Metadata has no value '" +:+ k +:+ "' (index " +:+ pretty 0 +:+ ")"))
        else Return default
    end.
Proof.
  unfold Metadata.get, known. rewrite getItem_stored_item. simpl.
  by destruct (stored_item meta k 0).
Qed.

Lemma has_known (meta : Metadata.t) (k : string) (b : bool) :
  Metadata.has meta k = Return b -> b = bool_decide (is_Some (known meta k)).
Proof.
  unfold Metadata.has, Metadata.getItems, known, stored_item, Data_len.
  destruct (Metadata.data_lookup meta k) as [d|]; [|done]. simpl.
  intros [= <-]. unfold item_at. simpl.
  by destruct (values d) as [|item l].
Qed.

Lemma setattr_raises_KeyError (meta meta' : Metadata.t) k v e :
  Metadata.__setattr__ k v meta = (meta', Raise e) -> exn_cls e = KeyError.
Proof.
  unfold Metadata.__setattr__. destruct (Metadata.data_lookup meta k); [done|].
  by intros [= _ <-].
Qed.

Lemma float_div_no_zero_division (x : float) (v : pyobj) (e : exn) :
  truthy v = true -> float_div x v = Raise e -> exn_cls e <> ZeroDivisionError.
Proof.
  destruct v as [|z|y|?]; simpl; try by intros _ [= <-].
  - intros Hz%negb_true_iff%Z.eqb_neq.
    destruct (float_of_int z) as [y|e'] eqn:Ey; simpl.
    + by rewrite (float_of_int_nonzero z y Hz Ey).
    + intros [= <-]. unfold float_of_int in Ey.
      destruct (binary_normalize prec emax z 0 false); by inversion Ey.
  - intros Hy%negb_true_iff. by rewrite Hy.
Qed.

(** C8 (as amended).  [computeCompressionRate] writes the rate, the
    decompressed size divided by the compressed size as doubles, when the
    sizes known for the document (its first values for file_size and
    compr_size) are both non-zero; it returns without a write, leaving the
    document as it was, when no decompressed size is stored, when the
    compressed size is absent or zero, and when the decompressed size is
    zero; and it never raises ZeroDivisionError. *)
Theorem computeCompressionRate_spec (float_of_str : string -> option float)
    (meta : Metadata.t) :
  (forall size compr x y,
     known meta "file_size" = Some (VInt size) ->
     known meta "compr_size" = Some (VInt compr) ->
     size <> 0 -> compr <> 0 ->
     float_of_int size = Return x -> float_of_int compr = Return y ->
     is_zero y = false
     /\ Archive.computeCompressionRate float_of_str meta
        = Metadata.__setattr__ "compr_rate" (VFloat (fdiv x y)) meta)
  /\ (forall b,
       Metadata.has meta "file_size" = Return b ->
       b = false
       \/ (forall v, known meta "compr_size" = Some v -> truthy v = false)
       \/ (forall v, known meta "file_size" = Some v -> truthy v = false) ->
       Archive.computeCompressionRate float_of_str meta = (meta, Return tt))
  /\ (forall e,
       snd (Archive.computeCompressionRate float_of_str meta) = Raise e ->
       exn_cls e <> ZeroDivisionError).
Proof.
  unfold Archive.computeCompressionRate, bind, get_self, lift, ret.
  rewrite !get_known. simpl is_None. cbv iota.
  split; [|split].
  - intros size compr x y Hfs Hcs Hsize Hcompr Hx Hy.
    pose proof (float_of_int_nonzero compr y Hcompr Hy) as Hnz.
    split; [done|].
    destruct (Metadata.has meta "file_size") as [b|e] eqn:Hhas.
    + apply has_known in Hhas. rewrite Hfs in Hhas.
      rewrite bool_decide_eq_true_2 in Hhas by eauto. subst b. simpl.
      rewrite Hcs, Hfs. simpl.
      rewrite (proj2 (Z.eqb_neq compr 0)), (proj2 (Z.eqb_neq size 0)) by done.
      simpl. rewrite Hx, Hy. simpl. by rewrite Hnz.
    + unfold Metadata.has, Metadata.getItems, known, stored_item in *.
      by destruct (Metadata.data_lookup meta "file_size").
  - intros b Hhas Hcases. rewrite Hhas.
    destruct b; simpl; [|done].
    apply has_known in Hhas. symmetry in Hhas.
    apply bool_decide_eq_true in Hhas as [vf Hvf].
    destruct Hcases as [?|[Hc|Hf]]; [done| |].
    + destruct (known meta "compr_size") as [vc|]; simpl; [|done].
      by rewrite (Hc vc).
    + destruct (known meta "compr_size") as [vc|]; simpl; [|done].
      destruct (truthy vc); simpl; [|done].
      rewrite Hvf. by rewrite (Hf vf).
  - intros e.
    destruct (Metadata.has meta "file_size") as [[]|e0] eqn:Hhas; simpl;
      [|done|].
    2:{ intros [= <-]. unfold Metadata.has, Metadata.getItems in Hhas.
        destruct (Metadata.data_lookup meta "file_size"); by inversion Hhas. }
    destruct (known meta "compr_size") as [vc|]; simpl; [|done].
    destruct (truthy vc) eqn:Hvc; simpl; [|done].
    destruct (known meta "file_size") as [vf|]; simpl; [|by intros [= <-]].
    destruct (truthy vf); simpl; [|done].
    destruct (py_float float_of_str vf) as [x|e1] eqn:Hpf; simpl.
    2:{ intros [= <-]. destruct vf as [|z|?|str]; simpl in Hpf; try by inversion Hpf.
        - unfold float_of_int in Hpf.
          destruct (binary_normalize prec emax z 0 false); by inversion Hpf.
        - destruct (float_of_str str); by inversion Hpf. }
    destruct (float_div x vc) as [rate|e2] eqn:Hdiv; simpl.
    + destruct (Metadata.__setattr__ _ _ meta) as [meta' r] eqn:Hset. simpl.
      intros ->. by rewrite (setattr_raises_KeyError _ _ _ _ _ Hset).
    + intros [= <-]. by eapply float_div_no_zero_division.
Qed.

(* ===================================================================== *)
(** * The quality bound on enumerated files                              *)
(* ===================================================================== *)

Section Enumeration.
Context {F : Type}.
Variable format : string.
Variable process : F -> M (MultipleMetadata.t * Log) unit.
Implicit Types (files : list F) (st : MultipleMetadata.t * Log).

Lemma enumerate_files_unbounded files :
  forall index st,
    Archive.enumerate_files format None process index files st
    = for_each files process st.
Proof.
  induction files as [|f files IH]; intros index st; [done|].
  cbn [Archive.enumerate_files for_each]. unfold bind.
  destruct (process f st) as [st' [[]|e]]; [apply IH | done].
Qed.

Lemma enumerate_files_bounded files :
  forall index bound st,
    index <= bound ->
    Archive.enumerate_files format (Some bound) process index files st
    = (for_each (take (Z.to_nat (bound - index)) files) process >>>
       if bound - index <? Z.of_nat (length files)
       then warning (format +:+ " archive contains many files, but only first "
                     +:+ pretty bound +:+ " files are processed")
       else ret tt) st.
Proof.
  induction files as [|f files IH]; intros index bound st Hle.
  - cbn [Archive.enumerate_files]. rewrite take_nil. unfold bind. simpl.
    by rewrite (proj2 (Z.ltb_ge _ _)) by lia.
  - cbn [Archive.enumerate_files].
    destruct (Z.leb_spec bound index) as [Hge|Hlt].
    + replace (bound - index) with 0 by lia. by unfold bind.
    + replace (Z.to_nat (bound - index))
        with (S (Z.to_nat (bound - (index + 1)))) by lia.
      cbn [take for_each]. unfold bind at 1 2 3.
      destruct (process f st) as [st' [[]|e]]; [|done].
      rewrite IH by lia. unfold bind.
      destruct (for_each _ process st') as [st'' [[]|e]]; [|done].
      cbn [length].
      destruct (Z.ltb_spec (bound - (index + 1)) (Z.of_nat (length files)));
        [rewrite (proj2 (Z.ltb_lt _ _)) by lia | rewrite (proj2 (Z.ltb_ge _ _)) by lia];
        done.
Qed.

(** Within the bound every file is processed and nothing is logged. *)
Lemma bounded_run_all files bound st :
  Z.of_nat (length files) <= bound ->
  bounded_run format bound process files st = for_each files process st.
Proof.
  intros H. unfold bounded_run, bind.
  rewrite take_ge by lia. rewrite (proj2 (Z.ltb_ge _ _)) by lia.
  by destruct (for_each files process st) as [st' [[]|e]].
Qed.

(** Beyond the bound the enumeration stops: what the first files left in
    the document stays, and the warning is appended to the log. *)
Lemma bounded_run_truncated files bound me lg me' lg' :
  bound < Z.of_nat (length files) ->
  for_each (take (Z.to_nat bound) files) process (me, lg) = ((me', lg'), Return tt) ->
  bounded_run format bound process files (me, lg)
  = ((me', lg' ++ [(LogWarning, truncation_warning format bound)]), Return tt).
Proof.
  intros H E. unfold bounded_run, bind. rewrite E.
  by rewrite (proj2 (Z.ltb_lt _ _)) by lia.
Qed.

End Enumeration.

(** Comparing doubles in the other order gives the opposite answer. *)
Lemma SFcompare_antisym (x y : float) (c : comparison) :
  SFcompare x y = Some c -> SFcompare y x = Some (CompOpp c).
Proof.
  destruct x as [sx|sx| |sx mx ex], y as [sy|sy| |sy my ey]; simpl;
    try (by intros [= <-]); try done;
    try (destruct sx; by intros [= <-]);
    try (destruct sy; by intros [= <-]);
    try (destruct sx, sy; by intros [= <-]).
  intros [= <-].
  destruct sx, sy; try done; f_equal;
    rewrite (Z.compare_antisym ex ey);
    destruct (ex ?= ey); simpl; try done;
    by rewrite (Pos.compare_cont_antisym mx my Eq).
Qed.

(** The limit to 0.0 .. 1.0 of [Metadata.__init__] yields a quality. *)
Lemma clamp_is_quality (q : float) :
  valid_binary prec emax q = true -> is_quality (py_min (py_max f0 q) f1).
Proof.
  intros Hv. unfold py_min, py_max, flt, SFltb, is_quality, fle, SFleb.
  destruct (SFcompare f0 q) as [[]|] eqn:E0; try (by repeat split).
  destruct (SFcompare f1 q) as [[]|] eqn:E1; try (by repeat split).
  - apply SFcompare_antisym in E1. rewrite E0, E1. by repeat split.
  - apply SFcompare_antisym in E1. rewrite E0, E1. by repeat split.
  - by destruct q as [[]|[]| |[]].
Qed.

Lemma for_each_register_quality (items : list Data) (self self' : Metadata.t) r :
  for_each items Metadata.register self = (self', r) ->
  Metadata.quality self' = Metadata.quality self.
Proof.
  revert self. induction items as [|d items IH]; intros self; simpl.
  - by intros [= <- _].
  - unfold bind, Metadata.register.
    destruct (Metadata.data_lookup self (key d)); [by intros [= <- _]|].
    intros H%IH. by rewrite H.
Qed.

(** A document built by the constructor of a container class has a
    quality, whatever double the caller passes. *)
Lemma MultipleMetadata_init_quality (registerAllItems : list Data)
    (cls : string) (q : float) (me : MultipleMetadata.t) :
  valid_binary prec emax q = true ->
  MultipleMetadata__init__ registerAllItems cls q = Return me ->
  is_quality (Metadata.quality (MultipleMetadata.root me))
  /\ MultipleMetadata.groups me = []
  /\ MultipleMetadata.key_counter me = ∅.
Proof.
  intros Hv. unfold MultipleMetadata__init__, RootMetadata__init__,
    Metadata__init__.
  destruct (for_each registerAllItems Metadata.register _) as [self [[]|e]] eqn:E;
    simpl; [|done].
  intros [= <-]. simpl. apply for_each_register_quality in E. rewrite E.
  split; [by apply clamp_is_quality | done].
Qed.

Lemma maxNbFile_cases (meta : Metadata.t) :
  is_quality (Metadata.quality meta) ->
  let q := Metadata.quality meta in
  (fle q Archive.QUALITY_FASTEST = true ->
     Archive.maxNbFile meta = Return (Some 0))
  /\ (fle q Archive.QUALITY_FASTEST = false ->
      fle Archive.QUALITY_BEST q = true ->
      Archive.maxNbFile meta = Return None)
  /\ (fle q Archive.QUALITY_FASTEST = false ->
      fle Archive.QUALITY_BEST q = false ->
      exists n, floor (fmul f10 q) = Some n /\ 0 <= n
                /\ Archive.maxNbFile meta = Return (Some (1 + n))).
Proof.
  intros Hq q. unfold Archive.maxNbFile. fold q.
  split; [by intros ->|]. split; [by intros -> ->|].
  intros H0 H1. rewrite H0, H1.
  destruct (quality_product q Hq H0 H1) as (n & Hfloor & Hint & Hn).
  exists n. by rewrite Hint.
Qed.

(** C2.  The number of files that [ZipMetadata.extract] processes is
    bounded by the quality of the document: none when the quality is at
    most QUALITY_FASTEST, all when it is at least QUALITY_BEST, and
    otherwise the first [1 + floor(10 * quality)], the product being the
    product of doubles.  When files remain beyond the bound the
    enumeration stops with a warning, and what the processed files left in
    the document stays. *)
Theorem ZipMetadata_extract_quality_bound (HACHOIR_ERRORS : exn_class -> bool)
    (float_repr : float -> string) (float_of_str : string -> option float)
    (registerAllItems : list Data) (QUALITY_NORMAL : float)
    (me : MultipleMetadata.t) (lg : Log) (files : list Archive.ZipFileField) :
  is_quality (Metadata.quality (MultipleMetadata.root me)) ->
  let q := Metadata.quality (MultipleMetadata.root me) in
  let process :=
    Archive.processFile HACHOIR_ERRORS float_repr float_of_str
      registerAllItems QUALITY_NORMAL in
  let run :=
    Archive.ZipMetadata_extract HACHOIR_ERRORS float_repr float_of_str
      registerAllItems QUALITY_NORMAL files (me, lg) in
  (fle q Archive.QUALITY_FASTEST = true ->
     run = bounded_run "ZIP" 0 process files (me, lg))
  /\ (fle q Archive.QUALITY_FASTEST = false ->
      fle Archive.QUALITY_BEST q = true ->
      run = for_each files process (me, lg))
  /\ (fle q Archive.QUALITY_FASTEST = false ->
      fle Archive.QUALITY_BEST q = false ->
      exists n, floor (fmul f10 q) = Some n /\ 0 <= n
                /\ run = bounded_run "ZIP" (1 + n) process files (me, lg))
  /\ (forall bound me' lg',
        bound < Z.of_nat (length files) ->
        for_each (take (Z.to_nat bound) files) process (me, lg)
        = ((me', lg'), Return tt) ->
        bounded_run "ZIP" bound process files (me, lg)
        = ((me', lg' ++ [(LogWarning, truncation_warning "ZIP" bound)]),
           Return tt))
  /\ (forall bound,
        Z.of_nat (length files) <= bound ->
        bounded_run "ZIP" bound process files (me, lg)
        = for_each files process (me, lg)).
Proof.
  intros Hq q process run.
  destruct (maxNbFile_cases (MultipleMetadata.root me) Hq) as (Hfast & Hbest & Hmid).
  fold q in Hfast, Hbest, Hmid.
  subst run. unfold Archive.ZipMetadata_extract, bind, get_self, lift. simpl.
  fold process.
  split; [|split; [|split; [|split]]].
  - intros H. rewrite (Hfast H).
    rewrite enumerate_files_bounded by lia.
    unfold bounded_run, truncation_warning. by rewrite Z.sub_0_r.
  - intros H0 H1. rewrite (Hbest H0 H1). apply enumerate_files_unbounded.
  - intros H0 H1. destruct (Hmid H0 H1) as (n & Hfloor & Hn & ->).
    exists n. split; [done|]. split; [done|].
    rewrite enumerate_files_bounded by lia.
    unfold bounded_run, truncation_warning. by rewrite Z.sub_0_r.
  - intros bound me' lg'. apply bounded_run_truncated.
  - intros bound. apply bounded_run_all.
Qed.

(* ===================================================================== *)
(** * Dispatch: extractMetadata                                          *)
(* ===================================================================== *)

Lemma data_lookup_update_ne (self : Metadata.t) (k k2 : string) (d' : Data) :
  k <> k2 -> key d' = k ->
  Metadata.data_lookup (Metadata.data_update self k d') k2
  = Metadata.data_lookup self k2.
Proof.
  intros Hne Hk. unfold Metadata.data_lookup, Metadata.data_update. simpl.
  induction (Metadata.data self) as [|x l IH]; [done|]. simpl.
  destruct (String.eqb (key x) k) eqn:E.
  - apply String.eqb_eq in E.
    rewrite (proj2 (String.eqb_neq (key d') k2)) by congruence.
    by rewrite (proj2 (String.eqb_neq (key x) k2)) by congruence.
  - destruct (String.eqb (key x) k2); [done | exact IH].
Qed.

(** A write under a declared key: the outcome, the values of the key
    afterwards, and the other keys. *)
Lemma setattr_declared (self : Metadata.t) (k : string) (v : pyobj)
    (vs : list pyobj) :
  Metadata.getValues self k = Return vs ->
  exists self', Metadata.__setattr__ k v self = (self', Return tt)
    /\ Metadata.getValues self' k = Return (add_value vs v)
    /\ (forall k2, k <> k2 ->
          Metadata.data_lookup self' k2 = Metadata.data_lookup self k2).
Proof.
  intros (d & Hd & ->)%getValues_lookup.
  pose proof (data_lookup_key _ _ _ Hd) as Hk.
  assert (key (Data_add d v) = k) as Hk' by (by rewrite key_Data_add).
  exists (Metadata.data_update self k (Data_add d v)). split; [|split].
  - unfold Metadata.__setattr__. by rewrite Hd.
  - unfold Metadata.getValues.
    rewrite (data_lookup_update _ _ _ _ Hd Hk'). by rewrite values_Data_add.
  - intros k2 Hne. by apply data_lookup_update_ne.
Qed.

Lemma with_base_base (f : Metadata.t -> Metadata.t) (doc : document) :
  base (with_base f doc) = f (base doc).
Proof. by destruct doc. Qed.

Lemma with_base_twice (f g : Metadata.t -> Metadata.t) (doc : document) :
  with_base f (with_base g doc) = with_base (fun m => f (g m)) doc.
Proof. by destruct doc. Qed.

(** C3.  [extractMetadata] returns [None] exactly for a parser class
    without a registered extractor.  For a registered class whose
    population routine returns or raises one of HACHOIR_ERRORS, the error
    is logged and not propagated, and the document as the routine left it
    is returned: unchanged when it is empty, and with the MIME type and
    the name of the byte order written (every other field and the groups
    kept) when it is not. *)
Theorem extractMetadata_spec {T : Type} (HACHOIR_ERRORS : exn_class -> bool)
    (endian_name : gmap string string)
    (extractors : gmap string (Extractor T)) (parser : Parser T)
    (quality : float) (lg : Log) :
  let run := extractMetadata HACHOIR_ERRORS endian_name extractors parser
               quality lg in
  (snd run = Return None <-> extractors !! parser_class parser = None)
  /\ (extractors !! parser_class parser = None -> run = (lg, Return None))
  /\ (forall E d0 d1 lg1 r,
        extractors !! parser_class parser = Some E ->
        construct E quality = Return d0 ->
        extract E parser (d0, lg) = ((d1, lg1), r) ->
        (forall e, r = Raise e -> HACHOIR_ERRORS (exn_cls e) = true) ->
        let lg2 :=
          match r with
          | Return _ => lg1
          | Raise e =>
              lg1 ++ [(LogError, "Error during metadata extraction: "
                                 +:+ exn_msg e)]
          end in
        (empty d1 -> run = (lg2, Return (Some d1)))
        /\ (~ empty d1 ->
            forall name vm ve,
              endian_name !! endian parser = Some name ->
              Metadata.getValues (base d1) "mime_type" = Return vm ->
              Metadata.getValues (base d1) "endian" = Return ve ->
              exists d2,
                run = (lg2, Return (Some d2))
                /\ d2 = with_base (fun _ => base d2) d1
                /\ Metadata.getValues (base d2) "mime_type"
                   = Return (add_value vm (mime_type parser))
                /\ Metadata.getValues (base d2) "endian"
                   = Return (add_value ve (VStr name))
                /\ (forall k, k <> "mime_type" -> k <> "endian" ->
                      Metadata.data_lookup (base d2) k
                      = Metadata.data_lookup (base d1) k))).
Proof.
  intros run. subst run. unfold extractMetadata.
  split; [|split].
  - destruct (extractors !! parser_class parser) as [E|]; [|done].
    split; [|done]. simpl.
    destruct (construct E quality) as [d0|e]; [|done].
    unfold try_except.
    destruct (extract E parser (d0, lg)) as [[d1 lg1] [[]|e]].
    + destruct (__nonzero__ d1); [|done].
      by destruct (attach endian_name parser d1) as [d2 [[]|e]].
    + destruct (HACHOIR_ERRORS (exn_cls e)); [|done]. simpl.
      destruct (__nonzero__ d1); [|done].
      by destruct (attach endian_name parser d1) as [d2 [[]|e']].
  - by intros ->.
  - intros E d0 d1 lg1 r HE Hc Hx Hr. rewrite HE, Hc.
    set (lg2 := match r with Return _ => lg1 | Raise e => _ end).
    assert (try_except (extract E parser) HACHOIR_ERRORS
              (fun err => error ("Error during metadata extraction: "
                                 +:+ exn_msg err)) (d0, lg)
            = ((d1, lg2), Return tt)) as ->.
    { unfold try_except. rewrite Hx. subst lg2.
      destruct r as [[]|e]; [done|]. by rewrite (Hr e eq_refl). }
    split.
    + intros Hempty%nonzero_false_iff_empty. by rewrite Hempty.
    + intros Hne name vm ve Hname Hvm Hve.
      assert (__nonzero__ d1 = true) as ->.
      { destruct (__nonzero__ d1) eqn:Hz; [done|].
        by apply nonzero_false_iff_empty in Hz. }
      destruct (setattr_declared (base d1) "mime_type" (mime_type parser) vm Hvm)
        as (m1 & Hset1 & Hvals1 & Hother1).
      assert (Metadata.getValues m1 "endian" = Return ve) as Hve1.
      { unfold Metadata.getValues in *. by rewrite Hother1. }
      destruct (setattr_declared m1 "endian" (VStr name) ve Hve1)
        as (m2 & Hset2 & Hvals2 & Hother2).
      exists (with_base (fun _ => m2) d1).
      unfold attach, bind, on_base. rewrite Hset1, Hname.
      rewrite with_base_base, Hset2, with_base_twice, !with_base_base.
      split; [done|]. split; [done|]. split; [|split; [done|]].
      * unfold Metadata.getValues in *. by rewrite Hother2.
      * intros k Hk1 Hk2. rewrite Hother2, Hother1; done.
Qed.

(* ===================================================================== *)
(** * Export of plain documents and of their containers                  *)
(* ===================================================================== *)

Section ExportFacts.
Variables MIN_PRIORITY MAX_PRIORITY : Z.
Variable makeUnicode : pyobj -> string.
Variable line_prefix : string.

Lemma existsb_insert_by_priority (f : Data -> bool) (d : Data) (l : list Data) :
  existsb f (insert_by_priority d l) = f d || existsb f l.
Proof.
  induction l as [|x l IH]; simpl; [done|].
  destruct (priority d <=? priority x); simpl; [done|].
  rewrite IH. by destruct (f d), (f x).
Qed.

Lemma existsb_sorted (f : Data -> bool) (l : list Data) :
  existsb f (sorted l) = existsb f l.
Proof.
  induction l as [|x l IH]; simpl; [done|].
  by rewrite existsb_insert_by_priority, IH.
Qed.

Lemma Forall_sorted (P : Data -> Prop) (l : list Data) :
  Forall P l -> Forall P (sorted l).
Proof.
  induction 1 as [|x l Hx _ IH]; simpl; [constructor|].
  induction IH as [|y l' Hy Hl' IH']; simpl; [by repeat constructor|].
  destruct (priority x <=? priority y); by repeat constructor.
Qed.

(** With the default cut-off no field is skipped for its priority: the
    loop yields no line for a store without values and starts with a field
    line otherwise. *)
Lemma export_fields_default (human : bool) (l : list Data) :
  Forall (fun d => priority d <= MAX_PRIORITY) l ->
  match Metadata.export_fields makeUnicode MAX_PRIORITY human line_prefix l with
  | [] => existsb Data_nonzero l = false
  | line :: _ => existsb Data_nonzero l = true /\ is_field_line line_prefix line
  end.
Proof.
  induction 1 as [|d l Hd _ IH]; simpl; [done|].
  rewrite (proj2 (Z.ltb_ge _ _)) by done.
  unfold Data_nonzero at 1 3, Data_len.
  destruct (values d) as [|item items]; simpl; [exact IH|].
  split; [done|]. eexists _, _. reflexivity.
Qed.

Lemma Metadata_exportPlaintext_default (m : Metadata.t) (human : bool)
    (title : option string) :
  Forall (fun d => priority d <= MAX_PRIORITY) (Metadata.data m) ->
  match Metadata.exportPlaintext MIN_PRIORITY MAX_PRIORITY makeUnicode m None
          human line_prefix title with
  | None => Metadata.__nonzero__ m = false
  | Some lines =>
      Metadata.__nonzero__ m = true
      /\ exists header line rest,
           lines = header :: line :: rest
           /\ is_header header /\ is_field_line line_prefix line
  end.
Proof.
  intros Hb%Forall_sorted. apply (export_fields_default human) in Hb.
  unfold Metadata.exportPlaintext, Metadata.__nonzero__.
  rewrite existsb_sorted in Hb.
  destruct (Metadata.export_fields _ _ _ _ _) as [|line rest]; simpl; [done|].
  destruct Hb as [-> Hline]. split; [done|].
  eexists _, _, _. split; [done|]. split; [|done]. eexists. reflexivity.
Qed.

(** The lines that the groups of a flat document contribute. *)
Lemma group_lines_flat (groups : list (string * document)) :
  Forall (fun kg => exists m, snd kg = Plain m) groups ->
  Forall (fun kg => Forall (fun d => priority d <= MAX_PRIORITY)
                      (Metadata.data (base (snd kg)))) groups ->
  forall text,
  exists lines,
    extend_with_groups
      (fun metadata title =>
         exportPlaintext MIN_PRIORITY MAX_PRIORITY makeUnicode metadata
           None true line_prefix (Some title))
      true groups text = Return (text ++ lines)
    /\ match lines with
       | [] => existsb (fun kg => __nonzero__ (snd kg)) groups = false
       | header :: rest =>
           existsb (fun kg => __nonzero__ (snd kg)) groups = true
           /\ is_header header
           /\ exists line rest', rest = line :: rest'
                                  /\ is_field_line line_prefix line
       end.
Proof.
  induction 1 as [|[k doc] groups [m Hm] _ IH]; intros Hb text.
  - exists []. by rewrite app_nil_r.
  - apply Forall_cons in Hb as [Hbm Hb]. simpl in Hm, Hbm. subst doc.
    cbn [extend_with_groups exportPlaintext rbind negb snd __nonzero__ existsb].
    pose proof (Metadata_exportPlaintext_default m true None Hbm) as Hm.
    destruct (Metadata.exportPlaintext _ _ _ m None true line_prefix None)
      as [lines|].
    + destruct Hm as (-> & header & line & rest & -> & Hh & Hl).
      destruct (IH Hb (text ++ header :: line :: rest)) as (more & Hrun & _).
      exists ((header :: line :: rest) ++ more).
      split; [by rewrite app_assoc|]. simpl. eauto 10.
    + rewrite Hm. cbn [orb].
      destruct (IH Hb text) as (more & Hrun & Hmore). by exists more.
Qed.

(** On every document whose groups are plain documents, the export with
    default arguments returns [None] exactly when the document is empty,
    and otherwise a header line followed by at least one field line. *)
Lemma exportPlaintext_flat (doc : document) :
  flat doc -> priorities_bounded MAX_PRIORITY doc ->
  (empty doc ->
     exportPlaintext MIN_PRIORITY MAX_PRIORITY makeUnicode doc None true
       line_prefix None = Return None)
  /\ (~ empty doc ->
      exists header line rest,
        exportPlaintext MIN_PRIORITY MAX_PRIORITY makeUnicode doc None true
          line_prefix None = Return (Some (header :: line :: rest))
        /\ is_header header /\ is_field_line line_prefix line).
Proof.
  intros Hflat [Hbase Hgroups].
  rewrite <- nonzero_false_iff_empty.
  destruct doc as [m|m groups counter].
  - cbn [exportPlaintext __nonzero__]. simpl in Hbase.
    pose proof (Metadata_exportPlaintext_default m true None Hbase) as Hm.
    destruct (Metadata.exportPlaintext _ _ _ m None true line_prefix None)
      as [lines|].
    + destruct Hm as (-> & header & line & rest & -> & Hh & Hl).
      split; [done|]. intros _. eauto 10.
    + rewrite Hm. by split.
  - cbn [exportPlaintext __nonzero__]. simpl in Hbase, Hflat.
    pose proof (Metadata_exportPlaintext_default m true None Hbase) as Hm.
    destruct (Metadata.exportPlaintext _ _ _ m None true line_prefix None)
      as [lines|].
    + destruct Hm as (-> & header & line & rest & -> & Hh & Hl).
      destruct (group_lines_flat groups Hflat Hgroups (header :: line :: rest))
        as (more & Hrun & _).
      cbn [extend_with_groups] in Hrun. rewrite Hrun.
      split; [done|]. intros _. simpl. eauto 10.
    + rewrite Hm.
      destruct (group_lines_flat groups Hflat Hgroups []) as (more & Hrun & Hmore).
      cbn [extend_with_groups] in Hrun. rewrite Hrun.
      simpl. destruct more as [|header rest].
      * rewrite Hmore. by split.
      * destruct Hmore as (-> & Hh & line & rest' & -> & Hl).
        split; [done|]. intros _. eauto 10.
Qed.

End ExportFacts.

(* ===================================================================== *)
(** * Export of nested multiple documents                                *)
(* ===================================================================== *)

(** A multiple document whose first group is itself a multiple document
    cannot be exported: the group is called with the [title] keyword,
    which [MultipleMetadata.exportPlaintext] does not accept. *)
Lemma exportPlaintext_multiple_group_raises (MIN_PRIORITY MAX_PRIORITY : Z)
    (makeUnicode : pyobj -> string) (m inner : Metadata.t)
    (k : string) (inner_groups rest : list (string * document))
    (inner_counter counter : gmap string Z)
    (prio : option Z) (human : bool) (line_prefix : string) :
  exportPlaintext MIN_PRIORITY MAX_PRIORITY makeUnicode
    (Multiple m ((k, Multiple inner inner_groups inner_counter) :: rest) counter)
    prio human line_prefix None
  = Raise (mk_exn TypeError
      "exportPlaintext() got an unexpected keyword argument 'title'").
Proof. reflexivity. Qed.

(** C1.  On a multiple document that holds a non-empty multiple document
    as a group, [exportPlaintext] with default arguments does not return
    lines (nor [None]): it raises TypeError, although the document is not
    empty. *)
Theorem exportPlaintext_nested_raises :
  __nonzero__ Example.nested = true
  /\ ~ empty Example.nested
  /\ exportPlaintext Example.MIN_PRIORITY Example.MAX_PRIORITY
       (py_str Example.float_repr) Example.nested None true "- " None
     = Raise (mk_exn TypeError
         "exportPlaintext() got an unexpected keyword argument 'title'").
Proof.
  assert (__nonzero__ Example.nested = true) as H by reflexivity.
  split; [done|]. split; [|reflexivity].
  intros He%nonzero_false_iff_empty. congruence.
Qed.

(* ===================================================================== *)
(** * The properties at concrete inputs                                  *)
(* ===================================================================== *)

(** The doctests of metadata.py, on the concrete schema. *)
Example doctest_export_empty :
  exportPlaintext Example.MIN_PRIORITY Example.MAX_PRIORITY
    (py_str Example.float_repr)
    (Plain (Example.fresh "RootMetadata" "Metadata" Example.QUALITY_NORMAL))
    None true "- " None
  = Return None.
Proof. reflexivity. Qed.

Example doctest_export_one_field :
  exportPlaintext Example.MIN_PRIORITY Example.MAX_PRIORITY
    (py_str Example.float_repr) (Plain (Example.named "hachoir.txt"))
    None true "- " None
  = Return (Some ["Metadata:"; "- File name: hachoir.txt"]).
Proof. reflexivity. Qed.

Example doctest_get_default :
  Metadata.get (Example.named "hachoir.txt") "compression" (VStr "Anonymous") 0
  = Return (VStr "Anonymous").
Proof. reflexivity. Qed.

(** A container with a field of its own and two groups: its lines first,
    then the lines of each group under the header given to [addGroup]. *)
Example export_container :
  let me := MultipleMetadata.mk
              (fst (Metadata.__setattr__ "compression" (VStr "deflate")
                      (Example.fresh "ZipMetadata" "Common" f1))) [] ∅ in
  let run := addGroup3 "file[]" (Plain (Example.named "a.txt"))
               (Plain (Example.fresh "Metadata" "Metadata" f1))
               (Plain (Example.named "b.txt"))
               (Some "File a") None None (me, []) in
  snd run = Return (true, false, true)
  /\ exportPlaintext Example.MIN_PRIORITY Example.MAX_PRIORITY
       (py_str Example.float_repr)
       (MultipleMetadata.to_document (fst (fst run))) None true "- " None
     = Return (Some ["Common:"; "- Compression: deflate";
                     "File a:"; "- File name: a.txt";
                     "Metadata:"; "- File name: b.txt"])
  /\ map fst (MultipleMetadata.groups (fst (fst run))) = ["file[1]"; "file[2]"].
Proof. vm_compute. repeat split; reflexivity. Qed.

Lemma setattr_undeclared_key_witness :
  let doc := Plain (Example.fresh "Metadata" "Metadata" f1) in
  ("titre" ∉ map key (Metadata.data (base doc)))
  /\ on_base (Metadata.__setattr__ "titre" (VStr "Le titre")) doc
     = (doc, Raise (mk_exn KeyError "Metadata has no metadata 'titre'")).
Proof.
  intros doc.
  assert ("titre" ∉ map key (Metadata.data (base doc))) as H
    by (apply (bool_decide_unpack _); vm_compute; exact I).
  split; [exact H|].
  exact (setattr_undeclared_key_raises doc "titre" (VStr "Le titre") H).
Defined.

Lemma setattr_twice_witness :
  let self := Example.fresh "Metadata" "Metadata" f1 in
  Metadata.getValues self "filename" = Return []
  /\ exists self1,
       Metadata.__setattr__ "filename" (VStr "a.txt") self = (self1, Return tt)
       /\ Metadata.__setattr__ "filename" (VStr "a.txt") self1 = (self1, Return tt)
       /\ Metadata.getValues self1 "filename" = Return [VStr "a.txt"].
Proof.
  intros self.
  assert (Metadata.getValues self "filename" = Return []) as H by reflexivity.
  split; [exact H|].
  destruct (setattr_twice_one_item self "filename" (VStr "a.txt") [] H)
    as (self1 & H1 & H2 & _ & H4 & _).
  exists self1. split; [exact H1|]. split; [exact H2|]. exact (H4 eq_refl).
Defined.

Lemma getText_get_witness :
  let self := Example.named "a.txt" in
  Metadata.getText self "titre" (VStr "Unknown") 0 = Return (VStr "Unknown")
  /\ Metadata.get self "titre" (VStr "Anonymous") 7 = Return (VStr "Anonymous")
  /\ Metadata.getText self "filename" VNone (-1) = Return (VStr "a.txt")
  /\ Metadata.getText self "filename" VNone 1 = Return VNone.
Proof.
  intros self.
  assert ("titre" ∉ map key (Metadata.data self)) as H
    by (apply (bool_decide_unpack _); vm_compute; exact I).
  destruct (getText_get_never_raise self "titre" (VStr "Unknown") 0)
    as (_ & _ & Hk).
  destruct (Hk H) as (_ & Htext & _).
  destruct (getText_get_never_raise self "titre" (VStr "Anonymous") 7)
    as (_ & _ & Hk').
  destruct (Hk' H) as (_ & _ & Hget).
  split; [exact Htext|]. split; [apply Hget; discriminate|].
  split.
  - exact (proj1 (getText_get_never_raise self "filename" VNone (-1))).
  - exact (proj1 (getText_get_never_raise self "filename" VNone 1)).
Defined.

Lemma addGroup_empty_witness :
  let child := Plain (Example.fresh "Metadata" "Metadata" f1) in
  let st := MultipleMetadata.Frame (Example.zip f1) child [] in
  empty child
  /\ MultipleMetadata.addGroup "file[]" (Some "File") st
     = (MultipleMetadata.Frame (Example.zip f1) child
          [(LogWarning, "Skip empty group file[]")],
        Return false).
Proof.
  intros child st.
  assert (empty child) as H by (apply nonzero_false_iff_empty; reflexivity).
  split; [exact H|].
  exact (addGroup_empty_rejected st "file[]" (Some "File") H).
Defined.

(** C7, as stated, fails on empty documents: three calls with the array
    marker store nothing and return [False] three times. *)
Lemma addGroup_three_empty_counterexample :
  let child := Plain (Example.fresh "Metadata" "Metadata" f1) in
  let run := addGroup3 "file[]" child child child None None None
               (Example.zip f1, []) in
  MultipleMetadata.groups (fst (fst run)) = []
  /\ MultipleMetadata.key_counter (fst (fst run)) !! "file" = None
  /\ snd run = Return (false, false, false).
Proof. vm_compute. repeat split; reflexivity. Qed.

Lemma addGroup_three_indexed_witness :
  let d1 := Plain (Example.named "a.txt") in
  let d2 := Plain (Example.named "b.txt") in
  let d3 := Plain (Example.named "a.txt") in
  (__nonzero__ d1 = true /\ __nonzero__ d2 = true /\ __nonzero__ d3 = true)
  /\ MultipleMetadata.key_counter (Example.zip f1) !! "file" = None
  /\ map fst (MultipleMetadata.groups
       (fst (fst (addGroup3 "file[]" d1 d2 d3 None (Some "B") None
                    (Example.zip f1, [])))))
     = ["file[1]"; "file[2]"; "file[3]"].
Proof.
  intros d1 d2 d3.
  split; [repeat split; reflexivity|]. split; [reflexivity|].
  destruct (addGroup_three_indexed (Example.zip f1) [] "file" d1 d2 d3
              None (Some "B") None
              eq_refl eq_refl eq_refl eq_refl eq_refl eq_refl eq_refl)
    as [H _].
  exact (f_equal (fun r => map fst (MultipleMetadata.groups (fst (fst r)))) H).
Defined.

(** C8, as stated, fails when the decompressed size is known and zero:
    with a compressed size of 100 no rate is written. *)
Lemma computeCompressionRate_zero_size_counterexample :
  let meta := Example.sized 0 100 in
  known meta "file_size" = Some (VInt 0)
  /\ known meta "compr_size" = Some (VInt 100)
  /\ Archive.computeCompressionRate Example.float_of_str meta = (meta, Return tt)
  /\ Metadata.getValues meta "compr_rate" = Return [].
Proof. vm_compute. repeat split; reflexivity. Qed.

Lemma computeCompressionRate_witness :
  let meta := Example.sized 300 100 in
  fdiv Example.f300 Example.f100 = f3
  /\ Archive.computeCompressionRate Example.float_of_str meta
     = Metadata.__setattr__ "compr_rate" (VFloat f3) meta
  /\ Metadata.getValues
       (fst (Archive.computeCompressionRate Example.float_of_str meta))
       "compr_rate" = Return [VFloat f3].
Proof.
  intros meta.
  assert (fdiv Example.f300 Example.f100 = f3) as Hdiv by reflexivity.
  destruct (proj1 (computeCompressionRate_spec Example.float_of_str meta)
              300 100 Example.f300 Example.f100
              eq_refl eq_refl ltac:(discriminate) ltac:(discriminate)
              eq_refl eq_refl) as [_ ->].
  rewrite Hdiv. split; [reflexivity|]. split; reflexivity.
Defined.

Lemma GenericVector_large_count_counterexample :
  exists v,
    Vector.__init__ "/header" "palette" (2 ^ 63) Example.byte "color" None
    = Return v
    /\ Vector.__len__ v = 2 ^ 63
    /\ (forall n, Vector.len Example.maxsize v <> Return n)
    /\ (forall created, Vector.createFields Example.maxsize v <> Return created)
    /\ (forall labelled, Vector.fields Example.maxsize v <> Return labelled).
Proof.
  eexists. split; [reflexivity|]. split; [reflexivity|].
  split; [|split]; intros x H; vm_compute in H; discriminate H.
Qed.

Lemma GenericVector_init_witness :
  (Vector.is_field Example.byte = true
   /\ Vector.static_size Example.byte = Some 8)
  /\ (exists v,
        Vector.__init__ "/header" "palette" 3 Example.byte "color" None = Return v
        /\ Vector.__len__ v = 3
        /\ Vector.len Example.maxsize v = Return 3
        /\ Vector.fields Example.maxsize v
           = Return [(Example.byte, "color[0]"); (Example.byte, "color[1]");
                     (Example.byte, "color[2]")])
  /\ Vector.__init__ "/header" "palette" 0 Example.byte "color" None
     = Raise (mk_exn ParserError
         ("Unable to create empty vector " +:+ dquote +:+ "palette" +:+ dquote
          +:+ " in /header")).
Proof.
  split; [split; reflexivity|].
  split.
  - destruct (GenericVector_init_spec Example.maxsize "/header" "palette" 3
                Example.byte "color" None 8 eq_refl eq_refl) as (_ & Hpos & _).
    destruct (Hpos ltac:(lia)) as (v & Hv & Hlen & Hfit & _).
    destruct (Hfit ltac:(done)) as (Hl & created & _ & _ & _ & Hfields).
    exists v. split; [exact Hv|]. split; [exact Hlen|].
    split; [exact Hl | exact Hfields].
  - destruct (GenericVector_init_spec Example.maxsize "/header" "palette" 0
                Example.byte "color" None 8 eq_refl eq_refl) as (Hneg & _).
    apply Hneg. lia.
Defined.

Lemma ZipMetadata_extract_witness :
  let me := Example.zip f0_25 in
  let run := Example.ZipMetadata_extract (Example.entries 50) (me, []) in
  is_quality (Metadata.quality (MultipleMetadata.root me))
  /\ floor (fmul f10 f0_25) = Some 2
  /\ run = bounded_run "ZIP" 3 Example.processFile (Example.entries 50) (me, [])
  /\ map fst (MultipleMetadata.groups (fst (fst run)))
     = ["file[0]"; "file[1]"; "file[2]"]
  /\ snd (fst run)
     = [(LogWarning,
         "ZIP archive contains many files, but only first 3 files are processed")].
Proof.
  intros me run.
  assert (is_quality (Metadata.quality (MultipleMetadata.root me))) as Hq
    by (repeat split; reflexivity).
  split; [exact Hq|]. split; [reflexivity|].
  destruct (ZipMetadata_extract_quality_bound Example.hachoir_errors
              Example.float_repr Example.float_of_str Example.schema
              Example.QUALITY_NORMAL me [] (Example.entries 50) Hq)
    as (_ & _ & Hmid & _).
  destruct (Hmid eq_refl eq_refl) as (n & Hn & _ & Hrun).
  assert (n = 2) as -> by (vm_compute in Hn; congruence).
  split; [exact Hrun|].
  split; vm_compute; reflexivity.
Defined.

Lemma extractMetadata_witness :
  let run := extractMetadata Example.hachoir_errors Example.endian_name
               Example.extractors Example.gzip_parser f1 [] in
  fst run = [(LogError, "Error during metadata extraction: no field os")]
  /\ exists doc,
       snd run = Return (Some doc)
       /\ Metadata.getValues (base doc) "filename" = Return [VStr "a.txt"]
       /\ Metadata.getValues (base doc) "mime_type"
          = Return [VStr "application/x-gzip"]
       /\ Metadata.getValues (base doc) "endian" = Return [VStr "Little endian"].
Proof.
  intros run.
  destruct (extractMetadata_spec Example.hachoir_errors Example.endian_name
              Example.extractors Example.gzip_parser f1 []) as (_ & _ & H).
  specialize (H Example.gzip_extractor _ _ _ _ eq_refl eq_refl eq_refl).
  destruct H as [_ H].
  { by intros e [= <-]. }
  destruct (H ltac:(intros He%nonzero_false_iff_empty; discriminate)
              "Little endian" [] [] eq_refl eq_refl eq_refl)
    as (d2 & Hrun & _ & Hm & He & Hk).
  subst run. rewrite Hrun. split; [reflexivity|].
  exists d2. split; [reflexivity|]. split; [|split; [exact Hm|exact He]].
  unfold Metadata.getValues. by rewrite Hk.
Defined.

(* ===================================================================== *)
(** * Further properties of the value store                              *)
(* ===================================================================== *)

Lemma for_each_register (items : list Data) :
  forall (self : Metadata.t),
    NoDup (map key (Metadata.data self ++ items)) ->
    for_each items Metadata.register self
    = (Metadata.set_data self (Metadata.data self ++ items), Return tt).
Proof.
  induction items as [|d items IH]; intros self Hnd.
  - rewrite app_nil_r. by destruct self.
  - cbn [for_each]. unfold bind, Metadata.register.
    assert (Metadata.data_lookup self (key d) = None) as ->.
    { apply data_lookup_None. rewrite map_app in Hnd.
      apply NoDup_app in Hnd as (_ & Hdis & _). intros Hin.
      apply (Hdis _ Hin). simpl. left. }
    rewrite IH; simpl.
    + by rewrite <- app_assoc.
    + by rewrite <- app_assoc.
Qed.

Lemma for_each_register_dup (items : list Data) :
  forall (self : Metadata.t),
    NoDup (map key (Metadata.data self)) ->
    ~ NoDup (map key (Metadata.data self ++ items)) ->
    exists self', for_each items Metadata.register self
                  = (self', Raise (mk_exn AssertionError "")).
Proof.
  induction items as [|d items IH]; intros self Hnd Hdup.
  - rewrite app_nil_r in Hdup. done.
  - cbn [for_each]. unfold bind, Metadata.register.
    destruct (Metadata.data_lookup self (key d)) as [d'|] eqn:E; [eauto|].
    apply data_lookup_None in E.
    apply IH; simpl.
    + rewrite map_app. simpl. apply NoDup_app. split; [done|].
      split; [|apply NoDup_singleton].
      intros x Hx ->%list_elem_of_singleton. done.
    + by rewrite <- app_assoc.
Qed.

(** X1.  The constructor succeeds exactly when the keys that
    [registerAllItems] declares are pairwise distinct; the new document
    then declares these fields, in that order, and a repeated key raises
    AssertionError. *)
Theorem Metadata_init_registers_schema (registerAllItems : list Data)
    (cls hdr : string) (parent : option document) (q : float) :
  (NoDup (map key registerAllItems) ->
     exists self,
       Metadata__init__ registerAllItems cls hdr parent q = Return self
       /\ Metadata.data self = registerAllItems
       /\ Metadata.class_name self = cls /\ Metadata.header self = hdr)
  /\ (~ NoDup (map key registerAllItems) ->
      Metadata__init__ registerAllItems cls hdr parent q
      = Raise (mk_exn AssertionError "")).
Proof.
  unfold Metadata__init__. split; intros H.
  - rewrite for_each_register by done. eauto.
  - edestruct (for_each_register_dup registerAllItems) as [self' ->];
      [apply NoDup_nil_2 | exact H | done].
Qed.

Lemma Metadata_init_registers_schema_witness :
  NoDup (map key Example.schema)
  /\ exists self,
       Metadata__init__ Example.schema "Metadata" "Metadata" None f1 = Return self
       /\ Metadata.data self = Example.schema.
Proof.
  assert (NoDup (map key Example.schema)) as H
    by (apply (bool_decide_unpack _); vm_compute; exact I).
  split; [exact H|].
  destruct (proj1 (Metadata_init_registers_schema Example.schema "Metadata"
                     "Metadata" None f1) H) as (self & H1 & H2 & _).
  exists self. split; [exact H1 | exact H2].
Defined.

(** X2.  The quality of a new document.  Without a parent, and with an
    empty parent, it is the argument limited to 0.0 .. 1.0: 0.0 for a NaN
    and for anything not above 0.0, 1.0 for anything above 1.0, the
    argument otherwise; a non-empty parent passes its own quality on. *)
Theorem Metadata_init_quality (registerAllItems : list Data)
    (cls hdr : string) (parent : option document) (q : float)
    (self : Metadata.t) :
  Metadata__init__ registerAllItems cls hdr parent q = Return self ->
  let inherits := match parent with Some p => __nonzero__ p | None => false end in
  (inherits = true ->
     forall p, parent = Some p ->
               Metadata.quality self = Metadata.quality (base p))
  /\ (inherits = false ->
      (flt f0 q = false -> Metadata.quality self = f0)
      /\ (flt f1 q = true -> Metadata.quality self = f1)
      /\ (flt f0 q = true -> flt f1 q = false -> Metadata.quality self = q)
      /\ (valid_binary prec emax q = true -> is_quality (Metadata.quality self))).
Proof.
  unfold Metadata__init__.
  destruct (for_each registerAllItems Metadata.register _) as [s [[]|e]] eqn:E;
    [|done].
  intros [= <-]. apply for_each_register_quality in E. rewrite E. simpl.
  clear E. split.
  - intros Hi p ->. by rewrite Hi.
  - intros Hi.
    assert (match parent with
            | Some p => if __nonzero__ p then Metadata.quality (base p)
                        else py_min (py_max f0 q) f1
            | None => py_min (py_max f0 q) f1
            end = py_min (py_max f0 q) f1) as ->.
    { destruct parent as [p|]; [by rewrite Hi | done]. }
    split; [|split; [|split]].
    + intros H. unfold py_max. rewrite H. reflexivity.
    + intros H. unfold py_min, py_max.
      assert (flt f0 q = true) as ->
        by (by destruct q as [[]|[]| |[] m e]).
      by rewrite H.
    + intros H0 H1. unfold py_min, py_max. by rewrite H0, H1.
    + apply clamp_is_quality.
Qed.

Lemma Metadata_init_quality_witness :
  exists self,
    Metadata__init__ Example.schema "Metadata" "Metadata"
      (Some (MultipleMetadata.to_document (Example.zip f0_25))) f10 = Return self
    /\ Metadata.quality self = f1.
Proof.
  eexists. split; [reflexivity|].
  exact (proj1 (proj2 (proj2 (Metadata_init_quality Example.schema "Metadata"
           "Metadata" (Some (MultipleMetadata.to_document (Example.zip f0_25)))
           f10 _ eq_refl) eq_refl)) eq_refl).
Defined.

Lemma map_key_update (self : Metadata.t) (k : string) (d' : Data) :
  key d' = k ->
  map key (Metadata.data (Metadata.data_update self k d'))
  = map key (Metadata.data self).
Proof.
  intros Hk. unfold Metadata.data_update. simpl. rewrite map_map.
  apply map_ext. intros x. destruct (String.eqb (key x) k) eqn:E; [|done].
  apply String.eqb_eq in E. congruence.
Qed.

(** X3.  A write never changes the schema: whether it succeeds or raises,
    the document declares the same keys in the same order afterwards, its
    class, header and quality are the same, and every other key holds the
    same field. *)
Theorem setattr_keeps_schema (self : Metadata.t) (k : string) (v : pyobj) :
  let self' := fst (Metadata.__setattr__ k v self) in
  map key (Metadata.data self') = map key (Metadata.data self)
  /\ Metadata.class_name self' = Metadata.class_name self
  /\ Metadata.header self' = Metadata.header self
  /\ Metadata.quality self' = Metadata.quality self
  /\ (forall k2, k2 <> k ->
        Metadata.data_lookup self' k2 = Metadata.data_lookup self k2).
Proof.
  unfold Metadata.__setattr__.
  destruct (Metadata.data_lookup self k) as [d|] eqn:Hd; simpl; [|done].
  pose proof (data_lookup_key _ _ _ Hd) as Hk.
  assert (key (Data_add d v) = k) as Hk' by (by rewrite key_Data_add).
  split; [by apply map_key_update|]. do 3 (split; [done|]).
  intros k2 Hne. apply data_lookup_update_ne; done.
Qed.

Lemma data_update_commute (self : Metadata.t) (k1 k2 : string) (d1 d2 : Data) :
  k1 <> k2 -> key d1 = k1 -> key d2 = k2 ->
  Metadata.data_update (Metadata.data_update self k1 d1) k2 d2
  = Metadata.data_update (Metadata.data_update self k2 d2) k1 d1.
Proof.
  intros Hne H1 H2. unfold Metadata.data_update, Metadata.set_data. simpl.
  f_equal. rewrite !map_map. apply map_ext. intros x.
  destruct (String.eqb (key x) k1) eqn:E1, (String.eqb (key x) k2) eqn:E2.
  - apply String.eqb_eq in E1, E2. congruence.
  - by rewrite ?E1, ?E2, ?(proj2 (String.eqb_neq (key d1) k2)) by congruence.
  - by rewrite ?E1, ?E2, ?(proj2 (String.eqb_neq (key d2) k1)) by congruence.
  - by rewrite ?E1, ?E2.
Qed.

(** X4.  Writes under two different declared keys commute: both orders
    succeed and leave the same document. *)
Theorem setattr_commute (self : Metadata.t) (k1 k2 : string) (v1 v2 : pyobj) :
  k1 <> k2 ->
  k1 ∈ map key (Metadata.data self) ->
  k2 ∈ map key (Metadata.data self) ->
  (Metadata.__setattr__ k1 v1 >>> Metadata.__setattr__ k2 v2) self
  = (Metadata.__setattr__ k2 v2 >>> Metadata.__setattr__ k1 v1) self
  /\ snd ((Metadata.__setattr__ k1 v1 >>> Metadata.__setattr__ k2 v2) self)
     = Return tt.
Proof.
  intros Hne Hin1 Hin2.
  destruct (Metadata.data_lookup self k1) as [d1|] eqn:E1;
    [|by apply data_lookup_None in E1].
  destruct (Metadata.data_lookup self k2) as [d2|] eqn:E2;
    [|by apply data_lookup_None in E2].
  pose proof (data_lookup_key _ _ _ E1) as K1.
  pose proof (data_lookup_key _ _ _ E2) as K2.
  unfold bind, Metadata.__setattr__. rewrite E1, E2.
  rewrite data_lookup_update_ne, E2 by (done || by rewrite key_Data_add).
  rewrite data_lookup_update_ne, E1 by (done || by rewrite key_Data_add).
  split; [|done]. f_equal.
  apply data_update_commute; [done|by rewrite key_Data_add..].
Qed.

Lemma setattr_commute_witness :
  let self := Example.fresh "Metadata" "Metadata" f1 in
  ("filename" <> "compression"
   /\ "filename" ∈ map key (Metadata.data self)
   /\ "compression" ∈ map key (Metadata.data self))
  /\ (Metadata.__setattr__ "filename" (VStr "a") >>>
      Metadata.__setattr__ "compression" (VStr "b")) self
     = (Metadata.__setattr__ "compression" (VStr "b") >>>
        Metadata.__setattr__ "filename" (VStr "a")) self.
Proof.
  intros self.
  assert ("filename" <> "compression") as H0 by discriminate.
  assert ("filename" ∈ map key (Metadata.data self)) as H1
    by (apply (bool_decide_unpack _); vm_compute; exact I).
  assert ("compression" ∈ map key (Metadata.data self)) as H2
    by (apply (bool_decide_unpack _); vm_compute; exact I).
  split; [done|].
  exact (proj1 (setattr_commute self "filename" "compression" (VStr "a")
                  (VStr "b") H0 H1 H2)).
Defined.

Lemma item_at_lookup {A} (l : list A) (i : nat) :
  item_at l (Z.of_nat i) = l !! i.
Proof.
  unfold item_at. rewrite (proj2 (Z.leb_le _ _)) by lia. by rewrite Nat2Z.id.
Qed.

(** X5.  The readers agree on a declared key whose raw values are [vs]:
    [has] tells whether [vs] is non-empty, [get] at a position inside [vs]
    returns the value at that position (and the last one at index -1),
    and [get] without a default at the first position beyond raises
    ValueError. *)
Theorem readers_agree (self : Metadata.t) (k : string) (vs : list pyobj) :
  Metadata.getValues self k = Return vs ->
  Metadata.has self k = Return (bool_decide (vs <> []))
  /\ (forall (i : nat) v, vs !! i = Some v ->
        Metadata.get self k VNone (Z.of_nat i) = Return v)
  /\ (forall v, last vs = Some v -> Metadata.get self k VNone (-1) = Return v)
  /\ (exists e, Metadata.get self k VNone (Z.of_nat (length vs)) = Raise e
                /\ exn_cls e = ValueError).
Proof.
  intros (d & Hd & ->)%getValues_lookup.
  split; [|split; [|split]].
  - unfold Metadata.has, Metadata.getItems, Data_len. rewrite Hd. simpl.
    by destruct (values d).
  - intros i v Hi. unfold Metadata.get. rewrite getItem_stored_item. simpl.
    unfold stored_item. rewrite Hd, item_at_lookup.
    rewrite list_lookup_fmap in Hi. by destruct (values d !! i); simplify_eq/=.
  - intros v Hv. unfold Metadata.get. rewrite getItem_stored_item. simpl.
    unfold stored_item, item_at. rewrite Hd. simpl.
    rewrite last_lookup, length_map, list_lookup_fmap in Hv.
    destruct (values d) as [|it l] eqn:El; [done|].
    rewrite (proj2 (Z.leb_le _ _)) by (simpl; lia).
    replace (Z.to_nat (Z.of_nat (length (it :: l)) + -1))
      with (Nat.pred (length (it :: l))) by (simpl; lia).
    by destruct ((it :: l) !! Nat.pred (length (it :: l))); simplify_eq/=.
  - unfold Metadata.get. rewrite getItem_stored_item. simpl.
    unfold stored_item. rewrite Hd, item_at_lookup, length_map.
    rewrite (proj2 (lookup_ge_None _ _)) by lia. simpl. eauto.
Qed.

Lemma readers_agree_witness :
  let self := Example.named "a.txt" in
  Metadata.getValues self "filename" = Return [VStr "a.txt"]
  /\ Metadata.has self "filename" = Return true
  /\ Metadata.get self "filename" VNone 0 = Return (VStr "a.txt").
Proof.
  intros self.
  assert (Metadata.getValues self "filename" = Return [VStr "a.txt"]) as H
    by reflexivity.
  split; [exact H|].
  destruct (readers_agree self "filename" [VStr "a.txt"] H) as (H1 & H2 & _).
  split; [exact H1|]. exact (H2 0%nat (VStr "a.txt") eq_refl).
Defined.

(* ===================================================================== *)
(** * Further properties of the export                                   *)
(* ===================================================================== *)

Section ExportMore.
Variables MIN_PRIORITY MAX_PRIORITY : Z.
Variable makeUnicode : pyobj -> string.

Lemma export_fields_prefix (p1 p2 : Z) (human : bool) (line_prefix : string)
    (l : list Data) :
  p1 <= p2 ->
  Metadata.export_fields makeUnicode p1 human line_prefix l
  `prefix_of` Metadata.export_fields makeUnicode p2 human line_prefix l.
Proof.
  intros Hle. induction l as [|d l IH]; simpl; [done|].
  destruct (Z.ltb_spec p2 (priority d)).
  - by rewrite (proj2 (Z.ltb_lt p1 (priority d))) by lia.
  - destruct (Z.ltb_spec p1 (priority d)); [apply prefix_nil|].
    destruct (values d) as [|it its]; [done|].
    destruct IH as [k ->]. exists k. simpl. by rewrite app_assoc.
Qed.

(** X6.  Raising the priority cut-off only adds lines at the end: the
    export at a lower priority is a prefix of the export at a higher one
    (and is [None] when the higher one is), and a priority of
    MAX_PRIORITY or more gives the default export. *)
Theorem exportPlaintext_cutoff_monotone (self : Metadata.t) (p1 p2 : Z)
    (human : bool) (line_prefix : string) (title : option string) :
  p1 <= p2 ->
  let export p := Metadata.exportPlaintext MIN_PRIORITY MAX_PRIORITY makeUnicode
                    self p human line_prefix title in
  match export (Some p1), export (Some p2) with
  | Some l1, Some l2 => l1 `prefix_of` l2
  | None, _ => True
  | Some _, None => False
  end
  /\ (MAX_PRIORITY <= p2 -> export (Some p2) = export None).
Proof.
  intros Hle export. subst export. unfold Metadata.exportPlaintext.
  split.
  - pose proof (export_fields_prefix
                  (Z.min (Z.max p1 MIN_PRIORITY) MAX_PRIORITY)
                  (Z.min (Z.max p2 MIN_PRIORITY) MAX_PRIORITY)
                  human line_prefix (sorted (Metadata.data self))
                  ltac:(lia)) as [k Hk].
    rewrite Hk. clear Hk. cbn [length].
    assert (forall l : list string,
              (1 <? S (length l))%nat = match l with [] => false | _ => true end)
      as Hltb by (by intros []).
    rewrite !Hltb.
    destruct (Metadata.export_fields _ _ _ _ _) as [|x l]; [done|].
    cbn [app]. apply prefix_cons. by exists k.
  - intros H. by replace (Z.min (Z.max p2 MIN_PRIORITY) MAX_PRIORITY)
      with MAX_PRIORITY by lia.
Qed.

Lemma items_within_insert (c : Z) (d : Data) (l : list Data) :
  items_within c (insert_by_priority d l) = items_within c (d :: l).
Proof.
  unfold items_within. induction l as [|x l IH]; simpl; [done|].
  destruct (priority d <=? priority x); simpl; [done|].
  simpl in IH. rewrite IH. lia.
Qed.

Lemma items_within_sorted (c : Z) (l : list Data) :
  items_within c (sorted l) = items_within c l.
Proof.
  induction l as [|d l IH]; simpl; [done|].
  rewrite items_within_insert. unfold items_within in *. simpl. by rewrite IH.
Qed.

Lemma insert_by_priority_sorted (d : Data) (l : list Data) :
  StronglySorted (fun a b => priority a <= priority b) l ->
  StronglySorted (fun a b => priority a <= priority b) (insert_by_priority d l).
Proof.
  induction 1 as [|x l Hl IH Hx]; simpl; [by repeat constructor|].
  destruct (Z.leb_spec (priority d) (priority x)).
  - constructor; [by constructor|]. constructor; [done|].
    eapply Forall_impl; [exact Hx|]. simpl. lia.
  - constructor; [done|].
    clear IH Hl. induction l as [|y l IHl]; simpl.
    + constructor; [lia|constructor].
    + apply Forall_cons in Hx as [Hy Hx].
      destruct (priority d <=? priority y); repeat constructor; try lia; auto.
Qed.

Lemma sorted_sorted (l : list Data) :
  StronglySorted (fun a b => priority a <= priority b) (sorted l).
Proof.
  induction l as [|d l IH]; simpl; [constructor|].
  by apply insert_by_priority_sorted.
Qed.

Lemma export_fields_length (c : Z) (human : bool) (line_prefix : string)
    (l : list Data) :
  StronglySorted (fun a b => priority a <= priority b) l ->
  length (Metadata.export_fields makeUnicode c human line_prefix l)
  = items_within c l.
Proof.
  unfold items_within. induction 1 as [|d l Hl IH Hd]; simpl; [done|].
  destruct (Z.ltb_spec c (priority d)).
  - rewrite (proj2 (Z.leb_gt _ _)) by lia. simpl.
    clear IH Hl. induction Hd as [|x l Hx _ IH]; simpl; [done|].
    by rewrite (proj2 (Z.leb_gt _ _)) by lia.
  - rewrite (proj2 (Z.leb_le _ _)) by lia.
    destruct (values d) as [|it its]; simpl; [done|].
    by rewrite length_app, length_map, IH.
Qed.

(** X7.  The export loses nothing to its [break]: it returns [None] when
    no field within the cut-off has a value, and otherwise the header line
    and exactly one line for each value item of the fields within the
    cut-off, whether [human] is set or not. *)
Theorem exportPlaintext_line_count (self : Metadata.t) (prio : option Z)
    (human : bool) (line_prefix : string) (title : option string) :
  let n := items_within (cutoff MIN_PRIORITY MAX_PRIORITY prio)
             (Metadata.data self) in
  match Metadata.exportPlaintext MIN_PRIORITY MAX_PRIORITY makeUnicode self
          prio human line_prefix title with
  | None => n = 0%nat
  | Some lines => n <> 0%nat /\ length lines = S n
  end.
Proof.
  intros n. unfold Metadata.exportPlaintext.
  pose proof (export_fields_length (cutoff MIN_PRIORITY MAX_PRIORITY prio)
                human line_prefix _ (sorted_sorted (Metadata.data self))) as Hlen.
  rewrite items_within_sorted in Hlen. fold n in Hlen.
  unfold cutoff in Hlen. simpl length.
  destruct (Metadata.export_fields _ _ _ _ _) as [|x l]; simpl in *.
  - done.
  - split; [lia|]. by rewrite Hlen.
Qed.

End ExportMore.

Lemma exportPlaintext_cutoff_witness :
  let self := fst (Metadata.__setattr__ "mime_type" (VStr "text/plain")
                     (Example.named "a.txt")) in
  let export p := Metadata.exportPlaintext 100 999 (py_str Example.float_repr)
                    self p true "- " None in
  102 <= 950
  /\ export (Some 102) = Some ["Metadata:"; "- File name: a.txt"]
  /\ export (Some 950)
     = Some ["Metadata:"; "- File name: a.txt"; "- MIME type: text/plain"]
  /\ match export (Some 102), export (Some 950) with
     | Some l1, Some l2 => l1 `prefix_of` l2
     | None, _ => True
     | Some _, None => False
     end.
Proof.
  intros self export. split; [lia|]. split; [reflexivity|].
  split; [reflexivity|].
  exact (proj1 (exportPlaintext_cutoff_monotone 100 999
                  (py_str Example.float_repr) self 102 950 true "- " None
                  ltac:(lia))).
Defined.


Section PrintingFacts.
Variables MIN_PRIORITY MAX_PRIORITY : Z.
Variable makeUnicode : pyobj -> string.
Variable makePrintable : string -> string.

Lemma export_fields_no_values (c : Z) (human : bool) (line_prefix : string)
    (l : list Data) :
  Forall (fun d => values d = []) l ->
  Metadata.export_fields makeUnicode c human line_prefix l = [].
Proof.
  induction 1 as [|d l Hd _ IH]; simpl; [done|].
  destruct (c <? priority d); [done|]. by rewrite Hd.
Qed.

Lemma Metadata_exportPlaintext_empty (m : Metadata.t) (prio : option Z)
    (human : bool) (line_prefix : string) (title : option string) :
  fields_empty m ->
  Metadata.exportPlaintext MIN_PRIORITY MAX_PRIORITY makeUnicode m prio human
    line_prefix title = None.
Proof.
  intros He. unfold Metadata.exportPlaintext.
  by rewrite export_fields_no_values by (by apply Forall_sorted).
Qed.

(** The export of an empty document gives no line: it returns [None], or
    raises TypeError at a group that is itself a container. *)
Lemma exportPlaintext_empty (doc : document) (prio : option Z) (human : bool)
    (line_prefix : string) :
  empty doc ->
  exportPlaintext MIN_PRIORITY MAX_PRIORITY makeUnicode doc prio human
    line_prefix None = Return None
  \/ exists e,
       exportPlaintext MIN_PRIORITY MAX_PRIORITY makeUnicode doc prio human
         line_prefix None = Raise e
       /\ exn_cls e = TypeError.
Proof.
  intros He. inversion He as [m Hm|m groups counter Hm Hgroups]; subst.
  - left. cbn [exportPlaintext]. by rewrite Metadata_exportPlaintext_empty.
  - cbn [exportPlaintext]. rewrite Metadata_exportPlaintext_empty by done.
    assert (forall text,
              extend_with_groups
                (fun metadata title =>
                   exportPlaintext MIN_PRIORITY MAX_PRIORITY makeUnicode
                     metadata prio human line_prefix (Some title))
                human groups text = Return text
              \/ exists e,
                   extend_with_groups
                     (fun metadata title =>
                        exportPlaintext MIN_PRIORITY MAX_PRIORITY makeUnicode
                          metadata prio human line_prefix (Some title))
                     human groups text = Raise e
                   /\ exn_cls e = TypeError) as Hrun.
    { clear He. induction Hgroups as [|[k d] rest Hd _ IH]; intros text.
      - by left.
      - cbn [extend_with_groups]. simpl in Hd.
        inversion Hd as [m' Hm'|m' groups' counter' Hm' Hg']; subst.
        + cbn [exportPlaintext rbind].
          rewrite Metadata_exportPlaintext_empty by done. apply IH.
        + right. cbn [exportPlaintext rbind]. by eexists. }
    destruct (Hrun []) as [->|(e & -> & Hcls)]; [by left|].
    right. by exists e.
Qed.

(** X8.  Printing: [unicode(doc)] and [str(doc)] raise TypeError on every
    empty document, because the export gives no line to join.  On a
    non-empty document whose groups are plain and whose fields have
    priorities within MAX_PRIORITY, [unicode(doc)] is the lines of the
    export joined by newlines, a header first, and [str(doc)] the same
    with every line made printable. *)
Theorem printing_empty_raises (doc : document) :
  (empty doc ->
     (exists e, __unicode__ MIN_PRIORITY MAX_PRIORITY makeUnicode doc = Raise e
                /\ exn_cls e = TypeError)
     /\ (exists e, __str__ MIN_PRIORITY MAX_PRIORITY makeUnicode makePrintable doc
                   = Raise e /\ exn_cls e = TypeError))
  /\ (flat doc -> priorities_bounded MAX_PRIORITY doc -> ~ empty doc ->
      exists header line rest,
        __unicode__ MIN_PRIORITY MAX_PRIORITY makeUnicode doc
        = Return (String.concat newline (header :: line :: rest))
        /\ __str__ MIN_PRIORITY MAX_PRIORITY makeUnicode makePrintable doc
           = Return (String.concat newline
                       (map makePrintable (header :: line :: rest)))
        /\ is_header header).
Proof.
  unfold __unicode__, __str__. split.
  - intros H.
    destruct (exportPlaintext_empty doc None true "- " H)
      as [->|(e & -> & Hcls)]; simpl.
    + split; eexists; (split; [done|done]).
    + split; exists e; (split; [done|done]).
  - intros Hflat Hb H.
    destruct (exportPlaintext_flat MIN_PRIORITY MAX_PRIORITY makeUnicode "- "
                doc Hflat Hb) as [_ Hne].
    destruct (Hne H) as (header & line & rest & -> & Hh & _).
    simpl. exists header, line, rest. by repeat split.
Qed.

End PrintingFacts.

Lemma printing_empty_raises_witness :
  let doc := Multiple (Example.fresh "ZipMetadata" "Common" f1)
               [("stream", Multiple (Example.fresh "Metadata" "Metadata" f1)
                             [] ∅)] ∅ in
  empty doc
  /\ exists e, __unicode__ Example.MIN_PRIORITY Example.MAX_PRIORITY
                 (py_str Example.float_repr) doc = Raise e
               /\ exn_cls e = TypeError.
Proof.
  intros doc.
  assert (empty doc) as H by (apply nonzero_false_iff_empty; reflexivity).
  split; [exact H|].
  exact (proj1 (proj1 (printing_empty_raises Example.MIN_PRIORITY
                         Example.MAX_PRIORITY (py_str Example.float_repr)
                         id doc) H)).
Defined.

(* ===================================================================== *)
(** * Further properties of the groups                                   *)
(* ===================================================================== *)

Lemma nonzero_with_header (header : option string) (doc : document) :
  __nonzero__ (with_header header doc) = __nonzero__ doc.
Proof.
  destruct header as [h|]; [|done]. simpl.
  destruct (String.eqb h ""); [done|]. by destruct doc.
Qed.


Lemma indexed_key_inj (b : string) (i j : Z) :
  indexed_key b i = indexed_key b j -> i = j.
Proof.
  unfold indexed_key. intros H%(inj _). simpl in H.
  assert (forall s t, s +:+ "]" = t +:+ "]" -> s = t) as Hsfx.
  { induction s as [|a s IH]; intros [|c t] Heq; simpl in Heq.
    - done.
    - injection Heq as _ Heq. by destruct t.
    - injection Heq as _ Heq. by destruct s.
    - injection Heq as -> Heq. f_equal. auto. }
  injection H as H. apply Hsfx in H. by apply (inj pretty).
Qed.

(** X10.  Any number of successive [addGroup] calls with the same key
    ending in the array marker and non-empty documents: when the receiver
    holds no group under a later index of the base key, every document is
    stored, in call order, under the base key followed by the next
    occurrence indexes, which continue the counter of the base key. *)
Theorem addGroups_indexed (docs : list document) :
  forall (me : MultipleMetadata.t) (lg : Log) (b : string),
    Forall (fun d => __nonzero__ d = true) docs ->
    let c := default 0 (MultipleMetadata.key_counter me !! b) in
    (forall i, c < i -> MultipleMetadata.__contains__ me (indexed_key b i) = false) ->
    exists counter,
      addGroups (b +:+ "[]") docs (me, lg)
      = ((MultipleMetadata.mk (MultipleMetadata.root me)
            (MultipleMetadata.groups me
               ++ zip (map (indexed_key b) (seqZ (c + 1) (Z.of_nat (length docs))))
                      docs)
            counter, lg), Return tt)
      /\ default 0 (counter !! b) = c + Z.of_nat (length docs)
      /\ (forall b', b' <> b ->
            counter !! b' = MultipleMetadata.key_counter me !! b').
Proof.
  induction docs as [|d docs IH]; intros me lg b Hnz c Hfresh.
  - exists (MultipleMetadata.key_counter me). simpl. unfold ret.
    rewrite app_nil_r. split; [by destruct me|]. split; [lia|done].
  - apply Forall_cons in Hnz as [Hd Hnz].
    unfold addGroups. cbn [for_each]. unfold bind at 1 2.
    rewrite (call_addGroup_marker me lg b d None (c + 1)
               ("[" +:+ pretty (c + 1) +:+ "]")); try done.
    2:{ subst c. by destruct (MultipleMetadata.key_counter me !! b). }
    2:{ apply Hfresh. lia. }
    unfold ret at 1. cbn [with_header].
    set (me1 := MultipleMetadata.mk _ _ _).
    assert (default 0 (MultipleMetadata.key_counter me1 !! b) = c + 1) as Hc1
      by (subst me1; simpl; by rewrite lookup_insert_eq).
    destruct (IH me1 lg b Hnz) as (counter & Hrun & Hcount & Hother).
    { rewrite Hc1. intros i Hi. subst me1.
      rewrite contains_snoc, contains_mk, Hfresh by lia. simpl.
      apply String.eqb_neq. intros Heq.
      apply (indexed_key_inj b (c + 1) i) in Heq. lia. }
    fold (addGroups (b +:+ "[]") docs). rewrite Hrun, Hc1.
    exists counter. split; [|split].
    + subst me1. simpl MultipleMetadata.root. simpl MultipleMetadata.groups.
      rewrite <- List.app_assoc. do 3 f_equal.
      rewrite (seqZ_cons (c + 1)) by (simpl; lia). simpl.
      replace (Z.succ (c + 1)) with (c + 1 + 1) by lia.
      replace (Z.pred (Z.of_nat (S (length docs))))
        with (Z.of_nat (length docs)) by lia.
      done.
    + rewrite Hcount. simpl length. lia.
    + intros b' Hb'. rewrite Hother by done. subst me1. simpl.
      by rewrite lookup_insert_ne.
Qed.

Lemma addGroups_indexed_witness :
  let docs := [Plain (Example.named "a"); Plain (Example.named "b");
               Plain (Example.named "c"); Plain (Example.named "d")] in
  Forall (fun d => __nonzero__ d = true) docs
  /\ exists counter,
       addGroups "file[]" docs (Example.zip f1, [])
       = ((MultipleMetadata.mk (MultipleMetadata.root (Example.zip f1))
             (zip ["file[1]"; "file[2]"; "file[3]"; "file[4]"] docs)
             counter, []), Return tt).
Proof.
  intros docs.
  assert (Forall (fun d => __nonzero__ d = true) docs) as H
    by (repeat constructor).
  split; [exact H|].
  destruct (addGroups_indexed docs (Example.zip f1) [] "file" H
              ltac:(intros i _; reflexivity)) as (counter & Hrun & _).
  exists counter. exact Hrun.
Defined.

(* ===================================================================== *)
(** * The registry of extractors                                         *)
(* ===================================================================== *)

Lemma register_all_ok {T : Type} (entries : list (string * Extractor T)) :
  forall reg : gmap string (Extractor T),
    NoDup (map fst entries) ->
    Forall (fun p => reg !! p = None) (map fst entries) ->
    register_all (map registration entries) reg
    = (list_to_map entries ∪ reg, Return tt).
Proof.
  unfold register_all.
  induction entries as [|[p e] rest IH]; intros reg Hnd Hfresh.
  - simpl. unfold ret. by rewrite (left_id_L ∅ (∪)).
  - simpl in Hnd, Hfresh. apply NoDup_cons in Hnd as [Hp Hnd].
    apply Forall_cons in Hfresh as [Hfp Hfresh].
    cbn [map for_each]. unfold bind, registerExtractor at 1. simpl.
    rewrite Hfp.
    rewrite IH; [|done|].
    + f_equal. rewrite <- insert_union_l. symmetry. apply insert_union_r.
      by apply not_elem_of_list_to_map.
    + apply Forall_forall. intros q Hq.
      rewrite lookup_insert_ne by (intros ->; done).
      by apply (proj1 (Forall_forall _ _) Hfresh).
Qed.

Lemma all_registrations {T : Type} (entries : list (string * ExtractorArg T)) :
  Forall (fun pe => exists e, snd pe = SubclassOfRootMetadata e) entries ->
  exists es : list (string * Extractor T),
    entries = map registration es /\ map fst es = map fst entries.
Proof.
  induction 1 as [|[p a] rest [e He] _ (es & -> & Hfst)].
  - by exists [].
  - simpl in He. subst a. exists ((p, e) :: es).
    split; [done|]. cbn [map fst]. f_equal. exact Hfst.
Qed.

Lemma register_all_fail {T : Type} (entries : list (string * ExtractorArg T)) :
  forall reg : gmap string (Extractor T),
    ~ (NoDup (map fst entries)
       /\ Forall (fun p => reg !! p = None) (map fst entries)
       /\ Forall (fun pe => exists e, snd pe = SubclassOfRootMetadata e)
                 entries) ->
    (exists err,
       snd (register_all entries reg) = Raise err
       /\ (exn_cls err = AssertionError
           \/ (exn_cls err = TypeError
               /\ exists p, (p, NotAClass) ∈ entries)))
    /\ reg ⊆ fst (register_all entries reg).
Proof.
  unfold register_all.
  induction entries as [|[p a] rest IH]; intros reg Hbad.
  - destruct Hbad. split; [constructor|]. split; constructor.
  - cbn [for_each]. unfold bind, registerExtractor at 1 3. simpl.
    destruct (reg !! p) as [e'|] eqn:Hp; [split; [eauto|done]|].
    destruct a as [e| |]; simpl.
    2:{ split; [eauto|done]. }
    2:{ split; [|done]. eexists. split; [done|]. right. split; [done|].
        exists p. apply list_elem_of_here. }
    destruct (IH (<[p := e]> reg)) as [(err & Hr & Hcls) Hsub].
    + intros (Hnd & Hfresh & Hall). apply Hbad. simpl. split; [|split].
      * apply NoDup_cons. split; [|done]. intros Hin.
        pose proof (proj1 (Forall_forall _ _) Hfresh p Hin) as Hnone.
        cbv beta in Hnone. by rewrite lookup_insert_eq in Hnone.
      * apply Forall_cons. split; [done|].
        apply Forall_forall. intros q Hq.
        pose proof (proj1 (Forall_forall _ _) Hfresh q Hq) as Hnone.
        cbv beta in Hnone. destruct (decide (q = p)) as [->|Hne].
        { by rewrite lookup_insert_eq in Hnone. }
        by rewrite lookup_insert_ne in Hnone.
      * apply Forall_cons. split; [by exists e | done].
    + split.
      * exists err. split; [done|].
        destruct Hcls as [?|[? [q Hq]]]; [by left|].
        right. split; [done|]. exists q. by apply list_elem_of_further.
      * etrans; [|exact Hsub]. by apply insert_subseteq.
Qed.

(** X11.  A run of [registerExtractor] calls succeeds exactly when the
    parser classes are pairwise distinct, none is registered yet and
    every extractor is a class derived from [RootMetadata]; the registry
    then maps each class to its extractor and keeps what it held.
    Otherwise the run stops with AssertionError, or with the TypeError of
    [issubclass] at an extractor that is no class, and the registry keeps
    at least what it held before. *)
Theorem register_all_spec {T : Type}
    (entries : list (string * ExtractorArg T))
    (reg : gmap string (Extractor T)) :
  let fresh := NoDup (map fst entries)
               /\ Forall (fun p => reg !! p = None) (map fst entries)
               /\ Forall (fun pe => exists e,
                            snd pe = SubclassOfRootMetadata e) entries in
  (fresh ->
     snd (register_all entries reg) = Return tt
     /\ (forall p e, (p, SubclassOfRootMetadata e) ∈ entries ->
           fst (register_all entries reg) !! p = Some e)
     /\ (forall p, p ∉ map fst entries ->
           fst (register_all entries reg) !! p = reg !! p))
  /\ (~ fresh ->
       (exists err,
          snd (register_all entries reg) = Raise err
          /\ (exn_cls err = AssertionError
              \/ (exn_cls err = TypeError
                  /\ exists p, (p, NotAClass) ∈ entries)))
       /\ reg ⊆ fst (register_all entries reg))
  /\ (snd (register_all entries reg) = Return tt -> fresh).
Proof.
  intros fresh.
  assert (fresh ->
          snd (register_all entries reg) = Return tt
          /\ (forall p e, (p, SubclassOfRootMetadata e) ∈ entries ->
                fst (register_all entries reg) !! p = Some e)
          /\ (forall p, p ∉ map fst entries ->
                fst (register_all entries reg) !! p = reg !! p)) as Hok.
  { intros (Hnd & Hfresh & Hall).
    destruct (all_registrations entries Hall) as (es & -> & Hfst).
    rewrite <- Hfst in Hnd, Hfresh.
    rewrite register_all_ok by done. simpl.
    split; [done|]. split.
    - intros p e Hin. apply lookup_union_Some_l.
      apply elem_of_list_to_map; [done|].
      apply list_elem_of_fmap in Hin as ([p' e'] & [= -> ->] & Hin). done.
    - intros p Hp. rewrite lookup_union_r; [done|].
      apply not_elem_of_list_to_map. intros Hin. apply Hp.
      rewrite <- Hfst. exact Hin. }
  split; [exact Hok|]. split; [apply register_all_fail|].
  intros Hret.
  assert (Decision (NoDup (map fst entries)
                    /\ Forall (fun p => reg !! p = None) (map fst entries)))
    as [Hd|Hd] by apply _.
  - destruct (decide (Forall (fun pe => is_Some
                         (match snd pe with
                          | SubclassOfRootMetadata e => Some e
                          | _ => None
                          end)) entries)) as [Hall|Hall].
    + destruct Hd as [Hnd Hfresh]. split; [done|]. split; [done|].
      eapply Forall_impl; [exact Hall|]. intros [p [e| |]] [x Hx]; simpl in *;
        [by exists e | done | done].
    + destruct (register_all_fail entries reg) as [(err & Herr & _) _].
      * intros (_ & _ & Hall'). apply Hall.
        eapply Forall_impl; [exact Hall'|]. intros [p a] [e He]. simpl in *.
        subst a. by exists e.
      * by rewrite Hret in Herr.
  - destruct (register_all_fail entries reg) as [(err & Herr & _) _].
    + intros (Hnd & Hfresh & _). by apply Hd.
    + by rewrite Hret in Herr.
Qed.

Lemma extractMetadata_None {T : Type} (HACHOIR_ERRORS : exn_class -> bool)
    (endian_name : gmap string string) (reg : gmap string (Extractor T))
    (parser : Parser T) (quality : float) (lg : Log) :
  snd (extractMetadata HACHOIR_ERRORS endian_name reg parser quality lg)
  = Return None
  <-> reg !! parser_class parser = None.
Proof.
  unfold extractMetadata.
  destruct (reg !! parser_class parser) as [extractor|]; [|done].
  split; [|done]. intros H. exfalso. revert H.
  destruct (construct extractor quality) as [metadata|e]; [|done].
  destruct (try_except _ _ _ _) as [[metadata' lg'] [u|e]]; [|done].
  destruct (__nonzero__ metadata'); [|done].
  by destruct (attach endian_name parser metadata') as [m' [u'|e]].
Qed.

(** X12.  The six registrations at the end of archive.py succeed on the
    empty registry; afterwards [extractMetadata] returns [None] exactly
    for a parser whose class is none of the six archive parsers, and
    running the registrations a second time raises AssertionError at the
    first of them, leaving the registry as it was. *)
Theorem archive_registry_dispatch {T : Type}
    (HACHOIR_ERRORS : exn_class -> bool) (endian_name : gmap string string)
    (cab gzip bzip2 tar zip mar : Extractor T) :
  let entries := [("CabFile", cab); ("GzipParser", gzip);
                  ("Bzip2Parser", bzip2); ("TarFile", tar);
                  ("ZipFile", zip); ("MarFile", mar)] in
  let reg := fst (archive_registrations cab gzip bzip2 tar zip mar) in
  snd (archive_registrations cab gzip bzip2 tar zip mar) = Return tt
  /\ (forall (parser : Parser T) (quality : float) (lg : Log),
        snd (extractMetadata HACHOIR_ERRORS endian_name reg parser quality lg)
        = Return None
        <-> parser_class parser ∉ map fst entries)
  /\ register_all (map registration entries) reg
     = (reg, Raise (mk_exn AssertionError "")).
Proof.
  intros entries reg. subst reg. unfold archive_registrations.
  change (register_all _ ∅) with (register_all (map registration entries) ∅).
  assert (NoDup (map fst entries)) as Hnd.
  { apply (bool_decide_unpack _). by vm_compute. }
  rewrite (register_all_ok entries ∅ Hnd)
    by (apply Forall_forall; intros; apply lookup_empty).
  set (reg := (list_to_map entries ∪ ∅ : gmap string (Extractor T))).
  assert (forall p, reg !! p = None <-> p ∉ map fst entries) as Hlk.
  { intros p. subst reg. rewrite lookup_union_None, lookup_empty.
    rewrite not_elem_of_list_to_map. tauto. }
  assert (reg !! "CabFile" = Some cab) as Hcab.
  { subst reg. apply lookup_union_Some_l. apply elem_of_list_to_map; [done|].
    subst entries. apply list_elem_of_here. }
  clearbody reg. cbn [fst snd]. split; [done|]. split.
  - intros parser quality lg. by rewrite extractMetadata_None.
  - unfold register_all. subst entries. cbn [map for_each].
    unfold bind, registerExtractor at 1. cbn [fst snd registration].
    by rewrite Hcab.
Qed.

(* ===================================================================== *)
(** * Time zones                                                         *)
(* ===================================================================== *)

(** X13.  [createTimezone] returns the shared UTC object for a zero
    offset.  For a non-zero offset in hours it builds a zone whose UTC
    offset is sixty times as many minutes, whose daylight saving offset
    is zero and whose name is never that of UTC, as long as the duration
    fits a [timedelta]; beyond that range the call raises
    OverflowError. *)
Theorem createTimezone_spec (offset : Z) :
  let made := Timezone.createTimezone offset in
  (offset = 0 -> made = Return Timezone.UTC)
  /\ (offset <> 0 -> -23999999976 <= offset <= 23999999999 ->
      exists tz, made = Return tz
        /\ Timezone.utcoffset tz = 60 * offset
        /\ Timezone.dst tz = Timezone.utcoffset Timezone.UTC
        /\ Timezone.tzname tz = Timezone.format_plus03 offset +:+ "00"
        /\ Timezone.tzname tz <> Timezone.tzname Timezone.UTC)
  /\ (offset < -23999999976 \/ 23999999999 < offset ->
      exists msg, made = Raise (mk_exn OverflowError msg)).
Proof.
  intros made. subst made. unfold Timezone.createTimezone.
  split; [by intros ->|].
  unfold Timezone.Timezone__init__, Timezone.timedelta_minutes.
  split.
  - intros Hnz Hrange.
    destruct (Z.eqb_spec offset 0) as [|_]; [done|].
    assert (-999999999 <= offset * 60 / 1440 <= 999999999) as [H1 H2].
    { split; [apply Z.div_le_lower_bound; lia|].
      apply Z.lt_succ_r, Z.div_lt_upper_bound; lia. }
    apply Z.leb_le in H1, H2. rewrite H1, H2. simpl.
    eexists. split; [done|]. simpl. split; [lia|]. split; [done|].
    split; [done|]. unfold Timezone.format_plus03.
    destruct (offset <? 0); by destruct (_ <? _)%nat.
  - intros Hout.
    destruct (Z.eqb_spec offset 0) as [|_]; [lia|].
    assert (offset * 60 / 1440 < -999999999 \/ 999999999 < offset * 60 / 1440)
      as Hdays.
    { destruct Hout as [Hlo|Hhi]; [left | right].
      - apply Z.div_lt_upper_bound; lia.
      - enough (1000000000 <= offset * 60 / 1440) by lia.
        apply Z.div_le_lower_bound; lia. }
    destruct ((-999999999 <=? offset * 60 / 1440)
              && (offset * 60 / 1440 <=? 999999999)) eqn:E.
    + apply andb_true_iff in E as [E1%Z.leb_le E2%Z.leb_le]. lia.
    + simpl. eauto.
Qed.

Lemma createTimezone_spec_witness :
  exists tz, Timezone.createTimezone (-5) = Return tz
    /\ Timezone.utcoffset tz = -300
    /\ Timezone.tzname tz = "-0500".
Proof.
  destruct (createTimezone_spec (-5)) as (_ & H & _).
  destruct H as (tz & Hmade & Hoff & _ & Hname & _); [lia | lia |].
  exists tz. split; [exact Hmade|]. split; [exact Hoff | exact Hname].
Defined.

(** X14.  For offsets of at most two digits, the zone name determines
    the offset: two offsets with the same name are equal.  The name of a
    non-zero offset has five characters, a sign, two digits and two
    zeros. *)
Theorem tzname_determines_offset (a b : Z) (ta tb : Timezone.tzinfo) :
  -100 < a < 100 -> -100 < b < 100 ->
  Timezone.createTimezone a = Return ta ->
  Timezone.createTimezone b = Return tb ->
  (Timezone.tzname ta = Timezone.tzname tb -> a = b)
  /\ String.length (Timezone.tzname ta) = if a =? 0 then 3%nat else 5%nat.
Proof.
  intros Ha Hb Hta Htb.
  set (name := fun x => match Timezone.createTimezone x with
                        | Return t => Timezone.tzname t
                        | Raise _ => ""
                        end).
  assert (forallb (fun x =>
            Nat.eqb (String.length (name x)) (if x =? 0 then 3%nat else 5%nat)
            && forallb (fun y => implb (String.eqb (name x) (name y)) (x =? y))
                 (seqZ (-99) 199)) (seqZ (-99) 199) = true) as Hall
    by (vm_compute; reflexivity).
  rewrite forallb_forall in Hall.
  assert (In a (seqZ (-99) 199)) as Hina
    by (apply list_elem_of_In, elem_of_seqZ; lia).
  assert (In b (seqZ (-99) 199)) as Hinb
    by (apply list_elem_of_In, elem_of_seqZ; lia).
  apply Hall in Hina. apply andb_true_iff in Hina as [Hlen Hinj].
  rewrite forallb_forall in Hinj. apply Hinj in Hinb.
  subst name. simpl in Hlen, Hinb. rewrite Hta in Hlen, Hinb.
  rewrite Htb in Hinb. split.
  - intros Heq. rewrite Heq, String.eqb_refl in Hinb. simpl in Hinb.
    by apply Z.eqb_eq.
  - by apply Nat.eqb_eq.
Qed.

Lemma tzname_determines_offset_witness :
  exists ta tb,
    Timezone.createTimezone 2 = Return ta
    /\ Timezone.createTimezone (-11) = Return tb
    /\ Timezone.tzname ta <> Timezone.tzname tb
    /\ String.length (Timezone.tzname ta) = 5%nat.
Proof.
  exists (Timezone.Timezone 120 "+0200"), (Timezone.Timezone (-660) "-1100").
  split; [reflexivity|]. split; [reflexivity|].
  destruct (tzname_determines_offset 2 (-11) _ _ ltac:(lia) ltac:(lia)
              eq_refl eq_refl) as [Hinj Hlen].
  split; [|exact Hlen]. intros Heq. apply Hinj in Heq. lia.
Defined.

(* ===================================================================== *)
(** * Vectors: every way the constructor can end                         *)
(* ===================================================================== *)

(** X15.  A vector class that sets no item class cannot be instantiated
    (TypeError); an item class that is not a field class or has no
    integer static size fails the assertions whatever the item count.
    Whenever the constructor succeeds, the count is positive and the size
    of the vector is the count times the static size of the item class;
    when the count fits an index of the interpreter its sub-fields are as
    many as the count, all of the item class, with pairwise distinct
    names, and for a larger count reading the sub-fields raises
    OverflowError. *)
Theorem vector_init_outcomes (maxsize : Z)
    (item_class : option Vector.ItemClass)
    (item_name parent_path name : string) (nb_items : Z)
    (description : option string) :
  let made := UserVector__init__ item_class item_name parent_path name
                nb_items description in
  (item_class = None -> exists msg, made = Raise (mk_exn TypeError msg))
  /\ (forall cls, item_class = Some cls ->
        Vector.is_field cls = false \/ Vector.static_size cls = None ->
        made = Raise (mk_exn AssertionError ""))
  /\ (forall v, made = Return v ->
        exists cls static,
          item_class = Some cls
          /\ Vector.is_field cls = true
          /\ Vector.static_size cls = Some static
          /\ 0 < nb_items
          /\ Vector.size v = Vector.__len__ v * static
          /\ (nb_items <= maxsize ->
               exists labelled,
                 Vector.fields maxsize v = Return labelled
                 /\ length labelled = Z.to_nat nb_items
                 /\ Forall (fun f => fst f = cls) labelled
                 /\ NoDup (map snd labelled))
          /\ (maxsize < nb_items ->
               exists e, Vector.fields maxsize v = Raise e
                         /\ exn_cls e = OverflowError)).
Proof.
  intros made. subst made. unfold UserVector__init__. split; [|split].
  - intros ->. eauto.
  - intros cls -> [Hf|Hs]; unfold Vector.__init__.
    + by rewrite Hf.
    + rewrite Hs. by destruct (Vector.is_field cls).
  - intros v. destruct item_class as [cls|]; [|done].
    unfold Vector.__init__.
    destruct (Vector.is_field cls) eqn:Hf; [|done]. simpl.
    destruct (Vector.static_size cls) as [static|] eqn:Hs; [|done].
    destruct (Z.leb_spec nb_items 0) as [|Hpos]; [done|].
    intros [= <-]. exists cls, static.
    do 4 (split; [done|]). split; [done|].
    unfold Vector.fields, Vector.createFields, Vector.len, Vector.__len__.
    simpl. rewrite (proj2 (Z.ltb_ge nb_items 0)) by lia.
    split.
    + intros Hfit. rewrite (proj2 (Z.ltb_ge maxsize nb_items)) by lia. simpl.
      eexists. split; [done|].
      rewrite map_const_replicate, length_seqZ, label_fields_replicate,
        lookup_empty. simpl. rewrite Z2Nat.id by lia.
      split; [by rewrite length_map, length_seqZ|]. split.
      * apply Forall_forall. intros f Hin.
        apply list_elem_of_fmap in Hin as (i & -> & _). done.
      * rewrite map_map. simpl.
        apply (NoDup_fmap_2_strong (indexed_key item_name)); [|apply NoDup_seqZ].
        intros i j _ _. apply indexed_key_inj.
    + intros Hbig. rewrite (proj2 (Z.ltb_lt maxsize nb_items)) by lia. simpl.
      by eexists.
Qed.

(* ===================================================================== *)
(** * Archives: what the extractors can do to a document                 *)
(* ===================================================================== *)

Lemma has_lookup (m1 m2 : Metadata.t) (k : string) :
  Metadata.data_lookup m1 k = Metadata.data_lookup m2 k ->
  Metadata.has m1 k = Metadata.has m2 k.
Proof. unfold Metadata.has, Metadata.getItems. by intros ->. Qed.

Lemma get_lookup (m1 m2 : Metadata.t) (k : string) (default : pyobj) (i : Z) :
  Metadata.data_lookup m1 k = Metadata.data_lookup m2 k ->
  Metadata.get m1 k default i = Metadata.get m2 k default i.
Proof.
  unfold Metadata.get, Metadata.getItem, Metadata.getItems. by intros ->.
Qed.

(** What [computeCompressionRate] decides depends on the two sizes only:
    on two documents that hold the same sizes it either leaves both alone
    with the same outcome or assigns the same rate to both. *)
Lemma computeCompressionRate_congr (float_of_str : string -> option float)
    (m1 m2 : Metadata.t) :
  Metadata.data_lookup m1 "file_size" = Metadata.data_lookup m2 "file_size" ->
  Metadata.data_lookup m1 "compr_size" = Metadata.data_lookup m2 "compr_size" ->
  (exists r, Archive.computeCompressionRate float_of_str m1 = (m1, r)
             /\ Archive.computeCompressionRate float_of_str m2 = (m2, r))
  \/ (exists rate,
        Archive.computeCompressionRate float_of_str m1
        = Metadata.__setattr__ "compr_rate" (VFloat rate) m1
        /\ Archive.computeCompressionRate float_of_str m2
           = Metadata.__setattr__ "compr_rate" (VFloat rate) m2).
Proof.
  intros Hf Hc.
  unfold Archive.computeCompressionRate, bind, get_self, lift, ret.
  rewrite (has_lookup m1 m2 _ Hf), !(get_lookup m1 m2 "compr_size" _ _ Hc),
    (get_lookup m1 m2 "file_size" _ _ Hf).
  destruct (Metadata.has m2 "file_size") as [[|]|e]; simpl; [|by eauto..].
  destruct (Metadata.get m2 "compr_size" (VInt 0) 0) as [c|e]; [|by eauto].
  destruct (truthy c); simpl; [|by eauto].
  destruct (Metadata.get m2 "file_size" VNone 0) as [f|e]; [|by eauto].
  destruct (truthy f); simpl; [|by eauto].
  destruct (py_float float_of_str f) as [x|e]; [|by eauto].
  destruct (Metadata.get m2 "compr_size" VNone 0) as [den|e]; [|by eauto].
  destruct (float_div x den) as [rate|e]; [|by eauto].
  right. by exists rate.
Qed.

Lemma setattr_edits (k : string) (v : pyobj) (self : Metadata.t) :
  edits [k] self (fst (Metadata.__setattr__ k v self)).
Proof.
  unfold Metadata.__setattr__, edits.
  destruct (Metadata.data_lookup self k) as [d|] eqn:Hd; simpl; [|done].
  pose proof (data_lookup_key _ _ _ Hd) as Hk.
  split; [done|]. split.
  - apply map_key_update. by rewrite key_Data_add.
  - intros k2 Hk2. apply data_lookup_update_ne.
    + intros ->. apply Hk2. apply list_elem_of_here.
    + by rewrite key_Data_add.
Qed.

Lemma setattr_again (k : string) (v : pyobj) (self : Metadata.t) :
  Metadata.__setattr__ k v (fst (Metadata.__setattr__ k v self))
  = Metadata.__setattr__ k v self.
Proof.
  unfold Metadata.__setattr__.
  destruct (Metadata.data_lookup self k) as [d|] eqn:Hd; simpl.
  - pose proof (data_lookup_key _ _ _ Hd) as Hk.
    rewrite (data_lookup_update self k d (Data_add d v) Hd)
      by (by rewrite key_Data_add).
    rewrite Data_add_twice, data_update_twice; [done|].
    by rewrite key_Data_add.
  - by rewrite Hd.
Qed.

(** X16.  [computeCompressionRate] can change nothing but the values of
    compr_rate: the declared keys and every other field stay as they
    were, whatever the outcome.  Calling it again changes nothing more
    and ends the same way. *)
Theorem computeCompressionRate_frame (float_of_str : string -> option float)
    (meta : Metadata.t) :
  let meta' := fst (Archive.computeCompressionRate float_of_str meta) in
  edits ["compr_rate"] meta meta'
  /\ Archive.computeCompressionRate float_of_str meta'
     = Archive.computeCompressionRate float_of_str meta.
Proof.
  intros meta'.
  assert (edits ["compr_rate"] meta meta') as Hed.
  { subst meta'.
    destruct (computeCompressionRate_congr float_of_str meta meta eq_refl eq_refl)
      as [(r & -> & _)|(rate & -> & _)]; [done | apply setattr_edits]. }
  split; [exact Hed|]. destruct Hed as (_ & _ & Hlk).
  destruct (computeCompressionRate_congr float_of_str meta meta')
    as [(r & H1 & H2)|(rate & H1 & H2)].
  - symmetry. apply Hlk. by intros [=]%list_elem_of_singleton.
  - symmetry. apply Hlk. by intros [=]%list_elem_of_singleton.
  - rewrite H2, H1. subst meta'. by rewrite H1.
  - rewrite H2. subst meta'. rewrite H1. apply setattr_again.
Qed.

Lemma grows_by_refl (st : MultipleMetadata.t * Log) : grows_by 0 st st.
Proof.
  split; [done|]. split; [|done]. exists []. by rewrite List.app_nil_r.
Qed.

Lemma grows_by_trans (n m : nat) (st st1 st2 : MultipleMetadata.t * Log) :
  grows_by n st st1 -> grows_by m st1 st2 -> grows_by (n + m) st st2.
Proof.
  intros (Hr1 & (a1 & Hg1 & Hl1 & Hf1) & Hp1)
         (Hr2 & (a2 & Hg2 & Hl2 & Hf2) & Hp2).
  split; [congruence|]. split.
  - exists (a1 ++ a2). rewrite Hg2, Hg1, <- List.app_assoc.
    split; [done|]. split.
    + rewrite length_app. lia.
    + by apply Forall_app.
  - by etrans.
Qed.

Lemma grows_by_mono (n m : nat) (st st' : MultipleMetadata.t * Log) :
  (n <= m)%nat -> grows_by n st st' -> grows_by m st st'.
Proof.
  intros Hle (Hr & (a & Hg & Hl & Hf) & Hp).
  split; [done|]. split; [|done]. exists a. split; [done|]. split; [lia|done].
Qed.

Lemma call_addGroup_grows (k : string) (child : document)
    (header : option string) (st : MultipleMetadata.t * Log) :
  grows_by 1 st (fst (MultipleMetadata.call_addGroup k child header st)).
Proof.
  destruct st as [me lg].
  unfold MultipleMetadata.call_addGroup, MultipleMetadata.addGroup. simpl.
  destruct (__nonzero__ child) eqn:Hnz; simpl.
  2:{ split; [done|]. split; [|by apply prefix_app_r].
      exists []. rewrite List.app_nil_r. split; [done|].
      split; [simpl; lia | constructor]. }
  fold (with_header header child).
  set (kc := if endswith k "[]" then _ else _). destruct kc as [k' counter].
  unfold MultipleMetadata.Dict_append.
  destruct (existsb _ (MultipleMetadata.groups me)); simpl.
  - split; [done|]. split; [|done].
    exists []. rewrite List.app_nil_r. split; [done|].
    split; [simpl; lia | constructor].
  - split; [done|]. split; [|done].
    exists [(k', with_header header child)]. split; [done|].
    split; [simpl; lia|]. repeat constructor. simpl.
    by rewrite nonzero_with_header.
Qed.

Lemma warning_grows (msg : string) (st : MultipleMetadata.t * Log) :
  grows_by 0 st (fst (warning msg st)).
Proof.
  destruct st as [me lg]. simpl. split; [done|].
  split; [|by apply prefix_app_r].
  exists []. rewrite List.app_nil_r. split; [done|]. split; [done|constructor].
Qed.

Lemma fault_tolerant_grows (HACHOIR_ERRORS : exn_class -> bool) (name : string)
    (func : M (MultipleMetadata.t * Log) unit) (n : nat)
    (st : MultipleMetadata.t * Log) :
  grows_by n st (fst (func st)) ->
  grows_by n st (fst (Archive.fault_tolerant HACHOIR_ERRORS name func st)).
Proof.
  unfold Archive.fault_tolerant, try_except.
  destruct (func st) as [st' [u|e]]; simpl; [done|].
  destruct (HACHOIR_ERRORS (exn_cls e)); [|done].
  intros Hg. replace n with (n + 0)%nat by lia.
  eapply grows_by_trans; [exact Hg | apply warning_grows].
Qed.

Lemma fault_tolerant_outcome (HACHOIR_ERRORS : exn_class -> bool)
    (name : string) (func : M (MultipleMetadata.t * Log) unit)
    (st : MultipleMetadata.t * Log) :
  snd (Archive.fault_tolerant HACHOIR_ERRORS name func st) = Return tt
  \/ exists e,
       snd (Archive.fault_tolerant HACHOIR_ERRORS name func st) = Raise e
       /\ HACHOIR_ERRORS (exn_cls e) = false.
Proof.
  unfold Archive.fault_tolerant, try_except.
  destruct (func st) as [st' [[]|e]]; simpl; [by left|].
  destruct (HACHOIR_ERRORS (exn_cls e)) eqn:E.
  - left. by destruct st'.
  - right. by exists e.
Qed.

Section ArchiveFacts.
Variable HACHOIR_ERRORS : exn_class -> bool.
Variable float_repr : float -> string.
Variable float_of_str : string -> option float.
Variable registerAllItems : list Data.
Variable QUALITY_NORMAL : float.

Local Abbreviation processFile :=
  (Archive.processFile HACHOIR_ERRORS float_repr float_of_str registerAllItems
     QUALITY_NORMAL).
Local Abbreviation ZipMetadata_extract :=
  (Archive.ZipMetadata_extract HACHOIR_ERRORS float_repr float_of_str
     registerAllItems QUALITY_NORMAL).
Local Abbreviation Mar_process :=
  (Mar.process float_repr registerAllItems QUALITY_NORMAL).
Local Abbreviation Mar_extract :=
  (Mar.extract float_repr registerAllItems QUALITY_NORMAL).

Lemma processFile_grows (field : Archive.ZipFileField)
    (st : MultipleMetadata.t * Log) :
  grows_by 1 st (fst (processFile field st)).
Proof.
  unfold Archive.processFile. apply fault_tolerant_grows.
  unfold bind, get_self, lift.
  destruct (Metadata_new _ _ _) as [meta|e]; simpl;
    [|apply (grows_by_mono 0); [lia | apply grows_by_refl]].
  unfold Archive.on_local.
  destruct (Archive.processFile_fields _ _ field meta) as [meta' [title|e]];
    simpl; [|apply (grows_by_mono 0); [lia | apply grows_by_refl]].
  pose proof (call_addGroup_grows (Archive.name field) (Plain meta')
                (Some title) st) as Hg.
  by destruct (MultipleMetadata.call_addGroup _ _ _ st) as [st' [b|e]].
Qed.

Lemma Mar_process_grows (field : Mar.MarFileField)
    (st : MultipleMetadata.t * Log) :
  grows_by 1 st (fst (Mar_process field st)).
Proof.
  unfold Mar.process, bind, get_self, lift.
  destruct (Metadata_new _ _ _) as [meta|e]; simpl;
    [|apply (grows_by_mono 0); [lia | apply grows_by_refl]].
  unfold Archive.on_local.
  destruct (Mar.file_fields _ field meta) as [meta' [title|e]];
    simpl; [|apply (grows_by_mono 0); [lia | apply grows_by_refl]].
  pose proof (call_addGroup_grows (Mar.name field) (Plain meta')
                (Some title) st) as Hg.
  by destruct (MultipleMetadata.call_addGroup _ _ _ st) as [st' [b|e]].
Qed.

Lemma enumerate_files_grows {F : Type} (format : string) (max_nb : option Z)
    (process : F -> M (MultipleMetadata.t * Log) unit) :
  (forall f st, grows_by 1 st (fst (process f st))) ->
  forall (files : list F) (index : Z) (st : MultipleMetadata.t * Log),
    grows_by (max_added max_nb index (length files)) st
      (fst (Archive.enumerate_files format max_nb process index files st)).
Proof.
  intros Hstep. induction files as [|f files IH]; intros index st.
  - simpl. apply (grows_by_mono 0); [lia | apply grows_by_refl].
  - cbn [Archive.enumerate_files].
    assert (forall n,
              (1 + max_added max_nb (index + 1) (length files) <= n)%nat ->
              grows_by n st
                (fst ((process f >>>
                       Archive.enumerate_files format max_nb process
                         (index + 1) files) st))) as Hrun.
    { intros n Hn. unfold bind. pose proof (Hstep f st) as Hs.
      destruct (process f st) as [st1 [u|e]]; simpl in *.
      - apply (grows_by_mono
                 (1 + max_added max_nb (index + 1) (length files))); [exact Hn|].
        apply (grows_by_trans 1 _ _ st1); [exact Hs | apply IH].
      - eapply grows_by_mono; [|exact Hs]. lia. }
    destruct max_nb as [bound|].
    + destruct (Z.leb_spec bound index) as [Hge|Hlt].
      * apply (grows_by_mono 0); [lia | apply warning_grows].
      * apply Hrun. unfold max_added. cbn [length]. lia.
    + apply Hrun. unfold max_added. cbn [length]. lia.
Qed.

(** X17.  [processFile] is fault tolerant: it returns normally or raises
    an exception outside HACHOIR_ERRORS, never one inside; and whatever
    happens while an entry is read, the receiver keeps its own fields and
    its groups, gains at most one group, which is not empty, and the log
    only grows. *)
Theorem processFile_fault_tolerant (field : Archive.ZipFileField)
    (st : MultipleMetadata.t * Log) :
  grows_by 1 st (fst (processFile field st))
  /\ (snd (processFile field st) = Return tt
      \/ exists e, snd (processFile field st) = Raise e
                   /\ HACHOIR_ERRORS (exn_cls e) = false).
Proof.
  split; [apply processFile_grows|].
  unfold Archive.processFile. apply fault_tolerant_outcome.
Qed.

(** X18.  [ZipMetadata.extract] only adds groups: the receiver keeps its
    own fields and the groups it had, and gains at most one non-empty
    group per entry of the archive, and at most as many as the bound of
    [maxNbFile] when there is one. *)
Theorem ZipMetadata_extract_grows (files : list Archive.ZipFileField)
    (st : MultipleMetadata.t * Log) :
  let st' := fst (ZipMetadata_extract files st) in
  grows_by (length files) st st'
  /\ (forall bound,
        Archive.maxNbFile (MultipleMetadata.root (fst st))
        = Return (Some bound) ->
        grows_by (Z.to_nat bound) st st').
Proof.
  intros st'. subst st'.
  unfold Archive.ZipMetadata_extract, bind, get_self, lift.
  destruct (Archive.maxNbFile _) as [max_nb|e] eqn:Hmax; simpl.
  - pose proof (enumerate_files_grows "ZIP" max_nb processFile
                  processFile_grows files 0 st) as Hg.
    split.
    + eapply grows_by_mono; [|exact Hg]. unfold max_added.
      destruct max_nb; lia.
    + intros bound [= ->]. eapply grows_by_mono; [|exact Hg].
      unfold max_added. lia.
  - split; [|done]. apply (grows_by_mono 0); [lia | apply grows_by_refl].
Qed.

Lemma edits_trans (ks : list string) (a b c : Metadata.t) :
  edits ks a b -> edits ks b c -> edits ks a c.
Proof.
  intros (Hq1 & Hk1 & Hl1) (Hq2 & Hk2 & Hl2).
  split; [congruence|]. split; [congruence|].
  intros k Hk. rewrite Hl2, Hl1; done.
Qed.

Lemma edits_weaken (ks ks' : list string) (a b : Metadata.t) :
  ks ⊆ ks' -> edits ks a b -> edits ks' a b.
Proof.
  intros Hsub (Hq & Hk & Hl). split; [done|]. split; [done|].
  intros k Hk'. apply Hl. intros Hin. by apply Hk', Hsub.
Qed.

Lemma maxNbFile_quality (a b : Metadata.t) :
  Metadata.quality a = Metadata.quality b ->
  Archive.maxNbFile a = Archive.maxNbFile b.
Proof. unfold Archive.maxNbFile. by intros ->. Qed.

Lemma set_self_edits (k : string) (v : pyobj) (me : MultipleMetadata.t)
    (lg : Log) :
  exists root',
    fst (Mar.set_self k v (me, lg))
    = (MultipleMetadata.mk root' (MultipleMetadata.groups me)
         (MultipleMetadata.key_counter me), lg)
    /\ edits [k] (MultipleMetadata.root me) root'.
Proof.
  unfold Mar.set_self.
  pose proof (setattr_edits k v (MultipleMetadata.root me)) as He.
  destruct (Metadata.__setattr__ k v (MultipleMetadata.root me)) as [root' r].
  by exists root'.
Qed.

Lemma Mar_extract_unfold (mar : Mar.MarFile) (st : MultipleMetadata.t * Log) :
  Mar_extract mar st
  = match Mar.nb_file mar with
    | Raise e => (st, Raise e)
    | Return n =>
        match Mar.set_self "comment"
                (VStr ("Contains " +:+ py_str float_repr n +:+ " files")) st with
        | (st1, Raise e) => (st1, Raise e)
        | (st1, Return _) =>
            match Mar.version mar with
            | Raise e => (st1, Raise e)
            | Return v =>
                match Mar.set_self "format_version"
                        (VStr ("Microsoft Archive version "
                               +:+ py_str float_repr v)) st1 with
                | (st2, Raise e) => (st2, Raise e)
                | (st2, Return _) =>
                    match Archive.maxNbFile (MultipleMetadata.root (fst st2)) with
                    | Raise e => (st2, Raise e)
                    | Return max_nb =>
                        Archive.enumerate_files "MAR" max_nb Mar_process 0
                          (Mar.files mar) st2
                    end
                end
            end
        end
    end.
Proof.
  unfold Mar.extract, bind, lift, get_self.
  destruct (Mar.nb_file mar) as [n|e]; [|done].
  destruct (Mar.set_self _ _ st) as [st1 [[]|e]]; [|done].
  destruct (Mar.version mar) as [v|e]; [|done].
  destruct (Mar.set_self _ _ st1) as [st2 [[]|e]]; [|done].
  by destruct (Archive.maxNbFile _).
Qed.

(** X19.  [MarMetadata.extract] writes to the receiver's own fields under
    the keys comment and format_version only, and never changes its
    quality; it keeps the groups the receiver had and adds at most one
    non-empty group per entry of the archive, and at most as many as the
    bound that [maxNbFile] gives for the quality the receiver had. *)
Theorem Mar_extract_grows (mar : Mar.MarFile) (me : MultipleMetadata.t)
    (lg : Log) :
  let st' := fst (Mar_extract mar (me, lg)) in
  edits ["comment"; "format_version"] (MultipleMetadata.root me)
    (MultipleMetadata.root (fst st'))
  /\ exists added,
       MultipleMetadata.groups (fst st') = MultipleMetadata.groups me ++ added
       /\ (length added <= length (Mar.files mar))%nat
       /\ Forall (fun kg => __nonzero__ (snd kg) = true) added
       /\ (forall bound,
             Archive.maxNbFile (MultipleMetadata.root me)
             = Return (Some bound) ->
             (length added <= Z.to_nat bound)%nat).
Proof.
  intros st'.
  assert (forall root' st1,
            edits ["comment"; "format_version"] (MultipleMetadata.root me) root' ->
            st1 = (MultipleMetadata.mk root' (MultipleMetadata.groups me)
                     (MultipleMetadata.key_counter me), lg) ->
            forall n st2, grows_by n st1 st2 ->
              (forall bound,
                 Archive.maxNbFile (MultipleMetadata.root me)
                 = Return (Some bound) -> (n <= Z.to_nat bound)%nat) ->
              (n <= length (Mar.files mar))%nat ->
              edits ["comment"; "format_version"] (MultipleMetadata.root me)
                (MultipleMetadata.root (fst st2))
              /\ exists added,
                   MultipleMetadata.groups (fst st2)
                   = MultipleMetadata.groups me ++ added
                   /\ (length added <= length (Mar.files mar))%nat
                   /\ Forall (fun kg => __nonzero__ (snd kg) = true) added
                   /\ (forall bound,
                         Archive.maxNbFile (MultipleMetadata.root me)
                         = Return (Some bound) ->
                         (length added <= Z.to_nat bound)%nat)) as Hfin.
  { intros root' st1 Hed -> n st2 (Hr & (added & Hg & Hl & Hf) & _) Hb Hn.
    simpl in Hr, Hg. rewrite Hr. split; [done|].
    exists added. split; [done|]. split; [lia|]. split; [done|].
    intros bound Hbound. specialize (Hb bound Hbound). lia. }
  assert (edits ["comment"; "format_version"] (MultipleMetadata.root me)
            (MultipleMetadata.root me)) as Hid by done.
  subst st'. rewrite Mar_extract_unfold.
  destruct (Mar.nb_file mar) as [n|e].
  2:{ eapply (Hfin _ _ Hid); [by destruct me | apply grows_by_refl
                             | intros; lia | lia]. }
  destruct (set_self_edits "comment"
              (VStr ("Contains " +:+ py_str float_repr n +:+ " files")) me lg)
    as (root1 & Hst1 & Hed1).
  destruct (Mar.set_self _ _ (me, lg)) as [st1 r1]. simpl in Hst1. subst st1.
  apply (edits_weaken _ ["comment"; "format_version"]) in Hed1;
    [|intros x ->%list_elem_of_singleton; apply list_elem_of_here].
  destruct r1 as [[]|e].
  2:{ eapply (Hfin _ _ Hed1); [done | apply grows_by_refl | intros; lia | lia]. }
  destruct (Mar.version mar) as [v|e].
  2:{ eapply (Hfin _ _ Hed1); [done | apply grows_by_refl | intros; lia | lia]. }
  set (me1 := MultipleMetadata.mk root1 _ _).
  destruct (set_self_edits "format_version"
              (VStr ("Microsoft Archive version " +:+ py_str float_repr v))
              me1 lg) as (root2 & Hst2 & Hed2).
  destruct (Mar.set_self _ _ (me1, lg)) as [st2 r2]. simpl in Hst2. subst st2.
  apply (edits_weaken _ ["comment"; "format_version"]) in Hed2;
    [|intros x ->%list_elem_of_singleton;
      apply list_elem_of_further, list_elem_of_here].
  pose proof (edits_trans _ _ _ _ Hed1 Hed2) as Hed.
  destruct r2 as [[]|e].
  2:{ eapply (Hfin _ _ Hed); [done | apply grows_by_refl | intros; lia | lia]. }
  cbn [fst MultipleMetadata.root].
  rewrite (maxNbFile_quality root2 (MultipleMetadata.root me))
    by (by destruct Hed).
  destruct (Archive.maxNbFile (MultipleMetadata.root me)) as [max_nb|e] eqn:Hmax.
  2:{ eapply (Hfin _ _ Hed); [done | apply grows_by_refl | intros; lia | lia]. }
  eapply (Hfin _ _ Hed); [done | | |].
  - apply (enumerate_files_grows "MAR" max_nb Mar_process Mar_process_grows).
  - intros bound [= ->]. unfold max_added. lia.
  - unfold max_added. destruct max_nb; lia.
Qed.

(** X20.  The same unreadable entry in the two kinds of archive.  When
    reading the file name of the first entry raises an error of
    HACHOIR_ERRORS, the ZIP enumeration logs a warning and goes on with
    the next entry on an unchanged document, while the MAR enumeration,
    whose loop body is not fault tolerant, stops with that error and
    reads no further entry. *)
Theorem unreadable_entry (max_nb : option Z) (me : MultipleMetadata.t)
    (lg : Log) (meta : Metadata.t) (e : exn)
    (zf : Archive.ZipFileField) (zrest : list Archive.ZipFileField)
    (mf : Mar.MarFileField) (mrest : list Mar.MarFileField) :
  Metadata_new registerAllItems QUALITY_NORMAL (MultipleMetadata.to_document me)
  = Return meta ->
  Archive.filename zf = Raise e ->
  Mar.filename mf = Raise e ->
  HACHOIR_ERRORS (exn_cls e) = true ->
  max_added max_nb 0 1 = 1%nat ->
  Archive.enumerate_files "ZIP" max_nb processFile 0 (zf :: zrest) (me, lg)
  = Archive.enumerate_files "ZIP" max_nb processFile 1 zrest
      (me, lg ++ [(LogWarning,
                   "Error when calling function processFile(): " +:+ exn_msg e)])
  /\ Archive.enumerate_files "MAR" max_nb Mar_process 0 (mf :: mrest) (me, lg)
     = ((me, lg), Raise e).
Proof.
  intros Hnew Hzf Hmf Hcatch Hmax.
  assert (processFile zf (me, lg)
          = ((me, lg ++ [(LogWarning,
                "Error when calling function processFile(): " +:+ exn_msg e)]),
             Return tt)) as Hz.
  { unfold Archive.processFile, Archive.fault_tolerant, try_except,
      bind, get_self, lift. cbn [fst]. rewrite Hnew.
    unfold Archive.on_local, Archive.processFile_fields, bind at 1 2 3 4 5 6.
    unfold Archive.set_from at 1. unfold bind at 1, lift at 1. rewrite Hzf.
    cbn. by rewrite Hcatch. }
  assert (Mar_process mf (me, lg) = ((me, lg), Raise e)) as Hm.
  { unfold Mar.process, bind, get_self, lift. cbn [fst].
    rewrite Hnew. unfold Archive.on_local, Mar.file_fields, bind at 1 2 3.
    unfold Archive.set_from at 1. unfold bind at 1, lift at 1. by rewrite Hmf. }
  cbn [Archive.enumerate_files].
  destruct max_nb as [bound|].
  - assert ((bound <=? 0) = false) as ->
      by (unfold max_added in Hmax; apply Z.leb_gt; lia).
    unfold bind. by rewrite Hz, Hm.
  - unfold bind. by rewrite Hz, Hm.
Qed.

End ArchiveFacts.

Lemma unreadable_entry_witness :
  let e := mk_exn MissingField "no field filename" in
  let zf := Archive.mk_zip_field "file[0]" (Raise e) (Return (VStr "2010"))
              (Return (VStr "deflate")) None (Return (VInt 300))
              (Return (VInt 100)) in
  let mf := Mar.mk_field "file[0]" (Raise e) (Return (VInt 300)) in
  Archive.enumerate_files "ZIP" None Example.processFile 0 [zf; Example.entry 1]
    (Example.zip f1, [])
  = Archive.enumerate_files "ZIP" None Example.processFile 1 [Example.entry 1]
      (Example.zip f1,
       [(LogWarning, "Error when calling function processFile(): no field filename")])
  /\ Archive.enumerate_files "MAR" None
       (Mar.process Example.float_repr Example.schema Example.QUALITY_NORMAL)
       0 [mf; Mar.mk_field "file[1]" (Return (VStr "b")) (Return (VInt 1))]
       (Example.zip f1, [])
     = ((Example.zip f1, []), Raise e).
Proof.
  intros e zf mf.
  apply (unreadable_entry Example.hachoir_errors Example.float_repr
           Example.float_of_str Example.schema Example.QUALITY_NORMAL None
           (Example.zip f1) []
           (Example.fresh "Metadata" "Metadata" Example.QUALITY_NORMAL)
           e zf [Example.entry 1] mf
           [Mar.mk_field "file[1]" (Return (VStr "b")) (Return (VInt 1))]);
    reflexivity.
Defined.

(* ===================================================================== *)
(** * The export of a container                                          *)
(* ===================================================================== *)

Section ContainerExport.
Variables MIN_PRIORITY MAX_PRIORITY : Z.
Variable makeUnicode : pyobj -> string.
Variables (prio : option Z) (human : bool) (line_prefix : string).

Lemma Metadata_exportPlaintext_nonempty (m : Metadata.t) (title : option string) :
  Metadata.exportPlaintext MIN_PRIORITY MAX_PRIORITY makeUnicode m prio human
    line_prefix title <> Some [].
Proof.
  unfold Metadata.exportPlaintext. by destruct (_ <? _)%nat.
Qed.

Lemma extend_with_groups_flat (groups : list (string * document)) :
  Forall (fun kg => exists m, snd kg = Plain m) groups ->
  forall text,
    extend_with_groups
      (fun metadata title =>
         exportPlaintext MIN_PRIORITY MAX_PRIORITY makeUnicode metadata prio
           human line_prefix (Some title))
      human groups text
    = Return (text ++ concat (map (group_export MIN_PRIORITY MAX_PRIORITY
                                     makeUnicode prio human line_prefix)
                                  groups)).
Proof.
  induction 1 as [|[k doc] groups [m Hm] _ IH]; intros text.
  - simpl. by rewrite List.app_nil_r.
  - simpl in Hm. subst doc.
    cbn [extend_with_groups exportPlaintext rbind map concat].
    unfold group_export at 1. cbn [fst snd base].
    assert ((if negb human then Some k else None)
            = (if human then None else Some k)) as -> by (by destruct human).
    pose proof (Metadata_exportPlaintext_nonempty m
                  (if human then None else Some k)) as Hne.
    destruct (Metadata.exportPlaintext _ _ _ m prio human line_prefix _)
      as [[|line lines]|]; [done | |].
    + rewrite IH. by rewrite <- List.app_assoc.
    + rewrite IH. done.
Qed.

(** X21.  The export of a container whose groups are plain documents is
    the export of its own fields followed by the export of each group in
    insertion order, for every priority and either setting of [human]; a
    group is titled with its key when the export is not for humans and
    with its own header otherwise, and an empty part contributes no line.
    The result is [None] when no part contributes a line. *)
Theorem exportPlaintext_container (m : Metadata.t)
    (groups : list (string * document)) (counter : gmap string Z) :
  flat (Multiple m groups counter) ->
  exportPlaintext MIN_PRIORITY MAX_PRIORITY makeUnicode
    (Multiple m groups counter) prio human line_prefix None
  = Return
      (match
         default [] (Metadata.exportPlaintext MIN_PRIORITY MAX_PRIORITY
                       makeUnicode m prio human line_prefix None)
         ++ concat (map (group_export MIN_PRIORITY MAX_PRIORITY makeUnicode
                           prio human line_prefix) groups)
       with
       | [] => None
       | lines => Some lines
       end).
Proof.
  intros Hflat. simpl in Hflat. cbn [exportPlaintext].
  pose proof (Metadata_exportPlaintext_nonempty m None) as Hne.
  destruct (Metadata.exportPlaintext _ _ _ m prio human line_prefix None)
    as [[|line lines]|]; [done | |]; simpl default;
    rewrite extend_with_groups_flat by done; cbn [rbind].
  - done.
  - simpl. by destruct (concat _).
Qed.

End ContainerExport.

Lemma exportPlaintext_container_witness :
  exportPlaintext Example.MIN_PRIORITY Example.MAX_PRIORITY
    (py_str Example.float_repr)
    (Multiple (Example.named "a.zip")
       [("file[1]", Plain (Example.named "b.txt"));
        ("file[2]", Plain (Example.fresh "Metadata" "Metadata" f1))] ∅)
    None false "- " None
  = Return (Some ["Metadata:"; "- filename: a.zip";
                  "file[1]:"; "- filename: b.txt"]).
Proof.
  rewrite (exportPlaintext_container Example.MIN_PRIORITY Example.MAX_PRIORITY
             (py_str Example.float_repr) None false "- ").
  - reflexivity.
  - repeat constructor; eexists; reflexivity.
Defined.

(** X22.  How [computeCompressionRate] depends on the declared keys.  On a
    document that does not declare file_size it raises the ValueError of
    [has]; when file_size is declared but compr_size is not, the missing
    size counts as zero and it returns without a write; and on a document
    that does not declare compr_rate it never changes the document. *)
Theorem computeCompressionRate_schema (float_of_str : string -> option float)
    (meta : Metadata.t) :
  let keys := map key (Metadata.data meta) in
  ("file_size" ∉ keys ->
     Archive.computeCompressionRate float_of_str meta
     = (meta, Raise (mk_exn ValueError "Metadata has no value 'file_size'")))
  /\ ("file_size" ∈ keys -> "compr_size" ∉ keys ->
      Archive.computeCompressionRate float_of_str meta = (meta, Return tt))
  /\ ("compr_rate" ∉ keys ->
      fst (Archive.computeCompressionRate float_of_str meta) = meta).
Proof.
  intros keys. subst keys. split; [|split].
  - intros Hk%data_lookup_None.
    unfold Archive.computeCompressionRate, bind, get_self, lift,
      Metadata.has, Metadata.getItems. by rewrite Hk.
  - intros Hf Hc%data_lookup_None.
    unfold Archive.computeCompressionRate, bind, get_self, lift, ret.
    destruct (Metadata.has meta "file_size") as [[|]|e] eqn:Hh; cbn [negb].
    + unfold Metadata.get, Metadata.getItem, Metadata.getItems.
      by rewrite Hc.
    + done.
    + exfalso. unfold Metadata.has, Metadata.getItems in Hh.
      destruct (Metadata.data_lookup meta "file_size") eqn:Hd; [done|].
      by apply data_lookup_None in Hd.
  - intros Hr%data_lookup_None.
    destruct (computeCompressionRate_congr float_of_str meta meta eq_refl eq_refl)
      as [(r & -> & _)|(rate & -> & _)]; [done|].
    unfold Metadata.__setattr__. by rewrite Hr.
Qed.

(* ===================================================================== *)
(** * A ZIP extraction from construction to result                       *)
(* ===================================================================== *)

Lemma enumerate_files_outcome {F : Type} (catches : exn_class -> bool)
    (format : string) (max_nb : option Z)
    (process : F -> M (MultipleMetadata.t * Log) unit) :
  (forall f st,
     snd (process f st) = Return tt
     \/ exists e, snd (process f st) = Raise e /\ catches (exn_cls e) = false) ->
  forall (files : list F) (index : Z) (st : MultipleMetadata.t * Log),
    snd (Archive.enumerate_files format max_nb process index files st)
    = Return tt
    \/ exists e,
         snd (Archive.enumerate_files format max_nb process index files st)
         = Raise e
         /\ catches (exn_cls e) = false.
Proof.
  intros Hstep. induction files as [|f files IH]; intros index st.
  - by left.
  - cbn [Archive.enumerate_files].
    assert (forall k : M (MultipleMetadata.t * Log) unit,
              (forall st1, snd (k st1) = Return tt
                           \/ exists e, snd (k st1) = Raise e
                                        /\ catches (exn_cls e) = false) ->
              snd ((process f >>> k) st) = Return tt
              \/ exists e, snd ((process f >>> k) st) = Raise e
                           /\ catches (exn_cls e) = false) as Hrun.
    { intros k Hk. unfold bind. pose proof (Hstep f st) as Hs.
      destruct (process f st) as [st1 [u|e]]; simpl in *; [apply Hk | done]. }
    destruct max_nb as [bound|]; [|by apply Hrun].
    destruct (bound <=? index); [|by apply Hrun].
    left. by destruct st.
Qed.

(** X23.  A ZIP extraction on a freshly constructed container, whatever
    double is passed as quality: [maxNbFile] does not raise, the
    extraction never ends with an error of HACHOIR_ERRORS, and afterwards
    the container holds at most one group per entry of the archive, none
    of them empty. *)
Theorem ZipMetadata_run (HACHOIR_ERRORS : exn_class -> bool)
    (float_repr : float -> string) (float_of_str : string -> option float)
    (registerAllItems : list Data) (QUALITY_NORMAL : float)
    (cls : string) (q : float) (me : MultipleMetadata.t)
    (files : list Archive.ZipFileField) (lg : Log) :
  valid_binary prec emax q = true ->
  MultipleMetadata__init__ registerAllItems cls q = Return me ->
  let run := Archive.ZipMetadata_extract HACHOIR_ERRORS float_repr
               float_of_str registerAllItems QUALITY_NORMAL files (me, lg) in
  (exists max_nb,
     Archive.maxNbFile (MultipleMetadata.root me) = Return max_nb
     /\ forall bound, max_nb = Some bound -> 0 <= bound)
  /\ (snd run = Return tt
      \/ exists e, snd run = Raise e /\ HACHOIR_ERRORS (exn_cls e) = false)
  /\ (length (MultipleMetadata.groups (fst (fst run))) <= length files)%nat
  /\ Forall (fun kg => __nonzero__ (snd kg) = true)
       (MultipleMetadata.groups (fst (fst run))).
Proof.
  intros Hv Hinit run.
  destruct (MultipleMetadata_init_quality _ _ _ _ Hv Hinit) as (Hq & Hg & _).
  destruct (maxNbFile_cases (MultipleMetadata.root me) Hq)
    as (Hfast & Hbest & Hmid).
  assert (exists max_nb,
            Archive.maxNbFile (MultipleMetadata.root me) = Return max_nb
            /\ forall bound, max_nb = Some bound -> 0 <= bound)
    as (max_nb & Hmax & Hpos).
  { destruct (fle (Metadata.quality (MultipleMetadata.root me))
                Archive.QUALITY_FASTEST) eqn:E0.
    - exists (Some 0). split; [by apply Hfast|]. intros b [= <-]. lia.
    - destruct (fle Archive.QUALITY_BEST
                  (Metadata.quality (MultipleMetadata.root me))) eqn:E1.
      + exists None. split; [by apply Hbest | done].
      + destruct (Hmid eq_refl eq_refl) as (n & _ & Hn & Hrun).
        exists (Some (1 + n)). split; [done|]. intros b [= <-]. lia. }
  split; [by exists max_nb|].
  subst run. unfold Archive.ZipMetadata_extract, bind, get_self, lift.
  cbn [fst]. rewrite Hmax.
  split.
  - apply (enumerate_files_outcome HACHOIR_ERRORS).
    intros f st. unfold Archive.processFile. apply fault_tolerant_outcome.
  - pose proof (enumerate_files_grows "ZIP" max_nb _
                  (processFile_grows HACHOIR_ERRORS float_repr float_of_str
                     registerAllItems QUALITY_NORMAL) files 0 (me, lg))
      as (_ & (added & Hadd & Hlen & Hne) & _).
    rewrite Hadd. cbn [fst]. rewrite Hg. simpl.
    split; [|done]. unfold max_added in Hlen. destruct max_nb; lia.
Qed.

Lemma ZipMetadata_run_witness :
  let run := Example.ZipMetadata_extract (Example.entries 3)
               (Example.zip Example.QUALITY_NORMAL, []) in
  (length (MultipleMetadata.groups (fst (fst run)))
   <= length (Example.entries 3))%nat
  /\ Forall (fun kg => __nonzero__ (snd kg) = true)
       (MultipleMetadata.groups (fst (fst run))).
Proof.
  intros run.
  destruct (ZipMetadata_run Example.hachoir_errors Example.float_repr
              Example.float_of_str Example.schema Example.QUALITY_NORMAL
              "ZipMetadata" Example.QUALITY_NORMAL
              (Example.zip Example.QUALITY_NORMAL) (Example.entries 3) []
              eq_refl eq_refl) as (_ & _ & Hlen & Hne).
  split; [exact Hlen | exact Hne].
Defined.
